(** * sage: the provider protocol layer

    A shallow embedding of the three protocol adapters of
    [pkg/sage/providers] (OpenAI, Anthropic, Ollama): request
    construction, endpoint selection, header construction, decoding of a
    blocking response and the line-oriented stream decoders.

    Go strings are byte strings and are modelled by [string]; Go [int]
    values are modelled by [Z] (the adapters only copy and compare them);
    the channel a stream decoder writes to is modelled by the list of the
    [Chunk]s sent on it, in order, before the channel is closed.

    The libraries the adapters call ([encoding/json], [net/http],
    [bufio]) are not part of the repository.  Their behaviour enters the
    model through the classes [Unmarshaler] and [HTTPClient] and through
    the record [Scanner]; every theorem about an adapter holds for all
    instances.  A reference instance of [Unmarshaler], built on a JSON
    parser, is given in [RefJSON] and is used to run the adapters on
    concrete wire text.

    Around the adapters the development covers the provider registry,
    the model list of OpenAI, the profile and account management of the
    client of package [sage] with the requests it hands to a provider,
    the encryption of the secrets, and two helpers of the command line.
    Go maps are finite maps ([gmap]); the methods of the client return
    the client as it is after the call, together with the error; saving
    to disk and AES-GCM enter through the classes [sage.Storage] and
    [secrets.AEAD]. *)

From Stdlib Require Import ZArith NArith Ascii String List Lia Bool.
From stdpp Require Import base strings list gmap sorting.

Open Scope string_scope.
Open Scope list_scope.
Open Scope Z_scope.

(** ** Go's [strings] package *)

Module strings.

(** [s[i:]] *)
Definition slice_from (s : string) (i : nat) : string :=
  substring i (String.length s - i) s.

(** [s[:j]] *)
Definition slice_to (s : string) (j : nat) : string :=
  substring 0 j s.

(** [len(s) >= len(prefix) && s[:len(prefix)] == prefix] *)
Definition HasPrefix (s prefix : string) : bool :=
  (String.length prefix <=? String.length s)%nat
  && String.eqb (slice_to s (String.length prefix)) prefix.

(** [len(s) >= len(suffix) && s[len(s)-len(suffix):] == suffix] *)
Definition HasSuffix (s suffix : string) : bool :=
  (String.length suffix <=? String.length s)%nat
  && String.eqb (slice_from s (String.length s - String.length suffix)) suffix.

Definition TrimPrefix (s prefix : string) : string :=
  if HasPrefix s prefix then slice_from s (String.length prefix) else s.

Definition TrimSuffix (s suffix : string) : string :=
  if HasSuffix s suffix
  then slice_to s (String.length s - String.length suffix)
  else s.

(** [Index(s, substr) >= 0]: some suffix of [s] starts with [substr]. *)
Fixpoint Contains (s substr : string) : bool :=
  HasPrefix s substr
  || match s with
     | EmptyString => false
     | String _ s' => Contains s' substr
     end.

End strings.

(** ** Errors and results *)

(** Go [error] values.  [LibErr] is an error produced by a library;
    the other constructors are the shapes of [fmt.Errorf] the adapters
    use. *)
Inductive error : Type :=
  | LibErr (msg : string)
  | Errorf (msg : string)
      (* fmt.Errorf("<msg>") and fmt.Errorf("<prefix>: %s", s) *)
  | Wrapf (msg : string) (cause : error)
      (* fmt.Errorf("<msg>: %w", cause) *)
  | ErrorfStatus (prefix : string) (status : Z) (msg : string).
      (* fmt.Errorf("<prefix> (%d): %s", status, msg) *)

(** A Go result pair [(T, error)] in which exactly one side is set. *)
Inductive result (T : Type) : Type :=
  | Ok (v : T)
  | Err (e : error).
Arguments Ok {T} v.
Arguments Err {T} e.

(** ** JSON values (the wire form of a request body) *)

#[local] Set Warnings "-register-all".

Inductive json : Type :=
  | JNull
  | JBool (b : bool)
  | JInt (n : Z)
  | JFloat (literal : string)
  | JString (s : string)
  | JArray (items : list json)
  | JObject (fields : list (string * json)).

(** Lookup of a key of a JSON object. *)
Fixpoint assoc (k : string) (fields : list (string * json)) : option json :=
  match fields with
  | [] => None
  | (k', v) :: rest => if String.eqb k k' then Some v else assoc k rest
  end.

Definition json_field (k : string) (j : json) : option json :=
  match j with
  | JObject fields => assoc k fields
  | _ => None
  end.

(** Fields tagged [omitempty] are left out when they hold the zero value
    of their type. *)
Definition omitempty_int (k : string) (n : Z) : list (string * json) :=
  if n =? 0 then [] else [(k, JInt n)].

Definition omitempty_string (k : string) (s : string) : list (string * json) :=
  if String.eqb s "" then [] else [(k, JString s)].

Definition omitempty_bool (k : string) (b : bool) : list (string * json) :=
  if b then [(k, JBool true)] else [].

(** ** The normalized model (registry file and [types.go])

    A projection is named after its Go type and field; the fields of
    [Request], which every adapter reads, keep their bare names. *)

Record Request : Type := {
  Model : string;
  System : string;
  Prompt : string;
  MaxTokens : Z;
  APIKey : string;
  BaseURL : string
}.

Record Usage : Type := {
  Usage_PromptTokens : Z;
  Usage_CompletionTokens : Z
}.

Record Response : Type := {
  Response_Content : string;
  Response_Model : string;
  Response_Usage : Usage
}.

Record Chunk : Type := {
  Chunk_Content : string;
  Chunk_Done : bool;
  Chunk_Error : option error
}.

(** [Chunk{Content: c}], [Chunk{Done: true}] and [Chunk{Error: e}]. *)
Definition chunk_content (c : string) : Chunk :=
  {| Chunk_Content := c; Chunk_Done := false; Chunk_Error := None |}.
Definition chunk_done : Chunk :=
  {| Chunk_Content := ""; Chunk_Done := true; Chunk_Error := None |}.
Definition chunk_error (e : error) : Chunk :=
  {| Chunk_Content := ""; Chunk_Done := false; Chunk_Error := Some e |}.

(** ** The libraries: [net/http], [bufio], [encoding/json] *)

(** What a [bufio.Scanner] over a response body delivers: the tokens
    returned by successive [scanner.Text()] calls while [scanner.Scan()]
    is true, and the value of [scanner.Err()] once it is false ([None]
    when the body ended with a clean end of file). *)
Record Scanner : Type := {
  scan_lines : list string;
  scan_err : option error
}.

(** A response body, as its readers see it: [io.ReadAll] (whose error
    the adapters drop), the JSON stream decoder, and [bufio.NewScanner]. *)
Record Body : Type := {
  body_data : string;
  body_err : option error;
  NewScanner : Scanner
}.

Record HttpRequest : Type := {
  Method : string;
  URL : string;
  Header : gmap string (list string);
  ReqBody : json
}.

Record HttpResponse : Type := {
  StatusCode : Z;
  RespBody : Body
}.

Definition StatusOK : Z := 200.
Definition StatusUnauthorized : Z := 401.
Definition StatusTooManyRequests : Z := 429.

(** [http.NewRequest] (it fails when the URL does not parse) and
    [http.DefaultClient.Do]. *)
Class HTTPClient : Type := {
  url_error : string -> option error;
  Do : HttpRequest -> result HttpResponse
}.

Definition http_NewRequest `{HTTPClient} (method url : string) (body : json)
  : result HttpRequest :=
  match url_error url with
  | Some e => Err e
  | None => Ok {| Method := method; URL := url; Header := ∅; ReqBody := body |}
  end.

(** [json.Unmarshal(data, &v)] and [json.NewDecoder(r).Decode(&v)] into a
    zero value [v] of type [T]. *)
Class Unmarshaler (T : Type) : Type := {
  json_Unmarshal : string -> result T;
  json_Decode : Body -> result T
}.

(** *** [http.Header] *)

Definition is_lower (c : ascii) : bool :=
  let n := N_of_ascii c in ((97 <=? n) && (n <=? 122))%N.
Definition is_upper (c : ascii) : bool :=
  let n := N_of_ascii c in ((65 <=? n) && (n <=? 90))%N.
Definition is_digit (c : ascii) : bool :=
  let n := N_of_ascii c in ((48 <=? n) && (n <=? 57))%N.
Definition to_upper (c : ascii) : ascii :=
  if is_lower c then ascii_of_N (N_of_ascii c - 32) else c.
Definition to_lower (c : ascii) : ascii :=
  if is_upper c then ascii_of_N (N_of_ascii c + 32) else c.

(** The bytes allowed in a header field name (RFC 7230 token). *)
Definition is_token_byte (c : ascii) : bool :=
  is_lower c || is_upper c || is_digit c
  || existsb (Ascii.eqb c)
       (list_ascii_of_string "!#$%&'*+-.^_`|~").

Fixpoint all_bytes (p : ascii -> bool) (s : string) : bool :=
  match s with
  | EmptyString => true
  | String c s' => p c && all_bytes p s'
  end.

Fixpoint canonical_bytes (upper : bool) (s : string) : string :=
  match s with
  | EmptyString => EmptyString
  | String c s' =>
      String (if upper then to_upper c else to_lower c)
             (canonical_bytes (Ascii.eqb c "-") s')
  end.

(** [textproto.CanonicalMIMEHeaderKey]: the first letter and every letter
    after a hyphen in upper case, the others in lower case; a key with a
    byte that is not a token byte is returned unchanged. *)
Definition CanonicalMIMEHeaderKey (s : string) : string :=
  if all_bytes is_token_byte s then canonical_bytes true s else s.

(** [h.Set(key, value)] *)
Definition Header_Set (h : gmap string (list string)) (key value : string)
  : gmap string (list string) :=
  <[CanonicalMIMEHeaderKey key := [value]]> h.

(** [h.Get(key)]: the first value of the key, [""] when there is none. *)
Definition Header_Get (h : gmap string (list string)) (key : string) : string :=
  match h !! CanonicalMIMEHeaderKey key with
  | Some (v :: _) => v
  | _ => ""
  end.

Definition with_header (r : HttpRequest) (key value : string) : HttpRequest :=
  {| Method := Method r; URL := URL r;
     Header := Header_Set (Header r) key value;
     ReqBody := ReqBody r |}.

(** ** The scanning loop shared by the stream decoders

    Every decoder is a goroutine of the form
[[
      for scanner.Scan() { line := scanner.Text(); <body> }
      if err := scanner.Err(); err != nil { ch <- Chunk{Error: ...} }
]]
    whose body sends chunks and either goes on to the next line or
    returns.  [S] is the state the body keeps across lines. *)

Inductive step (S : Type) : Type :=
  | Continue (s : S) (sent : list Chunk)
  | Return (sent : list Chunk).
Arguments Continue {S} s sent.
Arguments Return {S} sent.

(** How the loop was left: by a [return] in its body, or because
    [scanner.Scan()] became false, in the given state. *)
Inductive loop_exit (S : Type) : Type :=
  | Returned
  | Exhausted (s : S).
Arguments Returned {S}.
Arguments Exhausted {S} s.

Fixpoint scan_loop {S : Type} (body : S -> string -> step S)
    (s : S) (lines : list string) : list Chunk * loop_exit S :=
  match lines with
  | [] => ([], Exhausted s)
  | line :: rest =>
      match body s line with
      | Return sent => (sent, Returned)
      | Continue s' sent =>
          let '(out, ex) := scan_loop body s' rest in (sent ++ out, ex)
      end
  end.

(** The goroutine: the loop, then the check of [scanner.Err()] when the
    loop was not left by a [return]. *)
Definition stream {S : Type} (body : S -> string -> step S) (init : S)
    (sc : Scanner) : list Chunk :=
  match scan_loop body init (scan_lines sc) with
  | (out, Returned) => out
  | (out, Exhausted _) =>
      match scan_err sc with
      | Some err => out ++ [chunk_error (Wrapf "stream read error" err)]
      | None => out
      end
  end.

(** ** The OpenAI adapter *)

Module OpenAI.

Definition openaiDefaultURL : string :=
  "https://api.openai.com/v1/chat/completions".

Record openaiMessage : Type := {
  openaiMessage_Role : string;
  openaiMessage_Content : string
}.

Record openaiRequest : Type := {
  openaiRequest_Model : string;
  openaiRequest_Messages : list openaiMessage;
  openaiRequest_MaxTokens : Z;
  openaiRequest_MaxCompletionTokens : Z;
  openaiRequest_Stream : bool
}.

Record openaiChoice : Type := {
  openaiChoice_Message : openaiMessage;
  openaiChoice_Delta : openaiMessage
}.

Record openaiUsage : Type := {
  openaiUsage_PromptTokens : Z;
  openaiUsage_CompletionTokens : Z
}.

Record openaiError : Type := {
  openaiError_Message : string;
  openaiError_Type : string;
  openaiError_Code : string
}.

Record openaiResponse : Type := {
  openaiResponse_Choices : list openaiChoice;
  openaiResponse_Usage : openaiUsage;
  openaiResponse_Error : option openaiError
}.

(** [json.Marshal] of the wire request, following the struct tags. *)
Definition marshal_message (m : openaiMessage) : json :=
  JObject [("role", JString (openaiMessage_Role m));
           ("content", JString (openaiMessage_Content m))].

Definition marshal (r : openaiRequest) : json :=
  JObject ([("model", JString (openaiRequest_Model r));
            ("messages", JArray (map marshal_message (openaiRequest_Messages r)))]
           ++ omitempty_int "max_tokens" (openaiRequest_MaxTokens r)
           ++ omitempty_int "max_completion_tokens"
                (openaiRequest_MaxCompletionTokens r)
           ++ omitempty_bool "stream" (openaiRequest_Stream r)).

Definition usesMaxCompletionTokens (model : string) : bool :=
  strings.HasPrefix model "o1"
  || strings.HasPrefix model "o3"
  || strings.Contains model "gpt-4o"
  || strings.Contains model "gpt-5".

Definition buildRequest (req : Request) (stream : bool) : openaiRequest :=
  let messages := [] in
  let messages :=
    if negb (String.eqb (System req) "")
    then messages ++ [{| openaiMessage_Role := "system";
                         openaiMessage_Content := System req |}]
    else messages in
  let messages :=
    messages ++ [{| openaiMessage_Role := "user";
                    openaiMessage_Content := Prompt req |}] in
  let r := {| openaiRequest_Model := Model req;
              openaiRequest_Messages := messages;
              openaiRequest_MaxTokens := 0;
              openaiRequest_MaxCompletionTokens := 0;
              openaiRequest_Stream := stream |} in
  if MaxTokens req >? 0 then
    if usesMaxCompletionTokens (Model req)
    then {| openaiRequest_Model := openaiRequest_Model r;
            openaiRequest_Messages := openaiRequest_Messages r;
            openaiRequest_MaxTokens := openaiRequest_MaxTokens r;
            openaiRequest_MaxCompletionTokens := MaxTokens req;
            openaiRequest_Stream := openaiRequest_Stream r |}
    else {| openaiRequest_Model := openaiRequest_Model r;
            openaiRequest_Messages := openaiRequest_Messages r;
            openaiRequest_MaxTokens := MaxTokens req;
            openaiRequest_MaxCompletionTokens :=
              openaiRequest_MaxCompletionTokens r;
            openaiRequest_Stream := openaiRequest_Stream r |}
  else r.

Definition endpoint (req : Request) : string :=
  if negb (String.eqb (BaseURL req) "")
  then strings.TrimSuffix (BaseURL req) "/" +:+ "/v1/chat/completions"
  else openaiDefaultURL.

Definition setHeaders (req : HttpRequest) (apiKey : string) : HttpRequest :=
  let req := with_header req "Content-Type" "application/json" in
  with_header req "Authorization" ("Bearer " +:+ apiKey).

Section Adapter.
Context `{HTTPClient} `{Unmarshaler openaiResponse}.

Definition handleError (resp : HttpResponse) : error :=
  let body := body_data (RespBody resp) in
  let fallback := ErrorfStatus "API error" (StatusCode resp) body in
  match json_Unmarshal body with
  | Ok errResp =>
      match openaiResponse_Error errResp with
      | Some e =>
          if StatusCode resp =? StatusUnauthorized
          then Errorf ("invalid API key: " +:+ openaiError_Message e)
          else if StatusCode resp =? StatusTooManyRequests
          then Errorf ("rate limited: " +:+ openaiError_Message e)
          else ErrorfStatus "API error" (StatusCode resp)
                 (openaiError_Message e)
      | None => fallback
      end
  | Err _ => fallback
  end.

(** [json.Marshal] cannot fail on an [openaiRequest], so the first
    error return of the Go function is unreachable. *)
Definition Complete (req : Request) : result Response :=
  let body := buildRequest req false in
  match http_NewRequest "POST" (endpoint req) (marshal body) with
  | Err err => Err (Wrapf "failed to create request" err)
  | Ok httpReq =>
      match Do (setHeaders httpReq (APIKey req)) with
      | Err err => Err (Wrapf "request failed" err)
      | Ok resp =>
          if negb (StatusCode resp =? StatusOK)
          then Err (handleError resp)
          else
            match json_Decode (RespBody resp) with
            | Err err => Err (Wrapf "failed to decode response" err)
            | Ok openaiResp =>
                match openaiResponse_Choices openaiResp with
                | [] => Err (Errorf "no choices in response")
                | choice :: _ =>
                    Ok {| Response_Content :=
                            openaiMessage_Content (openaiChoice_Message choice);
                          Response_Model := Model req;
                          Response_Usage :=
                            {| Usage_PromptTokens :=
                                 openaiUsage_PromptTokens
                                   (openaiResponse_Usage openaiResp);
                               Usage_CompletionTokens :=
                                 openaiUsage_CompletionTokens
                                   (openaiResponse_Usage openaiResp) |} |}
                end
            end
      end
  end.

(** The body of the scanning loop of the goroutine of
    [CompleteStream]; it keeps no state across lines. *)
Definition stream_body (_ : unit) (line : string) : step unit :=
  if String.eqb line "" then Continue tt []
  else if String.eqb line "data: [DONE]" then Return [chunk_done]
  else if negb (strings.HasPrefix line "data: ") then Continue tt []
  else
    let data := strings.TrimPrefix line "data: " in
    match json_Unmarshal data with
    | Err err =>
        Return [chunk_error (Wrapf "failed to parse stream data" err)]
    | Ok streamResp =>
        match openaiResponse_Choices streamResp with
        | choice :: _ =>
            let content := openaiMessage_Content (openaiChoice_Delta choice) in
            if negb (String.eqb content "")
            then Continue tt [chunk_content content]
            else Continue tt []
        | [] => Continue tt []
        end
    end.

Definition decoder (sc : Scanner) : list Chunk := stream stream_body tt sc.

Definition CompleteStream (req : Request) : result (list Chunk) :=
  let body := buildRequest req true in
  match http_NewRequest "POST" (endpoint req) (marshal body) with
  | Err err => Err (Wrapf "failed to create request" err)
  | Ok httpReq =>
      match Do (setHeaders httpReq (APIKey req)) with
      | Err err => Err (Wrapf "request failed" err)
      | Ok resp =>
          if negb (StatusCode resp =? StatusOK)
          then Err (handleError resp)
          else Ok (decoder (NewScanner (RespBody resp)))
      end
  end.

End Adapter.

End OpenAI.

(** ** The Anthropic adapter *)

Module Anthropic.

Definition anthropicDefaultURL : string :=
  "https://api.anthropic.com/v1/messages".
Definition anthropicVersion : string := "2023-06-01".

Record anthropicMessage : Type := {
  anthropicMessage_Role : string;
  anthropicMessage_Content : string
}.

Record anthropicRequest : Type := {
  anthropicRequest_Model : string;
  anthropicRequest_MaxTokens : Z;
  anthropicRequest_System : string;
  anthropicRequest_Messages : list anthropicMessage;
  anthropicRequest_Stream : bool
}.

Record anthropicContent : Type := {
  anthropicContent_Type : string;
  anthropicContent_Text : string
}.

Record anthropicUsage : Type := {
  anthropicUsage_InputTokens : Z;
  anthropicUsage_OutputTokens : Z
}.

Record anthropicError : Type := {
  anthropicError_Type : string;
  anthropicError_Message : string
}.

Record anthropicResponse : Type := {
  anthropicResponse_Content : list anthropicContent;
  anthropicResponse_Usage : anthropicUsage;
  anthropicResponse_Error : option anthropicError
}.

Record anthropicStreamDelta : Type := {
  anthropicStreamDelta_Type : string;
  anthropicStreamDelta_Text : string
}.

Record anthropicStreamEvent : Type := {
  anthropicStreamEvent_Type : string;
  anthropicStreamEvent_Delta : option anthropicStreamDelta
}.

(** The anonymous struct [handleError] decodes an error body into. *)
Record errResp : Type := {
  errResp_Error : option anthropicError
}.

Definition marshal_message (m : anthropicMessage) : json :=
  JObject [("role", JString (anthropicMessage_Role m));
           ("content", JString (anthropicMessage_Content m))].

Definition marshal (r : anthropicRequest) : json :=
  JObject ([("model", JString (anthropicRequest_Model r));
            ("max_tokens", JInt (anthropicRequest_MaxTokens r))]
           ++ omitempty_string "system" (anthropicRequest_System r)
           ++ [("messages",
                JArray (map marshal_message (anthropicRequest_Messages r)))]
           ++ omitempty_bool "stream" (anthropicRequest_Stream r)).

Definition buildRequest (req : Request) (stream : bool) : anthropicRequest :=
  let messages := [{| anthropicMessage_Role := "user";
                      anthropicMessage_Content := Prompt req |}] in
  let maxTokens := MaxTokens req in
  let maxTokens := if maxTokens =? 0 then 1024 else maxTokens in
  {| anthropicRequest_Model := Model req;
     anthropicRequest_MaxTokens := maxTokens;
     anthropicRequest_System := System req;
     anthropicRequest_Messages := messages;
     anthropicRequest_Stream := stream |}.

Definition endpoint (req : Request) : string :=
  if negb (String.eqb (BaseURL req) "")
  then strings.TrimSuffix (BaseURL req) "/" +:+ "/v1/messages"
  else anthropicDefaultURL.

Definition setHeaders (req : HttpRequest) (apiKey : string) : HttpRequest :=
  let req := with_header req "Content-Type" "application/json" in
  let req := with_header req "x-api-key" apiKey in
  with_header req "anthropic-version" anthropicVersion.

(** The loop of [Complete] over the content blocks: the text of the
    first block of type ["text"], the zero string when there is none. *)
Fixpoint first_text (blocks : list anthropicContent) : string :=
  match blocks with
  | [] => ""
  | c :: rest =>
      if String.eqb (anthropicContent_Type c) "text"
      then anthropicContent_Text c
      else first_text rest
  end.

Section Adapter.
Context `{HTTPClient} `{Unmarshaler anthropicResponse}
        `{Unmarshaler anthropicStreamEvent} `{Unmarshaler errResp}.

Definition handleError (resp : HttpResponse) : error :=
  let body := body_data (RespBody resp) in
  let fallback := ErrorfStatus "API error" (StatusCode resp) body in
  match json_Unmarshal body with
  | Ok r =>
      match errResp_Error r with
      | Some e =>
          if StatusCode resp =? StatusUnauthorized
          then Errorf ("invalid API key: " +:+ anthropicError_Message e)
          else if StatusCode resp =? StatusTooManyRequests
          then Errorf ("rate limited: " +:+ anthropicError_Message e)
          else ErrorfStatus "API error" (StatusCode resp)
                 (anthropicError_Message e)
      | None => fallback
      end
  | Err _ => fallback
  end.

Definition Complete (req : Request) : result Response :=
  let body := buildRequest req false in
  match http_NewRequest "POST" (endpoint req) (marshal body) with
  | Err err => Err (Wrapf "failed to create request" err)
  | Ok httpReq =>
      match Do (setHeaders httpReq (APIKey req)) with
      | Err err => Err (Wrapf "request failed" err)
      | Ok resp =>
          if negb (StatusCode resp =? StatusOK)
          then Err (handleError resp)
          else
            match json_Decode (RespBody resp) with
            | Err err => Err (Wrapf "failed to decode response" err)
            | Ok anthropicResp =>
                match anthropicResponse_Content anthropicResp with
                | [] => Err (Errorf "no content in response")
                | _ :: _ =>
                    let content :=
                      first_text (anthropicResponse_Content anthropicResp) in
                    Ok {| Response_Content := content;
                          Response_Model := Model req;
                          Response_Usage :=
                            {| Usage_PromptTokens :=
                                 anthropicUsage_InputTokens
                                   (anthropicResponse_Usage anthropicResp);
                               Usage_CompletionTokens :=
                                 anthropicUsage_OutputTokens
                                   (anthropicResponse_Usage anthropicResp) |} |}
                end
            end
      end
  end.

(** The body of the scanning loop; its state is [currentEvent]. *)
Definition stream_body (currentEvent : string) (line : string)
  : step string :=
  if strings.HasPrefix line "event: "
  then Continue (strings.TrimPrefix line "event: ") []
  else if String.eqb line "" then Continue currentEvent []
  else if negb (strings.HasPrefix line "data: ")
  then Continue currentEvent []
  else
    let data := strings.TrimPrefix line "data: " in
    if String.eqb currentEvent "message_stop" then Return [chunk_done]
    else if negb (String.eqb currentEvent "content_block_delta")
    then Continue currentEvent []
    else
      match json_Unmarshal data with
      | Err err =>
          Return [chunk_error (Wrapf "failed to parse stream data" err)]
      | Ok event =>
          match anthropicStreamEvent_Delta event with
          | Some delta =>
              if String.eqb (anthropicStreamDelta_Type delta) "text_delta"
                 && negb (String.eqb (anthropicStreamDelta_Text delta) "")
              then Continue currentEvent
                     [chunk_content (anthropicStreamDelta_Text delta)]
              else Continue currentEvent []
          | None => Continue currentEvent []
          end
      end.

Definition decoder (sc : Scanner) : list Chunk := stream stream_body "" sc.

Definition CompleteStream (req : Request) : result (list Chunk) :=
  let body := buildRequest req true in
  match http_NewRequest "POST" (endpoint req) (marshal body) with
  | Err err => Err (Wrapf "failed to create request" err)
  | Ok httpReq =>
      match Do (setHeaders httpReq (APIKey req)) with
      | Err err => Err (Wrapf "request failed" err)
      | Ok resp =>
          if negb (StatusCode resp =? StatusOK)
          then Err (handleError resp)
          else Ok (decoder (NewScanner (RespBody resp)))
      end
  end.

End Adapter.

End Anthropic.

(** ** The Ollama adapter *)

Module Ollama.

Definition ollamaDefaultURL : string := "http://localhost:11434".

Record ollamaMessage : Type := {
  ollamaMessage_Role : string;
  ollamaMessage_Content : string
}.

Record ollamaRequest : Type := {
  ollamaRequest_Model : string;
  ollamaRequest_Messages : list ollamaMessage;
  ollamaRequest_Stream : bool
}.

Record ollamaResponse : Type := {
  ollamaResponse_Message : ollamaMessage;
  ollamaResponse_Done : bool;
  ollamaResponse_PromptEvalCount : Z;
  ollamaResponse_EvalCount : Z;
  ollamaResponse_Error : string
}.

Definition marshal_message (m : ollamaMessage) : json :=
  JObject [("role", JString (ollamaMessage_Role m));
           ("content", JString (ollamaMessage_Content m))].

Definition marshal (r : ollamaRequest) : json :=
  JObject [("model", JString (ollamaRequest_Model r));
           ("messages", JArray (map marshal_message (ollamaRequest_Messages r)));
           ("stream", JBool (ollamaRequest_Stream r))].

Definition buildRequest (req : Request) (stream : bool) : ollamaRequest :=
  let messages := [] in
  let messages :=
    if negb (String.eqb (System req) "")
    then messages ++ [{| ollamaMessage_Role := "system";
                         ollamaMessage_Content := System req |}]
    else messages in
  let messages :=
    messages ++ [{| ollamaMessage_Role := "user";
                    ollamaMessage_Content := Prompt req |}] in
  {| ollamaRequest_Model := Model req;
     ollamaRequest_Messages := messages;
     ollamaRequest_Stream := stream |}.

Definition endpoint (req : Request) : string :=
  let baseURL := BaseURL req in
  let baseURL := if String.eqb baseURL "" then ollamaDefaultURL else baseURL in
  strings.TrimSuffix baseURL "/" +:+ "/api/chat".

Definition setHeaders (req : HttpRequest) (apiKey : string) : HttpRequest :=
  let req := with_header req "Content-Type" "application/json" in
  if negb (String.eqb apiKey "")
  then with_header req "Authorization" ("Bearer " +:+ apiKey)
  else req.

Section Adapter.
Context `{HTTPClient} `{Unmarshaler ollamaResponse}.

Definition handleError (resp : HttpResponse) : error :=
  let body := body_data (RespBody resp) in
  match json_Unmarshal body with
  | Ok errResp =>
      if negb (String.eqb (ollamaResponse_Error errResp) "")
      then ErrorfStatus "ollama error" (StatusCode resp)
             (ollamaResponse_Error errResp)
      else ErrorfStatus "ollama error" (StatusCode resp) body
  | Err _ => ErrorfStatus "ollama error" (StatusCode resp) body
  end.

Definition Complete (req : Request) : result Response :=
  let body := buildRequest req false in
  match http_NewRequest "POST" (endpoint req) (marshal body) with
  | Err err => Err (Wrapf "failed to create request" err)
  | Ok httpReq =>
      match Do (setHeaders httpReq (APIKey req)) with
      | Err err => Err (Wrapf "request failed" err)
      | Ok resp =>
          if negb (StatusCode resp =? StatusOK)
          then Err (handleError resp)
          else
            match json_Decode (RespBody resp) with
            | Err err => Err (Wrapf "failed to decode response" err)
            | Ok ollamaResp =>
                if negb (String.eqb (ollamaResponse_Error ollamaResp) "")
                then Err (Errorf ("ollama error: "
                                  +:+ ollamaResponse_Error ollamaResp))
                else
                  Ok {| Response_Content :=
                          ollamaMessage_Content
                            (ollamaResponse_Message ollamaResp);
                        Response_Model := Model req;
                        Response_Usage :=
                          {| Usage_PromptTokens :=
                               ollamaResponse_PromptEvalCount ollamaResp;
                             Usage_CompletionTokens :=
                               ollamaResponse_EvalCount ollamaResp |} |}
            end
      end
  end.

(** The body of the scanning loop; it keeps no state across lines.
    The content of a line is sent before its [done] flag is looked
    at. *)
Definition stream_body (_ : unit) (line : string) : step unit :=
  if String.eqb line "" then Continue tt []
  else
    match json_Unmarshal line with
    | Err err =>
        Return [chunk_error (Wrapf "failed to parse stream data" err)]
    | Ok streamResp =>
        if negb (String.eqb (ollamaResponse_Error streamResp) "")
        then Return [chunk_error
                       (Errorf ("ollama error: "
                                +:+ ollamaResponse_Error streamResp))]
        else
          let sent :=
            if negb (String.eqb
                       (ollamaMessage_Content
                          (ollamaResponse_Message streamResp)) "")
            then [chunk_content
                    (ollamaMessage_Content
                       (ollamaResponse_Message streamResp))]
            else [] in
          if ollamaResponse_Done streamResp
          then Return (sent ++ [chunk_done])
          else Continue tt sent
    end.

Definition decoder (sc : Scanner) : list Chunk := stream stream_body tt sc.

Definition CompleteStream (req : Request) : result (list Chunk) :=
  let body := buildRequest req true in
  match http_NewRequest "POST" (endpoint req) (marshal body) with
  | Err err => Err (Wrapf "failed to create request" err)
  | Ok httpReq =>
      match Do (setHeaders httpReq (APIKey req)) with
      | Err err => Err (Wrapf "request failed" err)
      | Ok resp =>
          if negb (StatusCode resp =? StatusOK)
          then Err (handleError resp)
          else Ok (decoder (NewScanner (RespBody resp)))
      end
  end.

End Adapter.

End Ollama.

(** ** A reference instance of [encoding/json]

    A JSON parser (RFC 8259) and struct decoders that follow the rules
    of [json.Unmarshal]: object keys are matched to the struct tags
    without regard to ASCII case, unknown keys are skipped, a [null]
    leaves a field as it is (and makes a pointer nil and a slice empty),
    a repeated key is decoded into the same field again, and a value of
    the wrong JSON type is an error.  Bytes of a string outside ASCII are
    copied as they are, so the instance agrees with the library on input
    that is valid UTF-8. *)

Module RefJSON.

Definition dq : ascii := "034"%char.
Definition backslash : ascii := "092"%char.

Definition is_ws (c : ascii) : bool :=
  let n := N_of_ascii c in
  ((n =? 32) || (n =? 9) || (n =? 10) || (n =? 13))%N.

Fixpoint skip_ws (s : string) : string :=
  match s with
  | String c r => if is_ws c then skip_ws r else s
  | EmptyString => s
  end.

Fixpoint take_digits (s : string) : string * string :=
  match s with
  | String c r =>
      if is_digit c
      then let '(ds, rest) := take_digits r in (String c ds, rest)
      else (EmptyString, s)
  | EmptyString => (EmptyString, s)
  end.

Fixpoint digits_value (acc : Z) (ds : string) : Z :=
  match ds with
  | String c r => digits_value (10 * acc + (Z.of_N (N_of_ascii c) - 48)) r
  | EmptyString => acc
  end.

(** *** Strings *)

Inductive unit_ : Type :=
  | Byte (c : ascii)
  | Code (u : N).

Definition hex_val (c : ascii) : option N :=
  let n := N_of_ascii c in
  if is_digit c then Some (n - 48)%N
  else if ((97 <=? n) && (n <=? 102))%N then Some (n - 87)%N
  else if ((65 <=? n) && (n <=? 70))%N then Some (n - 55)%N
  else None.

Definition hex4 (a b c d : ascii) : option N :=
  match hex_val a, hex_val b, hex_val c, hex_val d with
  | Some x, Some y, Some z, Some w => Some (((x * 16 + y) * 16 + z) * 16 + w)%N
  | _, _, _, _ => None
  end.

Definition escape_byte (e : ascii) : option ascii :=
  if Ascii.eqb e dq then Some dq
  else if Ascii.eqb e backslash then Some backslash
  else if Ascii.eqb e "/" then Some "/"%char
  else if Ascii.eqb e "b" then Some "008"%char
  else if Ascii.eqb e "f" then Some "012"%char
  else if Ascii.eqb e "n" then Some "010"%char
  else if Ascii.eqb e "r" then Some "013"%char
  else if Ascii.eqb e "t" then Some "009"%char
  else None.

(** The text after an opening quote, up to the closing one. *)
Fixpoint scan_string (s : string) : option (list unit_ * string) :=
  match s with
  | EmptyString => None
  | String c r =>
      if Ascii.eqb c dq then Some ([], r)
      else if Ascii.eqb c backslash then
        match r with
        | String e r' =>
            if Ascii.eqb e "u" then
              match r' with
              | String h1 (String h2 (String h3 (String h4 r''))) =>
                  match hex4 h1 h2 h3 h4, scan_string r'' with
                  | Some u, Some (us, rest) => Some (Code u :: us, rest)
                  | _, _ => None
                  end
              | _ => None
              end
            else
              match escape_byte e, scan_string r' with
              | Some b, Some (us, rest) => Some (Byte b :: us, rest)
              | _, _ => None
              end
        | EmptyString => None
        end
      else if (N_of_ascii c <? 32)%N then None
      else
        match scan_string r with
        | Some (us, rest) => Some (Byte c :: us, rest)
        | None => None
        end
  end.

Definition byte (n : N) : string := String (ascii_of_N n) EmptyString.

Definition utf8 (cp : N) : string :=
  (if cp <? 0x80 then byte cp
   else if cp <? 0x800 then
     byte (0xC0 + cp / 64) +:+ byte (0x80 + cp mod 64)
   else if cp <? 0x10000 then
     byte (0xE0 + cp / 4096) +:+ byte (0x80 + (cp / 64) mod 64)
     +:+ byte (0x80 + cp mod 64)
   else
     byte (0xF0 + cp / 262144) +:+ byte (0x80 + (cp / 4096) mod 64)
     +:+ byte (0x80 + (cp / 64) mod 64) +:+ byte (0x80 + cp mod 64))%N.

Definition is_high (u : N) : bool := ((0xD800 <=? u) && (u <? 0xDC00))%N.
Definition is_low (u : N) : bool := ((0xDC00 <=? u) && (u <? 0xE000))%N.

(** Escapes become UTF-8; a surrogate without its partner becomes
    U+FFFD. *)
Fixpoint decode_units (l : list unit_) : string :=
  match l with
  | [] => EmptyString
  | Byte c :: rest => String c (decode_units rest)
  | Code u :: rest =>
      if is_high u then
        match rest with
        | Code lo :: rest' =>
            if is_low lo
            then utf8 (0x10000 + (u - 0xD800) * 1024 + (lo - 0xDC00))%N
                 +:+ decode_units rest'
            else utf8 0xFFFD%N +:+ decode_units rest
        | _ => utf8 0xFFFD%N +:+ decode_units rest
        end
      else if is_low u then utf8 0xFFFD%N +:+ decode_units rest
      else utf8 u +:+ decode_units rest
  end.

Definition parse_string (s : string) : option (string * string) :=
  match scan_string s with
  | Some (us, rest) => Some (decode_units us, rest)
  | None => None
  end.

(** *** Numbers *)

Definition leading (c : ascii) (s : string) : option string :=
  match s with
  | String c' r => if Ascii.eqb c c' then Some r else None
  | EmptyString => None
  end.

Definition parse_exponent (s : string) : option (bool * string) :=
  match s with
  | String c r =>
      if Ascii.eqb c "e" || Ascii.eqb c "E" then
        let r :=
          match r with
          | String sg r' =>
              if Ascii.eqb sg "+" || Ascii.eqb sg "-" then r' else r
          | EmptyString => r
          end in
        match take_digits r with
        | (EmptyString, _) => None
        | (_, rest) => Some (true, rest)
        end
      else Some (false, s)
  | EmptyString => Some (false, s)
  end.

Definition parse_fraction (s : string) : option (bool * string) :=
  match leading "." s with
  | Some r =>
      match take_digits r with
      | (EmptyString, _) => None
      | (_, rest) => Some (true, rest)
      end
  | None => Some (false, s)
  end.

Definition parse_number (s : string) : option (json * string) :=
  let '(neg, s1) :=
    match leading "-" s with Some r => (true, r) | None => (false, s) end in
  match take_digits s1 with
  | (EmptyString, _) => None
  | (String d ds as ip, s2) =>
      if Ascii.eqb d "0" && negb (String.eqb ds "") then None
      else
        match parse_fraction s2 with
        | None => None
        | Some (frac, s3) =>
            match parse_exponent s3 with
            | None => None
            | Some (exp, rest) =>
                if frac || exp
                then Some (JFloat (strings.slice_to s
                                     (String.length s - String.length rest)),
                           rest)
                else
                  let v := digits_value 0 ip in
                  Some (JInt (if neg then - v else v), rest)
            end
        end
  end.

(** *** Values *)

Definition parse_literal (lit : string) (v : json) (s : string)
  : option (json * string) :=
  if strings.HasPrefix s lit
  then Some (v, strings.TrimPrefix s lit)
  else None.

Fixpoint parse_value (fuel : nat) (s : string) : option (json * string) :=
  match fuel with
  | O => None
  | S fuel =>
      match skip_ws s with
      | EmptyString => None
      | String c r as s0 =>
          if Ascii.eqb c "{" then
            match skip_ws r with
            | String c' r' =>
                if Ascii.eqb c' "}" then Some (JObject [], r')
                else
                  match parse_members fuel (String c' r') with
                  | Some (fs, rest) => Some (JObject fs, rest)
                  | None => None
                  end
            | EmptyString => None
            end
          else if Ascii.eqb c "[" then
            match skip_ws r with
            | String c' r' =>
                if Ascii.eqb c' "]" then Some (JArray [], r')
                else
                  match parse_elements fuel (String c' r') with
                  | Some (xs, rest) => Some (JArray xs, rest)
                  | None => None
                  end
            | EmptyString => None
            end
          else if Ascii.eqb c dq then
            match parse_string r with
            | Some (str, rest) => Some (JString str, rest)
            | None => None
            end
          else if Ascii.eqb c "t" then parse_literal "true" (JBool true) s0
          else if Ascii.eqb c "f" then parse_literal "false" (JBool false) s0
          else if Ascii.eqb c "n" then parse_literal "null" JNull s0
          else parse_number s0
      end
  end

with parse_elements (fuel : nat) (s : string) : option (list json * string) :=
  match fuel with
  | O => None
  | S fuel =>
      match parse_value fuel s with
      | Some (x, rest) =>
          match skip_ws rest with
          | String c r =>
              if Ascii.eqb c "]" then Some ([x], r)
              else if Ascii.eqb c "," then
                match parse_elements fuel r with
                | Some (xs, rest') => Some (x :: xs, rest')
                | None => None
                end
              else None
          | EmptyString => None
          end
      | None => None
      end
  end

with parse_members (fuel : nat) (s : string)
  : option (list (string * json) * string) :=
  match fuel with
  | O => None
  | S fuel =>
      match leading dq (skip_ws s) with
      | Some r =>
          match parse_string r with
          | Some (key, rest) =>
              match leading ":" (skip_ws rest) with
              | Some rest1 =>
                  match parse_value fuel rest1 with
                  | Some (x, rest2) =>
                      match skip_ws rest2 with
                      | String c r' =>
                          if Ascii.eqb c "}" then Some ([(key, x)], r')
                          else if Ascii.eqb c "," then
                            match parse_members fuel r' with
                            | Some (fs, rest3) => Some ((key, x) :: fs, rest3)
                            | None => None
                            end
                          else None
                      | EmptyString => None
                      end
                  | None => None
                  end
              | None => None
              end
          | None => None
          end
      | None => None
      end
  end.

(** The first JSON value of a text. *)
Definition parse_first (s : string) : option (json * string) :=
  parse_value (2 * String.length s + 2) s.

(** A text that is one JSON value between optional white space. *)
Definition parse (s : string) : option json :=
  match parse_first s with
  | Some (v, rest) =>
      if String.eqb (skip_ws rest) "" then Some v else None
  | None => None
  end.

(** *** Decoding into Go values *)

Definition syntax_error : error := LibErr "json: syntax error".
Definition type_error : error := LibErr "json: cannot unmarshal value".

(** A decoder stores a JSON value into an existing Go value. *)
Definition dec (T : Type) : Type := json -> T -> result T.

Definition bind {A B : Type} (r : result A) (k : A -> result B) : result B :=
  match r with
  | Ok v => k v
  | Err e => Err e
  end.

Definition dec_string : dec string := fun j v =>
  match j with
  | JString s => Ok s
  | JNull => Ok v
  | _ => Err type_error
  end.

Definition dec_int : dec Z := fun j v =>
  match j with
  | JInt n =>
      if (- 2 ^ 63 <=? n) && (n <? 2 ^ 63) then Ok n else Err type_error
  | JNull => Ok v
  | _ => Err type_error
  end.

Definition dec_bool : dec bool := fun j v =>
  match j with
  | JBool b => Ok b
  | JNull => Ok v
  | _ => Err type_error
  end.

Definition lower (s : string) : string :=
  string_of_list_ascii (map to_lower (list_ascii_of_string s)).

Fixpoint dec_fields {T : Type} (field : string -> option (dec T))
    (fields : list (string * json)) (v : T) : result T :=
  match fields with
  | [] => Ok v
  | (k, j) :: rest =>
      match field (lower k) with
      | Some d => bind (d j v) (dec_fields field rest)
      | None => dec_fields field rest v
      end
  end.

Definition dec_struct {T : Type} (field : string -> option (dec T)) : dec T :=
  fun j v =>
    match j with
    | JObject fields => dec_fields field fields v
    | JNull => Ok v
    | _ => Err type_error
    end.

Definition dec_ptr {T : Type} (zero : T) (d : dec T) : dec (option T) :=
  fun j v =>
    match j with
    | JNull => Ok None
    | _ => bind (d j (default zero v)) (fun x => Ok (Some x))
    end.

Fixpoint dec_items {T : Type} (zero : T) (d : dec T) (items : list json)
  : result (list T) :=
  match items with
  | [] => Ok []
  | j :: rest =>
      bind (d j zero) (fun x =>
      bind (dec_items zero d rest) (fun xs => Ok (x :: xs)))
  end.

Definition dec_slice {T : Type} (zero : T) (d : dec T) : dec (list T) :=
  fun j v =>
    match j with
    | JArray items => dec_items zero d items
    | JNull => Ok []
    | _ => Err type_error
    end.

(** The decoder of one field: decode into the field's current value
    and store the result. *)
Definition at_field {T F : Type} (get : T -> F) (set : F -> T -> T)
    (d : dec F) : dec T :=
  fun j v => bind (d j (get v)) (fun x => Ok (set x v)).

(** A table from tag to field decoder. *)
Fixpoint table {T : Type} (l : list (string * dec T)) (k : string)
  : option (dec T) :=
  match l with
  | [] => None
  | (tag, d) :: rest => if String.eqb k tag then Some d else table rest k
  end.

Definition unmarshal {T : Type} (d : dec T) (zero : T) (data : string)
  : result T :=
  match parse data with
  | Some j => d j zero
  | None => Err syntax_error
  end.

Definition decode {T : Type} (d : dec T) (zero : T) (b : Body) : result T :=
  match parse_first (body_data b) with
  | Some (j, _) => d j zero
  | None => Err (default syntax_error (body_err b))
  end.

Definition unmarshaler {T : Type} (d : dec T) (zero : T) : Unmarshaler T :=
  {| json_Unmarshal := unmarshal d zero; json_Decode := decode d zero |}.

(** *** The wire types of the adapters *)

Section OpenAITypes.
Import OpenAI.

Definition zero_openaiMessage : openaiMessage :=
  {| openaiMessage_Role := ""; openaiMessage_Content := "" |}.

Definition dec_openaiMessage : dec openaiMessage :=
  dec_struct (table
    [("role", at_field openaiMessage_Role
                (fun x m => {| openaiMessage_Role := x;
                               openaiMessage_Content := openaiMessage_Content m |})
                dec_string);
     ("content", at_field openaiMessage_Content
                   (fun x m => {| openaiMessage_Role := openaiMessage_Role m;
                                  openaiMessage_Content := x |})
                   dec_string)]).

Definition zero_openaiChoice : openaiChoice :=
  {| openaiChoice_Message := zero_openaiMessage;
     openaiChoice_Delta := zero_openaiMessage |}.

Definition dec_openaiChoice : dec openaiChoice :=
  dec_struct (table
    [("message", at_field openaiChoice_Message
                   (fun x c => {| openaiChoice_Message := x;
                                  openaiChoice_Delta := openaiChoice_Delta c |})
                   dec_openaiMessage);
     ("delta", at_field openaiChoice_Delta
                 (fun x c => {| openaiChoice_Message := openaiChoice_Message c;
                                openaiChoice_Delta := x |})
                 dec_openaiMessage)]).

Definition zero_openaiUsage : openaiUsage :=
  {| openaiUsage_PromptTokens := 0; openaiUsage_CompletionTokens := 0 |}.

Definition dec_openaiUsage : dec openaiUsage :=
  dec_struct (table
    [("prompt_tokens",
      at_field openaiUsage_PromptTokens
        (fun x u => {| openaiUsage_PromptTokens := x;
                       openaiUsage_CompletionTokens :=
                         openaiUsage_CompletionTokens u |})
        dec_int);
     ("completion_tokens",
      at_field openaiUsage_CompletionTokens
        (fun x u => {| openaiUsage_PromptTokens := openaiUsage_PromptTokens u;
                       openaiUsage_CompletionTokens := x |})
        dec_int)]).

Definition zero_openaiError : openaiError :=
  {| openaiError_Message := ""; openaiError_Type := "";
     openaiError_Code := "" |}.

Definition dec_openaiError : dec openaiError :=
  dec_struct (table
    [("message", at_field openaiError_Message
                   (fun x e => {| openaiError_Message := x;
                                  openaiError_Type := openaiError_Type e;
                                  openaiError_Code := openaiError_Code e |})
                   dec_string);
     ("type", at_field openaiError_Type
                (fun x e => {| openaiError_Message := openaiError_Message e;
                               openaiError_Type := x;
                               openaiError_Code := openaiError_Code e |})
                dec_string);
     ("code", at_field openaiError_Code
                (fun x e => {| openaiError_Message := openaiError_Message e;
                               openaiError_Type := openaiError_Type e;
                               openaiError_Code := x |})
                dec_string)]).

Definition zero_openaiResponse : openaiResponse :=
  {| openaiResponse_Choices := [];
     openaiResponse_Usage := zero_openaiUsage;
     openaiResponse_Error := None |}.

Definition dec_openaiResponse : dec openaiResponse :=
  dec_struct (table
    [("choices",
      at_field openaiResponse_Choices
        (fun x r => {| openaiResponse_Choices := x;
                       openaiResponse_Usage := openaiResponse_Usage r;
                       openaiResponse_Error := openaiResponse_Error r |})
        (dec_slice zero_openaiChoice dec_openaiChoice));
     ("usage",
      at_field openaiResponse_Usage
        (fun x r => {| openaiResponse_Choices := openaiResponse_Choices r;
                       openaiResponse_Usage := x;
                       openaiResponse_Error := openaiResponse_Error r |})
        dec_openaiUsage);
     ("error",
      at_field openaiResponse_Error
        (fun x r => {| openaiResponse_Choices := openaiResponse_Choices r;
                       openaiResponse_Usage := openaiResponse_Usage r;
                       openaiResponse_Error := x |})
        (dec_ptr zero_openaiError dec_openaiError))]).

Definition openai : Unmarshaler openaiResponse :=
  unmarshaler dec_openaiResponse zero_openaiResponse.

End OpenAITypes.

Section AnthropicTypes.
Import Anthropic.

Definition zero_anthropicContent : anthropicContent :=
  {| anthropicContent_Type := ""; anthropicContent_Text := "" |}.

Definition dec_anthropicContent : dec anthropicContent :=
  dec_struct (table
    [("type", at_field anthropicContent_Type
                (fun x c => {| anthropicContent_Type := x;
                               anthropicContent_Text := anthropicContent_Text c |})
                dec_string);
     ("text", at_field anthropicContent_Text
                (fun x c => {| anthropicContent_Type := anthropicContent_Type c;
                               anthropicContent_Text := x |})
                dec_string)]).

Definition zero_anthropicUsage : anthropicUsage :=
  {| anthropicUsage_InputTokens := 0; anthropicUsage_OutputTokens := 0 |}.

Definition dec_anthropicUsage : dec anthropicUsage :=
  dec_struct (table
    [("input_tokens",
      at_field anthropicUsage_InputTokens
        (fun x u => {| anthropicUsage_InputTokens := x;
                       anthropicUsage_OutputTokens :=
                         anthropicUsage_OutputTokens u |})
        dec_int);
     ("output_tokens",
      at_field anthropicUsage_OutputTokens
        (fun x u => {| anthropicUsage_InputTokens :=
                         anthropicUsage_InputTokens u;
                       anthropicUsage_OutputTokens := x |})
        dec_int)]).

Definition zero_anthropicError : anthropicError :=
  {| anthropicError_Type := ""; anthropicError_Message := "" |}.

Definition dec_anthropicError : dec anthropicError :=
  dec_struct (table
    [("type", at_field anthropicError_Type
                (fun x e => {| anthropicError_Type := x;
                               anthropicError_Message :=
                                 anthropicError_Message e |})
                dec_string);
     ("message", at_field anthropicError_Message
                   (fun x e => {| anthropicError_Type := anthropicError_Type e;
                                  anthropicError_Message := x |})
                   dec_string)]).

Definition zero_anthropicResponse : anthropicResponse :=
  {| anthropicResponse_Content := [];
     anthropicResponse_Usage := zero_anthropicUsage;
     anthropicResponse_Error := None |}.

Definition dec_anthropicResponse : dec anthropicResponse :=
  dec_struct (table
    [("content",
      at_field anthropicResponse_Content
        (fun x r => {| anthropicResponse_Content := x;
                       anthropicResponse_Usage := anthropicResponse_Usage r;
                       anthropicResponse_Error := anthropicResponse_Error r |})
        (dec_slice zero_anthropicContent dec_anthropicContent));
     ("usage",
      at_field anthropicResponse_Usage
        (fun x r => {| anthropicResponse_Content := anthropicResponse_Content r;
                       anthropicResponse_Usage := x;
                       anthropicResponse_Error := anthropicResponse_Error r |})
        dec_anthropicUsage);
     ("error",
      at_field anthropicResponse_Error
        (fun x r => {| anthropicResponse_Content := anthropicResponse_Content r;
                       anthropicResponse_Usage := anthropicResponse_Usage r;
                       anthropicResponse_Error := x |})
        (dec_ptr zero_anthropicError dec_anthropicError))]).

Definition zero_anthropicStreamDelta : anthropicStreamDelta :=
  {| anthropicStreamDelta_Type := ""; anthropicStreamDelta_Text := "" |}.

Definition dec_anthropicStreamDelta : dec anthropicStreamDelta :=
  dec_struct (table
    [("type", at_field anthropicStreamDelta_Type
                (fun x d => {| anthropicStreamDelta_Type := x;
                               anthropicStreamDelta_Text :=
                                 anthropicStreamDelta_Text d |})
                dec_string);
     ("text", at_field anthropicStreamDelta_Text
                (fun x d => {| anthropicStreamDelta_Type :=
                                 anthropicStreamDelta_Type d;
                               anthropicStreamDelta_Text := x |})
                dec_string)]).

Definition zero_anthropicStreamEvent : anthropicStreamEvent :=
  {| anthropicStreamEvent_Type := ""; anthropicStreamEvent_Delta := None |}.

Definition dec_anthropicStreamEvent : dec anthropicStreamEvent :=
  dec_struct (table
    [("type", at_field anthropicStreamEvent_Type
                (fun x e => {| anthropicStreamEvent_Type := x;
                               anthropicStreamEvent_Delta :=
                                 anthropicStreamEvent_Delta e |})
                dec_string);
     ("delta", at_field anthropicStreamEvent_Delta
                 (fun x e => {| anthropicStreamEvent_Type :=
                                  anthropicStreamEvent_Type e;
                                anthropicStreamEvent_Delta := x |})
                 (dec_ptr zero_anthropicStreamDelta dec_anthropicStreamDelta))]).

Definition dec_errResp : dec errResp :=
  dec_struct (table
    [("error", at_field errResp_Error
                 (fun x _ => {| errResp_Error := x |})
                 (dec_ptr zero_anthropicError dec_anthropicError))]).

Definition anthropic_response : Unmarshaler anthropicResponse :=
  unmarshaler dec_anthropicResponse zero_anthropicResponse.
Definition anthropic_event : Unmarshaler anthropicStreamEvent :=
  unmarshaler dec_anthropicStreamEvent zero_anthropicStreamEvent.
Definition anthropic_error : Unmarshaler errResp :=
  unmarshaler dec_errResp {| errResp_Error := None |}.

End AnthropicTypes.

Section OllamaTypes.
Import Ollama.

Definition zero_ollamaMessage : ollamaMessage :=
  {| ollamaMessage_Role := ""; ollamaMessage_Content := "" |}.

Definition dec_ollamaMessage : dec ollamaMessage :=
  dec_struct (table
    [("role", at_field ollamaMessage_Role
                (fun x m => {| ollamaMessage_Role := x;
                               ollamaMessage_Content := ollamaMessage_Content m |})
                dec_string);
     ("content", at_field ollamaMessage_Content
                   (fun x m => {| ollamaMessage_Role := ollamaMessage_Role m;
                                  ollamaMessage_Content := x |})
                   dec_string)]).

Definition zero_ollamaResponse : ollamaResponse :=
  {| ollamaResponse_Message := zero_ollamaMessage;
     ollamaResponse_Done := false;
     ollamaResponse_PromptEvalCount := 0;
     ollamaResponse_EvalCount := 0;
     ollamaResponse_Error := "" |}.

Definition dec_ollamaResponse : dec ollamaResponse :=
  dec_struct (table
    [("message",
      at_field ollamaResponse_Message
        (fun x r => {| ollamaResponse_Message := x;
                       ollamaResponse_Done := ollamaResponse_Done r;
                       ollamaResponse_PromptEvalCount :=
                         ollamaResponse_PromptEvalCount r;
                       ollamaResponse_EvalCount := ollamaResponse_EvalCount r;
                       ollamaResponse_Error := ollamaResponse_Error r |})
        dec_ollamaMessage);
     ("done",
      at_field ollamaResponse_Done
        (fun x r => {| ollamaResponse_Message := ollamaResponse_Message r;
                       ollamaResponse_Done := x;
                       ollamaResponse_PromptEvalCount :=
                         ollamaResponse_PromptEvalCount r;
                       ollamaResponse_EvalCount := ollamaResponse_EvalCount r;
                       ollamaResponse_Error := ollamaResponse_Error r |})
        dec_bool);
     ("prompt_eval_count",
      at_field ollamaResponse_PromptEvalCount
        (fun x r => {| ollamaResponse_Message := ollamaResponse_Message r;
                       ollamaResponse_Done := ollamaResponse_Done r;
                       ollamaResponse_PromptEvalCount := x;
                       ollamaResponse_EvalCount := ollamaResponse_EvalCount r;
                       ollamaResponse_Error := ollamaResponse_Error r |})
        dec_int);
     ("eval_count",
      at_field ollamaResponse_EvalCount
        (fun x r => {| ollamaResponse_Message := ollamaResponse_Message r;
                       ollamaResponse_Done := ollamaResponse_Done r;
                       ollamaResponse_PromptEvalCount :=
                         ollamaResponse_PromptEvalCount r;
                       ollamaResponse_EvalCount := x;
                       ollamaResponse_Error := ollamaResponse_Error r |})
        dec_int);
     ("error",
      at_field ollamaResponse_Error
        (fun x r => {| ollamaResponse_Message := ollamaResponse_Message r;
                       ollamaResponse_Done := ollamaResponse_Done r;
                       ollamaResponse_PromptEvalCount :=
                         ollamaResponse_PromptEvalCount r;
                       ollamaResponse_EvalCount := ollamaResponse_EvalCount r;
                       ollamaResponse_Error := x |})
        dec_string)]).

Definition ollama : Unmarshaler ollamaResponse :=
  unmarshaler dec_ollamaResponse zero_ollamaResponse.

End OllamaTypes.

(** Wire text for the examples: [q s] is [s] between double quotes. *)
Definition q (s : string) : string :=
  String dq s +:+ String dq EmptyString.


End RefJSON.

(** ** Vocabulary of the properties *)

(** The request [req] with its base-URL override replaced. *)
Definition with_BaseURL (req : Request) (b : string) : Request :=
  {| Model := Model req; System := System req; Prompt := Prompt req;
     MaxTokens := MaxTokens req; APIKey := APIKey req; BaseURL := b |}.

(** The model identifiers that take the alternate token-limit field, in
    the words of the specification: prefix [o1] or [o3], or containing
    [gpt-4o] or [gpt-5]. *)
Definition reasoning_or_newer (model : string) : Prop :=
  (exists t, model = "o1" +:+ t)
  \/ (exists t, model = "o3" +:+ t)
  \/ (exists a b, model = a +:+ "gpt-4o" +:+ b)
  \/ (exists a b, model = a +:+ "gpt-5" +:+ b).

(** A chunk that carries content and ends nothing. *)
Definition is_content_chunk (c : Chunk) : Prop :=
  Chunk_Content c <> "" /\ Chunk_Done c = false /\ Chunk_Error c = None.

(** A chunk that ends a stream: done, or an error. *)
Definition is_terminal_chunk (c : Chunk) : Prop :=
  c = chunk_done \/ exists e, c = chunk_error e.

(** A stub of the HTTP client, as a test server would be: every URL
    parses and every request is answered with the same status and body. *)
Definition stub_body (data : string) (lines : list string) : Body :=
  {| body_data := data; body_err := None;
     NewScanner := {| scan_lines := lines; scan_err := None |} |}.

Definition stub_client (status : Z) (body : Body) : HTTPClient :=
  {| url_error := fun _ => None;
     Do := fun _ => Ok {| StatusCode := status; RespBody := body |} |}.

(** One content delta on the wire of each provider, with the content
    [c] it carries: the lines of the event, followed by any number of
    blank lines.  A content delta carries content: [c] is not empty. *)
Definition openai_delta `{Unmarshaler OpenAI.openaiResponse}
    (c : string) (frame : list string) : Prop :=
  exists payload resp choice rest n,
    frame = ("data: " +:+ payload) :: replicate n ""
    /\ payload <> "[DONE]"
    /\ json_Unmarshal payload = Ok resp
    /\ OpenAI.openaiResponse_Choices resp = choice :: rest
    /\ OpenAI.openaiMessage_Content (OpenAI.openaiChoice_Delta choice) = c
    /\ c <> "".

Definition anthropic_delta `{Unmarshaler Anthropic.anthropicStreamEvent}
    (c : string) (frame : list string) : Prop :=
  exists payload event delta n,
    frame = "event: content_block_delta" :: ("data: " +:+ payload)
              :: replicate n ""
    /\ json_Unmarshal payload = Ok event
    /\ Anthropic.anthropicStreamEvent_Delta event = Some delta
    /\ Anthropic.anthropicStreamDelta_Type delta = "text_delta"
    /\ Anthropic.anthropicStreamDelta_Text delta = c
    /\ c <> "".

Definition ollama_delta `{Unmarshaler Ollama.ollamaResponse}
    (c : string) (frame : list string) : Prop :=
  exists line resp n,
    frame = line :: replicate n ""
    /\ line <> ""
    /\ json_Unmarshal line = Ok resp
    /\ Ollama.ollamaResponse_Error resp = ""
    /\ Ollama.ollamaMessage_Content (Ollama.ollamaResponse_Message resp) = c
    /\ c <> ""
    /\ Ollama.ollamaResponse_Done resp = false.

(** The terminal marker of Ollama: a line whose object has [done] set
    and carries neither content nor an error. *)
Definition ollama_terminal `{Unmarshaler Ollama.ollamaResponse}
    (line : string) : Prop :=
  line <> ""
  /\ exists resp,
       json_Unmarshal line = Ok resp
       /\ Ollama.ollamaResponse_Error resp = ""
       /\ Ollama.ollamaMessage_Content (Ollama.ollamaResponse_Message resp) = ""
       /\ Ollama.ollamaResponse_Done resp = true.

(** Wire text of the three streaming protocols, for the examples.  The
    content [c] is put between quotes as it is, so it must need no
    escaping. *)
Module Wire.
Import RefJSON.

(** [{"choices":[{"delta":{"content":c}}]}] *)
Definition openai_chunk (c : string) : string :=
  "{" +:+ q "choices" +:+ ":[{" +:+ q "delta" +:+ ":{" +:+ q "content"
  +:+ ":" +:+ q c +:+ "}}]}".

(** [{"delta":{"type":"text_delta","text":c}}] *)
Definition anthropic_text_delta (c : string) : string :=
  "{" +:+ q "delta" +:+ ":{" +:+ q "type" +:+ ":" +:+ q "text_delta" +:+ ","
  +:+ q "text" +:+ ":" +:+ q c +:+ "}}".

(** [{"message":{"content":c},"done":false}] and the same with [true] *)
Definition ollama_message (c : string) (done : bool) : string :=
  "{" +:+ q "message" +:+ ":{" +:+ q "content" +:+ ":" +:+ q c +:+ "},"
  +:+ q "done" +:+ ":" +:+ (if done then "true" else "false") +:+ "}".

Definition lines (l : list string) : Scanner :=
  {| scan_lines := l; scan_err := None |}.

(** The request of the blocking scenario of the specification. *)
Definition scenario_request : Request :=
  {| Model := "gpt-4o"; System := ""; Prompt := "2+2?"; MaxTokens := 0;
     APIKey := "k"; BaseURL := "" |}.

(** [{"choices":[]}] *)
Definition no_choices : Body := stub_body ("{" +:+ q "choices" +:+ ":[]}") [].

(** [{"choices":[{"message":{"content":"4"}}],
     "usage":{"prompt_tokens":5,"completion_tokens":1}}] *)
Definition one_choice : Body :=
  stub_body ("{" +:+ q "choices" +:+ ":[{" +:+ q "message" +:+ ":{"
             +:+ q "content" +:+ ":" +:+ q "4" +:+ "}}],"
             +:+ q "usage" +:+ ":{" +:+ q "prompt_tokens" +:+ ":5,"
             +:+ q "completion_tokens" +:+ ":1}}") [].

(** [{"content":[{"type":"tool_use","text":"x"},{"type":"text","text":"4"}]}] *)
Definition two_blocks : Body :=
  stub_body ("{" +:+ q "content" +:+ ":[{" +:+ q "type" +:+ ":"
             +:+ q "tool_use" +:+ "," +:+ q "text" +:+ ":" +:+ q "x" +:+ "},{"
             +:+ q "type" +:+ ":" +:+ q "text" +:+ ","
             +:+ q "text" +:+ ":" +:+ q "4" +:+ "}]}") [].

End Wire.

(** ** Further vocabulary *)

(** The keys of a JSON object, in the order they are written. *)
Definition json_keys (j : json) : list string :=
  match j with
  | JObject fields => map fst fields
  | _ => []
  end.

(** A stream as every decoder produces it: content chunks, then at most
    one terminal chunk. *)
Definition well_formed_stream (out : list Chunk) : Prop :=
  exists pre tail,
    out = pre ++ tail
    /\ Forall is_content_chunk pre
    /\ (tail = [] \/ exists t, tail = [t] /\ is_terminal_chunk t).

(** The lines each decoder looks at. *)
Definition openai_payload_line (line : string) : bool :=
  strings.HasPrefix line "data: ".

Definition anthropic_sse_line (line : string) : bool :=
  strings.HasPrefix line "event: " || strings.HasPrefix line "data: ".

Definition ollama_payload_line (line : string) : bool :=
  negb (String.eqb line "").

(** ** The provider registry (registry file of package [providers]) *)

Module Registry.

(** The interface [Provider], as the record of its methods. *)
Record Provider : Type := {
  Provider_Name : string;
  Provider_Complete : Request -> result Response;
  Provider_CompleteStream : Request -> result (list Chunk)
}.

(** [type Constructor func() Provider] *)
Definition Constructor : Type := unit -> Provider.

(** The order of Go strings: byte by byte, a proper prefix first. *)
Definition string_le (s t : string) : Prop := String.leb s t = true.

#[export] Instance string_le_dec (s t : string) : Decision (string_le s t).
Proof. unfold string_le. apply _. Defined.

(** [sort.Strings] *)
Definition sort_Strings (l : list string) : list string :=
  merge_sort string_le l.

(** The package variable [registry] is passed as an argument, and
    returned by the function that changes it. *)
Definition Register (registry : gmap string Constructor) (name : string)
    (constructor : Constructor) : gmap string Constructor :=
  <[name := constructor]> registry.

Definition Get (registry : gmap string Constructor) (name : string)
  : result Provider :=
  match registry !! name with
  | Some constructor => Ok (constructor tt)
  | None => Err (Errorf ("unknown provider: " +:+ name))
  end.

(** The names are collected in the order the map is ranged over, which
    Go leaves open, and then sorted. *)
Definition List (registry : gmap string Constructor) : list string :=
  sort_Strings (map fst (map_to_list registry)).

Definition Exists (registry : gmap string Constructor) (name : string) : bool :=
  match registry !! name with
  | Some _ => true
  | None => false
  end.

End Registry.

(** ** Listing the models of OpenAI *)

Module OpenAIModels.

(** [ModelInfo], with the three fields its users read. *)
Record ModelInfo : Type := {
  ModelInfo_ID : string;
  ModelInfo_Name : string;
  ModelInfo_Description : string
}.

Record openaiModel : Type := {
  openaiModel_ID : string;
  openaiModel_Object : string;
  openaiModel_OwnedBy : string
}.

Record openaiModelsResponse : Type := {
  openaiModelsResponse_Data : list openaiModel
}.

(** The loop of [ListModels] over [result.Data]. *)
Fixpoint chat_models (data : list openaiModel) : list ModelInfo :=
  match data with
  | [] => []
  | m :: rest =>
      if strings.Contains (openaiModel_ID m) "gpt"
         || strings.Contains (openaiModel_ID m) "o1"
         || strings.Contains (openaiModel_ID m) "o3"
      then {| ModelInfo_ID := openaiModel_ID m;
              ModelInfo_Name := openaiModel_ID m;
              ModelInfo_Description := "" |} :: chat_models rest
      else chat_models rest
  end.

Definition models_endpoint (baseURL : string) : string :=
  if negb (String.eqb baseURL "")
  then strings.TrimSuffix baseURL "/" +:+ "/v1/models"
  else "https://api.openai.com/v1/models".

Section Adapter.
Context `{HTTPClient} `{Unmarshaler openaiModelsResponse}.

(** The request has no body ([nil]), written [JNull]. *)
Definition ListModels (apiKey baseURL : string) : result (list ModelInfo) :=
  let endpoint := models_endpoint baseURL in
  match http_NewRequest "GET" endpoint JNull with
  | Err err => Err (Wrapf "failed to create request" err)
  | Ok req =>
      let req := with_header req "Authorization" ("Bearer " +:+ apiKey) in
      match Do req with
      | Err err => Err (Wrapf "request failed" err)
      | Ok resp =>
          if negb (StatusCode resp =? StatusOK)
          then Err (ErrorfStatus "API error" (StatusCode resp)
                      (body_data (RespBody resp)))
          else
            match json_Decode (RespBody resp) with
            | Err err => Err (Wrapf "failed to decode response" err)
            | Ok result =>
                Ok (chat_models (openaiModelsResponse_Data result))
            end
      end
  end.

End Adapter.

End OpenAIModels.

(** ** Package [sage]: configuration and client *)

Module sage.

(** [providers.Request], before the name is taken by [sage.Request]. *)
Definition ProviderRequest : Type := Request.

(** [types.go].  The types [Response], [Usage] and [Chunk] of this
    package have the fields of their namesakes of package [providers];
    the records above stand for both, and the client copies them field
    by field. *)
Record Request : Type := {
  Request_Prompt : string;
  Request_System : string;
  Request_MaxTokens : Z
}.

Record Profile : Type := {
  Profile_Name : string;
  Profile_Provider : string;
  Profile_Account : string;
  Profile_Model : string
}.

Record ProviderConfig : Type := {
  ProviderConfig_Accounts : list string;
  ProviderConfig_BaseURL : string
}.

Record Config : Type := {
  Config_Providers : gmap string ProviderConfig;
  Config_Profiles : gmap string Profile;
  Config_DefaultProfile : string
}.

Record Client : Type := {
  Client_config : Config;
  Client_secrets : gmap string string
}.

(** Writing the configuration and the secrets to disk: the outcome of
    [Config.Save] and of [SaveSecrets] ([None] is a nil error). *)
Class Storage : Type := {
  Config_Save : Config -> option error;
  SaveSecrets : gmap string string -> option error
}.

(** The zero value a Go map read gives for a missing key. *)
Definition zero_ProviderConfig : ProviderConfig :=
  {| ProviderConfig_Accounts := []; ProviderConfig_BaseURL := "" |}.

(** [Config.GetProfile]; [errors.New] makes an error of its message as
    [fmt.Errorf] does. *)
Definition GetProfile (c : Config) (name : string) : result Profile :=
  let name := if String.eqb name "" then Config_DefaultProfile c else name in
  if String.eqb name ""
  then Err (Errorf "no profile specified and no default set")
  else
    match Config_Profiles c !! name with
    | None => Err (Errorf ("profile not found: " +:+ name))
    | Some profile =>
        Ok {| Profile_Name := name;
              Profile_Provider := Profile_Provider profile;
              Profile_Account := Profile_Account profile;
              Profile_Model := Profile_Model profile |}
    end.

Definition secretKey (provider account : string) : string :=
  provider +:+ ":" +:+ account.

Definition buildProviderRequest (c : Client) (profileName : string)
    (req : Request) : result ProviderRequest :=
  match GetProfile (Client_config c) profileName with
  | Err err => Err err
  | Ok profile =>
      let secretKey := Profile_Provider profile +:+ ":" +:+ Profile_Account profile in
      let apiKey := default "" (Client_secrets c !! secretKey) in
      let baseURL :=
        match Config_Providers (Client_config c) !! Profile_Provider profile with
        | Some providerConfig => ProviderConfig_BaseURL providerConfig
        | None => ""
        end in
      Ok {| Model := Profile_Model profile;
            System := Request_System req;
            Prompt := Request_Prompt req;
            MaxTokens := Request_MaxTokens req;
            APIKey := apiKey;
            BaseURL := baseURL |}
  end.

(** [Client.Complete].  The second [GetProfile] drops its error; it
    cannot fail after [buildProviderRequest] has succeeded, and the
    branch stands for the nil dereference that would follow. *)
Definition Complete (registry : gmap string Registry.Constructor)
    (c : Client) (profileName : string) (req : Request) : result Response :=
  match buildProviderRequest c profileName req with
  | Err err => Err err
  | Ok providerReq =>
      match GetProfile (Client_config c) profileName with
      | Err _ => Err (LibErr "nil pointer dereference")
      | Ok profile =>
          match Registry.Get registry (Profile_Provider profile) with
          | Err err => Err err
          | Ok provider =>
              match Registry.Provider_Complete provider providerReq with
              | Err err => Err err
              | Ok providerResp =>
                  Ok {| Response_Content := Response_Content providerResp;
                        Response_Model := Response_Model providerResp;
                        Response_Usage :=
                          {| Usage_PromptTokens :=
                               Usage_PromptTokens (Response_Usage providerResp);
                             Usage_CompletionTokens :=
                               Usage_CompletionTokens
                                 (Response_Usage providerResp) |} |}
              end
          end
      end
  end.

(** [Client.CompleteStream]: the goroutine forwards every chunk of the
    provider's channel, in order, until that channel is closed. *)
Definition CompleteStream (registry : gmap string Registry.Constructor)
    (c : Client) (profileName : string) (req : Request)
  : result (list Chunk) :=
  match buildProviderRequest c profileName req with
  | Err err => Err err
  | Ok providerReq =>
      match GetProfile (Client_config c) profileName with
      | Err _ => Err (LibErr "nil pointer dereference")
      | Ok profile =>
          match Registry.Get registry (Profile_Provider profile) with
          | Err err => Err err
          | Ok provider =>
              match Registry.Provider_CompleteStream provider providerReq with
              | Err err => Err err
              | Ok providerCh =>
                  Ok (map (fun providerChunk =>
                             {| Chunk_Content := Chunk_Content providerChunk;
                                Chunk_Done := Chunk_Done providerChunk;
                                Chunk_Error := Chunk_Error providerChunk |})
                          providerCh)
              end
          end
      end
  end.

Definition with_config (c : Client) (config : Config) : Client :=
  {| Client_config := config; Client_secrets := Client_secrets c |}.

Definition with_secrets (c : Client) (secrets : gmap string string) : Client :=
  {| Client_config := Client_config c; Client_secrets := secrets |}.

Definition with_Profiles (config : Config) (profiles : gmap string Profile)
  : Config :=
  {| Config_Providers := Config_Providers config;
     Config_Profiles := profiles;
     Config_DefaultProfile := Config_DefaultProfile config |}.

Definition with_Providers (config : Config)
    (providers : gmap string ProviderConfig) : Config :=
  {| Config_Providers := providers;
     Config_Profiles := Config_Profiles config;
     Config_DefaultProfile := Config_DefaultProfile config |}.

Definition with_DefaultProfile (config : Config) (name : string) : Config :=
  {| Config_Providers := Config_Providers config;
     Config_Profiles := Config_Profiles config;
     Config_DefaultProfile := name |}.

(** [for _, a := range accounts { if a == account ... }] *)
Fixpoint has_account (accounts : list string) (account : string) : bool :=
  match accounts with
  | [] => false
  | a :: rest => if String.eqb a account then true else has_account rest account
  end.

(** The accounts kept by the loop of [RemoveProviderAccount]. *)
Fixpoint without_account (accounts : list string) (account : string)
  : list string :=
  match accounts with
  | [] => []
  | a :: rest =>
      if String.eqb a account
      then without_account rest account
      else a :: without_account rest account
  end.

Section Management.
Context `{Storage}.
Variable registry : gmap string Registry.Constructor.

(** The methods below change the client in memory and then save; they
    return the client as it is afterwards, with the error. *)
Definition AddProfile (c : Client) (name : string) (p : Profile)
  : Client * option error :=
  if negb (Registry.Exists registry (Profile_Provider p))
  then (c, Some (Errorf ("unknown provider: " +:+ Profile_Provider p)))
  else
    let config :=
      with_Profiles (Client_config c)
        (<[name := p]> (Config_Profiles (Client_config c))) in
    (with_config c config, Config_Save config).

Definition RemoveProfile (c : Client) (name : string) : Client * option error :=
  match Config_Profiles (Client_config c) !! name with
  | None => (c, Some (Errorf ("profile not found: " +:+ name)))
  | Some _ =>
      if String.eqb (Config_DefaultProfile (Client_config c)) name
      then (c, Some (Errorf ("cannot remove default profile: " +:+ name)))
      else
        let config :=
          with_Profiles (Client_config c)
            (delete name (Config_Profiles (Client_config c))) in
        (with_config c config, Config_Save config)
  end.

Definition SetDefaultProfile (c : Client) (name : string)
  : Client * option error :=
  match Config_Profiles (Client_config c) !! name with
  | None => (c, Some (Errorf ("profile not found: " +:+ name)))
  | Some _ =>
      let config := with_DefaultProfile (Client_config c) name in
      (with_config c config, Config_Save config)
  end.

Definition AddProviderAccount (c : Client) (providerName account apiKey : string)
  : Client * option error :=
  if negb (Registry.Exists registry providerName)
  then (c, Some (Errorf ("unknown provider: " +:+ providerName)))
  else
    let providerConfig :=
      default zero_ProviderConfig
        (Config_Providers (Client_config c) !! providerName) in
    if has_account (ProviderConfig_Accounts providerConfig) account
    then
      let secrets :=
        <[providerName +:+ ":" +:+ account := apiKey]> (Client_secrets c) in
      (with_secrets c secrets, SaveSecrets secrets)
    else
      let providerConfig :=
        {| ProviderConfig_Accounts :=
             ProviderConfig_Accounts providerConfig ++ [account];
           ProviderConfig_BaseURL := ProviderConfig_BaseURL providerConfig |} in
      let config :=
        with_Providers (Client_config c)
          (<[providerName := providerConfig]>
             (Config_Providers (Client_config c))) in
      let secrets :=
        <[providerName +:+ ":" +:+ account := apiKey]> (Client_secrets c) in
      let c := {| Client_config := config; Client_secrets := secrets |} in
      match Config_Save config with
      | Some err => (c, Some err)
      | None => (c, SaveSecrets secrets)
      end.

Definition RemoveProviderAccount (c : Client) (providerName account : string)
  : Client * option error :=
  match Config_Providers (Client_config c) !! providerName with
  | None => (c, Some (Errorf ("provider not configured: " +:+ providerName)))
  | Some providerConfig =>
      let found := has_account (ProviderConfig_Accounts providerConfig) account in
      let newAccounts :=
        without_account (ProviderConfig_Accounts providerConfig) account in
      if negb found
      then (c, Some (Errorf ("account not found: " +:+ providerName +:+ ":"
                             +:+ account)))
      else
        let providerConfig :=
          {| ProviderConfig_Accounts := newAccounts;
             ProviderConfig_BaseURL := ProviderConfig_BaseURL providerConfig |} in
        let config :=
          with_Providers (Client_config c)
            (<[providerName := providerConfig]>
               (Config_Providers (Client_config c))) in
        let secrets :=
          delete (providerName +:+ ":" +:+ account) (Client_secrets c) in
        let c := {| Client_config := config; Client_secrets := secrets |} in
        match Config_Save config with
        | Some err => (c, Some err)
        | None => (c, SaveSecrets secrets)
        end
  end.

Definition HasProviderAccount (c : Client) (providerName account : string)
  : bool :=
  match Config_Providers (Client_config c) !! providerName with
  | None => false
  | Some providerConfig =>
      has_account (ProviderConfig_Accounts providerConfig) account
  end.

End Management.

End sage.

(** ** Package [cli] *)

Module cli.

(** [completeStream], after the client has returned the channel: what
    is printed, and the error returned.  The loop stops at the first
    chunk with an error, which is returned, or with [done] set; after
    the loop a newline is printed. *)
Fixpoint print_chunks (chunks : list Chunk) : string * option error :=
  match chunks with
  | [] => (String "010" EmptyString, None)
  | chunk :: rest =>
      match Chunk_Error chunk with
      | Some err => (EmptyString, Some err)
      | None =>
          if Chunk_Done chunk then (String "010" EmptyString, None)
          else
            let '(printed, err) := print_chunks rest in
            (Chunk_Content chunk +:+ printed, err)
      end
  end.

Definition completeStream (registry : gmap string Registry.Constructor)
    (client : sage.Client) (profile : string) (req : sage.Request)
  : string * option error :=
  match sage.CompleteStream registry client profile req with
  | Err err => (EmptyString, Some err)
  | Ok chunks => print_chunks chunks
  end.

(** [reorderArgs] *)
Fixpoint reorderArgs_loop (args flags positional : list string)
  : list string * list string :=
  match args with
  | [] => (flags, positional)
  | arg :: rest =>
      if strings.HasPrefix arg "-"
      then reorderArgs_loop rest (flags ++ [arg]) positional
      else reorderArgs_loop rest flags (positional ++ [arg])
  end.

Definition reorderArgs (args : list string) : list string :=
  let '(flags, positional) := reorderArgs_loop args [] [] in
  flags ++ positional.

End cli.

(** The default profile, when one is set, names a stored profile. *)
Definition default_profile_ok (c : sage.Config) : Prop :=
  sage.Config_DefaultProfile c = ""
  \/ is_Some (sage.Config_Profiles c !! sage.Config_DefaultProfile c).

(** The accounts configured for a provider; none when the provider is
    not configured. *)
Definition accounts_of (c : sage.Client) (providerName : string) : list string :=
  sage.ProviderConfig_Accounts
    (default sage.zero_ProviderConfig
       (sage.Config_Providers (sage.Client_config c) !! providerName)).

(** A profile as [GetProfile] returns it: stored under [name]. *)
Definition named (name : string) (p : sage.Profile) : sage.Profile :=
  {| sage.Profile_Name := name;
     sage.Profile_Provider := sage.Profile_Provider p;
     sage.Profile_Account := sage.Profile_Account p;
     sage.Profile_Model := sage.Profile_Model p |}.

(** A string without colon. *)
Definition colon_free (s : string) : Prop :=
  forall a b : string, s <> a +:+ ":" +:+ b.

(** The text of a run of chunks. *)
Fixpoint contents (chunks : list Chunk) : string :=
  match chunks with
  | [] => EmptyString
  | chunk :: rest => Chunk_Content chunk +:+ contents rest
  end.

(** A command-line argument that is a flag. *)
Definition is_flag (arg : string) : bool := strings.HasPrefix arg "-".


(** ** Encryption of the secrets ([secrets.go]) *)

Module secrets.

Definition keySize : nat := 32.
Definition nonceSize : nat := 12.

(** AES-GCM, from [crypto/aes] and [crypto/cipher]: whether a key is
    refused by [aes.NewCipher] or [cipher.NewGCM], [gcm.Seal] and
    [gcm.Open] with no additional data. *)
Class AEAD : Type := {
  cipher_error : string -> option error;
  Seal : string -> string -> string -> string;
  Open : string -> string -> string -> result string
}.

Section Crypto.
Context `{AEAD}.

(** [encrypt]; [random] is what [io.ReadFull(rand.Reader, nonce)] gives
    for the nonce of [nonceSize] bytes. *)
Definition encrypt (key plaintext : string) (random : result string)
  : result string :=
  match cipher_error key with
  | Some err => Err err
  | None =>
      match random with
      | Err err => Err err
      | Ok nonce =>
          let ciphertext := Seal key nonce plaintext in
          Ok (nonce +:+ ciphertext)
      end
  end.

Definition decrypt (key data : string) : result string :=
  if (String.length data <? nonceSize)%nat
  then Err (Errorf "ciphertext too short")
  else
    match cipher_error key with
    | Some err => Err err
    | None =>
        let nonce := strings.slice_to data nonceSize in
        let ciphertext := strings.slice_from data nonceSize in
        match Open key nonce ciphertext with
        | Err err => Err (Wrapf "decryption failed" err)
        | Ok plaintext => Ok plaintext
        end
    end.

End Crypto.

End secrets.

(** Stand-ins for the examples: a cipher that leaves the text as it is,
    a storage that always succeeds, and a provider that answers every
    request with the same chunks. *)
Definition plain_cipher : secrets.AEAD :=
  {| secrets.cipher_error := fun _ => None;
     secrets.Seal := fun _ _ plaintext => plaintext;
     secrets.Open := fun _ _ ciphertext => Ok ciphertext |}.

Definition storage_ok : sage.Storage :=
  {| sage.Config_Save := fun _ => None; sage.SaveSecrets := fun _ => None |}.

Definition fixed_provider (name : string) (chunks : list Chunk)
  : Registry.Constructor :=
  fun _ =>
    {| Registry.Provider_Name := name;
       Registry.Provider_Complete := fun req =>
         Ok {| Response_Content := contents chunks;
               Response_Model := Model req;
               Response_Usage := {| Usage_PromptTokens := 0;
                                    Usage_CompletionTokens := 0 |} |};
       Registry.Provider_CompleteStream := fun _ => Ok chunks |}.

(** ** A reference decoder of the model list, and sample data *)

Definition zero_openaiModel : OpenAIModels.openaiModel :=
  {| OpenAIModels.openaiModel_ID := "";
     OpenAIModels.openaiModel_Object := "";
     OpenAIModels.openaiModel_OwnedBy := "" |}.

Definition dec_openaiModel : RefJSON.dec OpenAIModels.openaiModel :=
  RefJSON.dec_struct (RefJSON.table
    [("id", RefJSON.at_field OpenAIModels.openaiModel_ID
              (fun x m =>
                 {| OpenAIModels.openaiModel_ID := x;
                    OpenAIModels.openaiModel_Object :=
                      OpenAIModels.openaiModel_Object m;
                    OpenAIModels.openaiModel_OwnedBy :=
                      OpenAIModels.openaiModel_OwnedBy m |})
              RefJSON.dec_string);
     ("object", RefJSON.at_field OpenAIModels.openaiModel_Object
                  (fun x m =>
                     {| OpenAIModels.openaiModel_ID :=
                          OpenAIModels.openaiModel_ID m;
                        OpenAIModels.openaiModel_Object := x;
                        OpenAIModels.openaiModel_OwnedBy :=
                          OpenAIModels.openaiModel_OwnedBy m |})
                  RefJSON.dec_string);
     ("owned_by", RefJSON.at_field OpenAIModels.openaiModel_OwnedBy
                    (fun x m =>
                       {| OpenAIModels.openaiModel_ID :=
                            OpenAIModels.openaiModel_ID m;
                          OpenAIModels.openaiModel_Object :=
                            OpenAIModels.openaiModel_Object m;
                          OpenAIModels.openaiModel_OwnedBy := x |})
                    RefJSON.dec_string)]).

Definition dec_openaiModelsResponse
  : RefJSON.dec OpenAIModels.openaiModelsResponse :=
  RefJSON.dec_struct (RefJSON.table
    [("data", RefJSON.at_field OpenAIModels.openaiModelsResponse_Data
                (fun x _ => {| OpenAIModels.openaiModelsResponse_Data := x |})
                (RefJSON.dec_slice zero_openaiModel dec_openaiModel))]).

Definition models_json : Unmarshaler OpenAIModels.openaiModelsResponse :=
  RefJSON.unmarshaler dec_openaiModelsResponse
    {| OpenAIModels.openaiModelsResponse_Data := [] |}.

(** [{"data":[{"id":"gpt-4o"},{"id":"whisper-1"},{"id":"o1-mini"}]}] *)
Definition models_body : Body :=
  stub_body ("{" +:+ RefJSON.q "data" +:+ ":[{" +:+ RefJSON.q "id" +:+ ":"
             +:+ RefJSON.q "gpt-4o" +:+ "},{" +:+ RefJSON.q "id" +:+ ":"
             +:+ RefJSON.q "whisper-1" +:+ "},{" +:+ RefJSON.q "id" +:+ ":"
             +:+ RefJSON.q "o1-mini" +:+ "}]}") [].

(** [{"error":{"message":"bad key"}}] *)
Definition error_body : Body :=
  stub_body ("{" +:+ RefJSON.q "error" +:+ ":{" +:+ RefJSON.q "message"
             +:+ ":" +:+ RefJSON.q "bad key" +:+ "}}") [].

(** A registry with two providers, and a client with one account of
    the first, two profiles and one of them as the default. *)
Definition sample_registry : gmap string Registry.Constructor :=
  Registry.Register
    (Registry.Register ∅ "openai"
       (fixed_provider "openai" [chunk_content "Hi"; chunk_done]))
    "ollama" (fixed_provider "ollama" [chunk_content "Hello"; chunk_done]).

Definition sample_profile : sage.Profile :=
  {| sage.Profile_Name := ""; sage.Profile_Provider := "openai";
     sage.Profile_Account := "default"; sage.Profile_Model := "gpt-4o" |}.

Definition sample_client : sage.Client :=
  {| sage.Client_config :=
       {| sage.Config_Providers :=
            {[ "openai" := {| sage.ProviderConfig_Accounts := ["default"];
                              sage.ProviderConfig_BaseURL := "" |} ]};
          sage.Config_Profiles :=
            <["smart" := {| sage.Profile_Name := "";
                            sage.Profile_Provider := "openai";
                            sage.Profile_Account := "default";
                            sage.Profile_Model := "o1-mini" |}]>
              {[ "fast" := sample_profile ]};
          sage.Config_DefaultProfile := "fast" |};
     sage.Client_secrets := {[ "openai:default" := "sk-1" ]} |}.

Definition sample_request : sage.Request :=
  {| sage.Request_Prompt := "2+2?"; sage.Request_System := "";
     sage.Request_MaxTokens := 0 |}.

(** * Properties *)

(** ** Facts about [strings] *)

Module stringsFacts.
Import strings.

Lemma app_nil (b : string) : "" +:+ b = b.
Proof. reflexivity. Qed.

Lemma app_cons (c : ascii) (a b : string) :
  String c a +:+ b = String c (a +:+ b).
Proof. reflexivity. Qed.

Ltac string_ind a :=
  induction a as [|? a ?IH]; rewrite ?app_nil, ?app_cons; simpl.

Lemma length_app (a b : string) :
  String.length (a +:+ b) = (String.length a + String.length b)%nat.
Proof. string_ind a; [reflexivity | now rewrite IH]. Qed.

Lemma app_empty_r (a : string) : a +:+ "" = a.
Proof. string_ind a; [reflexivity | now rewrite IH]. Qed.

Lemma app_assoc (a b c : string) : (a +:+ b) +:+ c = a +:+ (b +:+ c).
Proof. string_ind a; [reflexivity | now rewrite IH]. Qed.

Lemma substring_0_0 (s : string) : substring 0 0 s = "".
Proof. destruct s; reflexivity. Qed.

Lemma substring_0_app (a b : string) :
  substring 0 (String.length a) (a +:+ b) = a.
Proof.
  string_ind a.
  - apply substring_0_0.
  - now rewrite IH.
Qed.

Lemma substring_0_length (s : string) : substring 0 (String.length s) s = s.
Proof. rewrite <- (app_empty_r s) at 2. apply substring_0_app. Qed.

Lemma substring_skip_app (a b : string) (n : nat) :
  substring (String.length a) n (a +:+ b) = substring 0 n b.
Proof. string_ind a; [reflexivity | exact IH]. Qed.

(** Every string splits at every position within its length. *)
Lemma substring_split (s : string) (n : nat) :
  (n <= String.length s)%nat ->
  s = substring 0 n s +:+ substring n (String.length s - n) s.
Proof.
  revert n; induction s as [|c s IH]; intros [|n] Hn; simpl in *;
    rewrite ?app_nil, ?app_cons; try reflexivity; try lia.
  - now rewrite substring_0_length.
  - f_equal. apply IH. lia.
Qed.

Lemma slice_from_app (a b : string) :
  slice_from (a +:+ b) (String.length a) = b.
Proof.
  unfold slice_from. rewrite substring_skip_app, length_app.
  replace (String.length a + String.length b - String.length a)%nat
    with (String.length b) by lia.
  apply substring_0_length.
Qed.

Lemma HasPrefix_app (p t : string) : HasPrefix (p +:+ t) p = true.
Proof.
  unfold HasPrefix, slice_to. rewrite substring_0_app, String.eqb_refl.
  rewrite length_app, andb_true_r. apply Nat.leb_le. lia.
Qed.

Lemma HasPrefix_spec (s p : string) :
  HasPrefix s p = true <-> exists t, s = p +:+ t.
Proof.
  split.
  - unfold HasPrefix, slice_to. intros H.
    apply andb_true_iff in H as [Hlen Heq].
    apply Nat.leb_le in Hlen. apply String.eqb_eq in Heq.
    exists (substring (String.length p) (String.length s - String.length p) s).
    pose proof (substring_split s (String.length p) Hlen) as Hs.
    now rewrite Heq in Hs.
  - intros [t ->]. apply HasPrefix_app.
Qed.

Lemma TrimPrefix_app (p t : string) : TrimPrefix (p +:+ t) p = t.
Proof. unfold TrimPrefix. now rewrite HasPrefix_app, slice_from_app. Qed.

Lemma HasSuffix_app (t suf : string) : HasSuffix (t +:+ suf) suf = true.
Proof.
  unfold HasSuffix. rewrite length_app.
  replace (String.length t + String.length suf - String.length suf)%nat
    with (String.length t) by lia.
  rewrite slice_from_app, String.eqb_refl, andb_true_r.
  apply Nat.leb_le. lia.
Qed.

Lemma HasSuffix_spec (s suf : string) :
  HasSuffix s suf = true <-> exists t, s = t +:+ suf.
Proof.
  split.
  - unfold HasSuffix, slice_from. intros H.
    apply andb_true_iff in H as [Hlen Heq].
    apply Nat.leb_le in Hlen. apply String.eqb_eq in Heq.
    exists (substring 0 (String.length s - String.length suf) s).
    pose proof (substring_split s (String.length s - String.length suf)
                  ltac:(lia)) as Hs.
    now rewrite Heq in Hs.
  - intros [t ->]. apply HasSuffix_app.
Qed.

Lemma TrimSuffix_app (t suf : string) : TrimSuffix (t +:+ suf) suf = t.
Proof.
  unfold TrimSuffix, slice_to. rewrite HasSuffix_app, length_app.
  replace (String.length t + String.length suf - String.length suf)%nat
    with (String.length t) by lia.
  apply substring_0_app.
Qed.

Lemma TrimSuffix_none (s suf : string) :
  HasSuffix s suf = false -> TrimSuffix s suf = s.
Proof. unfold TrimSuffix. now intros ->. Qed.

Lemma Contains_spec (s sub : string) :
  Contains s sub = true <-> exists a b, s = a +:+ sub +:+ b.
Proof.
  split.
  - induction s as [|c s IH]; simpl; intros H;
      apply orb_true_iff in H as [H|H].
    + apply HasPrefix_spec in H as [t Ht]. now exists "", t.
    + discriminate.
    + apply HasPrefix_spec in H as [t Ht]. now exists "", t.
    + destruct (IH H) as (a & b & ->). now exists (String c a), b.
  - intros (a & b & ->). induction a as [|c a IH].
    + rewrite app_nil.
      destruct (sub +:+ b) eqn:E; simpl; rewrite <- E, HasPrefix_app;
        reflexivity.
    + rewrite app_cons. simpl. rewrite IH. apply orb_true_r.
Qed.

Lemma app_nonempty (a b : string) : b <> "" -> a +:+ b <> "".
Proof. destruct a, b; rewrite ?app_nil, ?app_cons; congruence. Qed.

End stringsFacts.

(** ** Endpoints *)

Section Endpoints.
Import strings stringsFacts.

Lemma TrimSuffix_slash (b : string) :
  ~ (exists t, b = t +:+ "/") ->
  TrimSuffix b "/" = b /\ TrimSuffix (b +:+ "/") "/" = b.
Proof.
  intros Hb. split; [|apply TrimSuffix_app].
  apply TrimSuffix_none. destruct (HasSuffix b "/") eqn:E; [|reflexivity].
  apply HasSuffix_spec in E. contradiction.
Qed.

Lemma slash_nonempty (b : string) : String.eqb (b +:+ "/") "" = false.
Proof. apply String.eqb_neq, app_nonempty. discriminate. Qed.

(** C8. For every provider and every base-URL override [b] (a
    non-empty [BaseURL]: the adapters read the empty string as "no
    override") that does not end in a slash, the completion endpoint
    built from [b] and the one built from [b] followed by a slash are
    the same string. *)
Theorem endpoint_trailing_slash (req : Request) (b : string) :
  b <> "" ->
  ~ (exists t, b = t +:+ "/") ->
  OpenAI.endpoint (with_BaseURL req b)
    = OpenAI.endpoint (with_BaseURL req (b +:+ "/"))
  /\ Anthropic.endpoint (with_BaseURL req b)
     = Anthropic.endpoint (with_BaseURL req (b +:+ "/"))
  /\ Ollama.endpoint (with_BaseURL req b)
     = Ollama.endpoint (with_BaseURL req (b +:+ "/")).
Proof.
  intros Hne Hb. destruct (TrimSuffix_slash b Hb) as [H1 H2].
  apply String.eqb_neq in Hne.
  unfold OpenAI.endpoint, Anthropic.endpoint, Ollama.endpoint; simpl.
  now rewrite Hne, slash_nonempty, H1, H2.
Qed.

Lemma endpoint_trailing_slash_witness :
  let req := {| Model := "gpt-4o"; System := ""; Prompt := "2+2?";
                MaxTokens := 0; APIKey := "k"; BaseURL := "" |} in
  OpenAI.endpoint (with_BaseURL req "https://custom.api.com")
    = OpenAI.endpoint (with_BaseURL req "https://custom.api.com/")
  /\ Anthropic.endpoint (with_BaseURL req "https://custom.api.com")
     = Anthropic.endpoint (with_BaseURL req "https://custom.api.com/")
  /\ Ollama.endpoint (with_BaseURL req "https://custom.api.com")
     = Ollama.endpoint (with_BaseURL req "https://custom.api.com/").
Proof.
  intros req.
  apply (endpoint_trailing_slash req "https://custom.api.com").
  - discriminate.
  - intros [t Ht].
    assert (E : HasSuffix "https://custom.api.com" "/" = true)
      by (apply HasSuffix_spec; now exists t).
    vm_compute in E. discriminate.
Defined.

(** The endpoints of the tests of the repository. *)
Example endpoint_custom :
  OpenAI.endpoint {| Model := ""; System := ""; Prompt := ""; MaxTokens := 0;
                     APIKey := ""; BaseURL := "https://custom.api.com/" |}
  = "https://custom.api.com/v1/chat/completions".
Proof. reflexivity. Qed.

(** Without an override the default is used, so the empty string and
    the lone slash are not interchangeable. *)
Remark endpoint_no_override (req : Request) :
  OpenAI.endpoint (with_BaseURL req "") = OpenAI.openaiDefaultURL
  /\ OpenAI.endpoint (with_BaseURL req "/") = "/v1/chat/completions"
  /\ Ollama.endpoint (with_BaseURL req "") = "http://localhost:11434/api/chat"
  /\ Ollama.endpoint (with_BaseURL req "/") = "/api/chat".
Proof. repeat split. Qed.

End Endpoints.

(** ** Request construction *)

Section BuildRequest.
Import strings stringsFacts.

Lemma usesMaxCompletionTokens_spec (model : string) :
  OpenAI.usesMaxCompletionTokens model = true <-> reasoning_or_newer model.
Proof.
  unfold OpenAI.usesMaxCompletionTokens, reasoning_or_newer.
  rewrite !orb_true_iff, !HasPrefix_spec, !Contains_spec. tauto.
Qed.

Lemma omitempty_int_zero (k : string) : omitempty_int k 0 = [].
Proof. reflexivity. Qed.

Lemma omitempty_int_pos (k : string) (n : Z) :
  n > 0 -> omitempty_int k n = [(k, JInt n)].
Proof.
  intros Hn. unfold omitempty_int.
  destruct (Z.eqb_spec n 0); [lia | reflexivity].
Qed.

(** The two token-limit fields of the request built by the OpenAI
    adapter, and the two keys of its wire form. *)
Lemma openai_limits (req : Request) (stream : bool) :
  let r := OpenAI.buildRequest req stream in
  (OpenAI.openaiRequest_MaxTokens r, OpenAI.openaiRequest_MaxCompletionTokens r)
  = if MaxTokens req >? 0
    then if OpenAI.usesMaxCompletionTokens (Model req)
         then (0, MaxTokens req) else (MaxTokens req, 0)
    else (0, 0).
Proof.
  unfold OpenAI.buildRequest.
  destruct (MaxTokens req >? 0), (OpenAI.usesMaxCompletionTokens (Model req));
    reflexivity.
Qed.

Lemma openai_wire_limits (r : OpenAI.openaiRequest) :
  json_field "max_tokens" (OpenAI.marshal r)
  = assoc "max_tokens"
      (omitempty_int "max_tokens" (OpenAI.openaiRequest_MaxTokens r))
  /\ json_field "max_completion_tokens" (OpenAI.marshal r)
     = assoc "max_completion_tokens"
         (omitempty_int "max_completion_tokens"
            (OpenAI.openaiRequest_MaxCompletionTokens r)).
Proof.
  unfold OpenAI.marshal, omitempty_int, omitempty_bool; simpl.
  destruct (OpenAI.openaiRequest_MaxTokens r =? 0),
           (OpenAI.openaiRequest_MaxCompletionTokens r =? 0),
           (OpenAI.openaiRequest_Stream r); split; reflexivity.
Qed.

(** C4. The OpenAI request builder: without a token limit neither
    [max_tokens] nor [max_completion_tokens] is set (both fields are
    zero and both keys are absent from the wire request); with a limit
    and a model with prefix [o1] or [o3] or containing [gpt-4o] or
    [gpt-5], [max_completion_tokens] is the limit and [max_tokens] is
    unset; with a limit and any other model it is the other way
    round. *)
Theorem openai_token_limit_field (req : Request) (stream : bool) :
  let r := OpenAI.buildRequest req stream in
  let wire := OpenAI.marshal r in
  (MaxTokens req = 0 ->
     OpenAI.openaiRequest_MaxTokens r = 0
     /\ OpenAI.openaiRequest_MaxCompletionTokens r = 0
     /\ json_field "max_tokens" wire = None
     /\ json_field "max_completion_tokens" wire = None)
  /\ (MaxTokens req > 0 -> reasoning_or_newer (Model req) ->
        OpenAI.openaiRequest_MaxCompletionTokens r = MaxTokens req
        /\ OpenAI.openaiRequest_MaxTokens r = 0
        /\ json_field "max_completion_tokens" wire = Some (JInt (MaxTokens req))
        /\ json_field "max_tokens" wire = None)
  /\ (MaxTokens req > 0 -> ~ reasoning_or_newer (Model req) ->
        OpenAI.openaiRequest_MaxTokens r = MaxTokens req
        /\ OpenAI.openaiRequest_MaxCompletionTokens r = 0
        /\ json_field "max_tokens" wire = Some (JInt (MaxTokens req))
        /\ json_field "max_completion_tokens" wire = None).
Proof.
  cbv zeta.
  pose proof (openai_limits req stream) as L. cbv zeta in L.
  destruct (openai_wire_limits (OpenAI.buildRequest req stream)) as [W1 W2].
  rewrite W1, W2. clear W1 W2.
  revert L. generalize (OpenAI.buildRequest req stream) as r. intros r L.
  split; [|split].
  - intros H0. rewrite H0 in L. simpl in L.
    apply pair_equal_spec in L as [E1 E2]. rewrite E1, E2. now repeat split.
  - intros Hp Hm. apply usesMaxCompletionTokens_spec in Hm.
    pose proof Hp as Hp'. apply Z.gtb_gt in Hp'. rewrite Hp', Hm in L.
    apply pair_equal_spec in L as [E1 E2]. rewrite E1, E2.
    rewrite omitempty_int_pos by exact Hp. now repeat split.
  - intros Hp Hm.
    destruct (OpenAI.usesMaxCompletionTokens (Model req)) eqn:E;
      [apply usesMaxCompletionTokens_spec in E; contradiction|].
    pose proof Hp as Hp'. apply Z.gtb_gt in Hp'. rewrite Hp' in L.
    apply pair_equal_spec in L as [E1 E2]. rewrite E1, E2.
    rewrite omitempty_int_pos by exact Hp. now repeat split.
Qed.

Lemma openai_token_limit_field_witness :
  let mk m n := {| Model := m; System := ""; Prompt := "Hello";
                   MaxTokens := n; APIKey := "k"; BaseURL := "" |} in
  (OpenAI.openaiRequest_MaxTokens (OpenAI.buildRequest (mk "gpt-4o-mini" 0) false) = 0
   /\ OpenAI.openaiRequest_MaxCompletionTokens
        (OpenAI.buildRequest (mk "gpt-4o-mini" 0) false) = 0)
  /\ (OpenAI.openaiRequest_MaxCompletionTokens
        (OpenAI.buildRequest (mk "gpt-4o-mini" 100) false) = 100
      /\ OpenAI.openaiRequest_MaxTokens
           (OpenAI.buildRequest (mk "gpt-4o-mini" 100) false) = 0)
  /\ (OpenAI.openaiRequest_MaxTokens
        (OpenAI.buildRequest (mk "gpt-3.5-turbo" 100) false) = 100
      /\ OpenAI.openaiRequest_MaxCompletionTokens
           (OpenAI.buildRequest (mk "gpt-3.5-turbo" 100) false) = 0).
Proof.
  intros mk. split; [|split].
  - destruct (openai_token_limit_field (mk "gpt-4o-mini" 0) false)
      as (H & _ & _).
    destruct (H eq_refl) as (H1 & H2 & _). exact (conj H1 H2).
  - destruct (openai_token_limit_field (mk "gpt-4o-mini" 100) false)
      as (_ & H & _).
    assert (Hm : reasoning_or_newer "gpt-4o-mini").
    { right; right; left. exists "", "-mini". reflexivity. }
    destruct (H eq_refl Hm) as (H1 & H2 & _). exact (conj H1 H2).
  - destruct (openai_token_limit_field (mk "gpt-3.5-turbo" 100) false)
      as (_ & _ & H).
    assert (Hm : ~ reasoning_or_newer "gpt-3.5-turbo").
    { intros Hm. apply usesMaxCompletionTokens_spec in Hm.
      vm_compute in Hm. discriminate. }
    destruct (H eq_refl Hm) as (H1 & H2 & _). exact (conj H1 H2).
Defined.

End BuildRequest.

Section SystemPrompt.

Lemma omitempty_string_nonempty (k v : string) :
  v <> "" -> omitempty_string k v = [(k, JString v)].
Proof.
  intros Hv. unfold omitempty_string.
  now apply String.eqb_neq in Hv as ->.
Qed.

Lemma anthropic_wire_system (r : Anthropic.anthropicRequest) :
  json_field "system" (Anthropic.marshal r)
  = assoc "system" (omitempty_string "system" (Anthropic.anthropicRequest_System r))
  /\ json_field "messages" (Anthropic.marshal r)
     = Some (JArray (map Anthropic.marshal_message
                       (Anthropic.anthropicRequest_Messages r))).
Proof.
  unfold Anthropic.marshal, omitempty_string; simpl.
  destruct (String.eqb (Anthropic.anthropicRequest_System r) ""),
           (Anthropic.anthropicRequest_Stream r); split; reflexivity.
Qed.

(** C6. With an empty system prompt no adapter puts a system message
    or a system field into the wire request.  With a non-empty one the
    OpenAI and Ollama requests hold exactly one system message, placed
    before the user message, and the Anthropic request holds the prompt
    in its top-level [system] field while its message array holds the
    user message only. *)
Theorem system_prompt_placement (req : Request) (stream : bool) :
  let ro := OpenAI.buildRequest req stream in
  let rl := Ollama.buildRequest req stream in
  let ra := Anthropic.buildRequest req stream in
  let user_o := {| OpenAI.openaiMessage_Role := "user";
                   OpenAI.openaiMessage_Content := Prompt req |} in
  let user_l := {| Ollama.ollamaMessage_Role := "user";
                   Ollama.ollamaMessage_Content := Prompt req |} in
  let user_a := {| Anthropic.anthropicMessage_Role := "user";
                   Anthropic.anthropicMessage_Content := Prompt req |} in
  (System req = "" ->
     OpenAI.openaiRequest_Messages ro = [user_o]
     /\ json_field "messages" (OpenAI.marshal ro)
        = Some (JArray [OpenAI.marshal_message user_o])
     /\ Ollama.ollamaRequest_Messages rl = [user_l]
     /\ json_field "messages" (Ollama.marshal rl)
        = Some (JArray [Ollama.marshal_message user_l])
     /\ Anthropic.anthropicRequest_Messages ra = [user_a]
     /\ json_field "messages" (Anthropic.marshal ra)
        = Some (JArray [Anthropic.marshal_message user_a])
     /\ json_field "system" (Anthropic.marshal ra) = None)
  /\ (System req <> "" ->
        OpenAI.openaiRequest_Messages ro
        = [{| OpenAI.openaiMessage_Role := "system";
              OpenAI.openaiMessage_Content := System req |}; user_o]
        /\ json_field "messages" (OpenAI.marshal ro)
           = Some (JArray
                     [OpenAI.marshal_message
                        {| OpenAI.openaiMessage_Role := "system";
                           OpenAI.openaiMessage_Content := System req |};
                      OpenAI.marshal_message user_o])
        /\ Ollama.ollamaRequest_Messages rl
           = [{| Ollama.ollamaMessage_Role := "system";
                 Ollama.ollamaMessage_Content := System req |}; user_l]
        /\ json_field "messages" (Ollama.marshal rl)
           = Some (JArray
                     [Ollama.marshal_message
                        {| Ollama.ollamaMessage_Role := "system";
                           Ollama.ollamaMessage_Content := System req |};
                      Ollama.marshal_message user_l])
        /\ Anthropic.anthropicRequest_Messages ra = [user_a]
        /\ json_field "messages" (Anthropic.marshal ra)
           = Some (JArray [Anthropic.marshal_message user_a])
        /\ Anthropic.anthropicRequest_System ra = System req
        /\ json_field "system" (Anthropic.marshal ra)
           = Some (JString (System req))).
Proof.
  cbv zeta.
  assert (Ho : OpenAI.openaiRequest_Messages (OpenAI.buildRequest req stream)
               = (if negb (String.eqb (System req) "")
                  then [{| OpenAI.openaiMessage_Role := "system";
                           OpenAI.openaiMessage_Content := System req |}]
                  else [])
                 ++ [{| OpenAI.openaiMessage_Role := "user";
                        OpenAI.openaiMessage_Content := Prompt req |}]).
  { unfold OpenAI.buildRequest.
    destruct (MaxTokens req >? 0),
             (OpenAI.usesMaxCompletionTokens (Model req)),
             (negb (String.eqb (System req) "")); reflexivity. }
  assert (Wo : forall r, json_field "messages" (OpenAI.marshal r)
               = Some (JArray (map OpenAI.marshal_message
                                 (OpenAI.openaiRequest_Messages r))))
    by reflexivity.
  destruct (anthropic_wire_system (Anthropic.buildRequest req stream))
    as [Ws Wm].
  rewrite Wo, Ho, Ws, Wm. clear Wo Ho Ws Wm.
  unfold Ollama.marshal, Ollama.buildRequest, Anthropic.buildRequest; simpl.
  split.
  - intros ->. now repeat split.
  - intros Hs. rewrite omitempty_string_nonempty by exact Hs.
    apply String.eqb_neq in Hs. rewrite Hs. simpl. now repeat split.
Qed.

Lemma system_prompt_placement_witness :
  let mk s := {| Model := "m"; System := s; Prompt := "Hello";
                 MaxTokens := 100; APIKey := "k"; BaseURL := "" |} in
  (OpenAI.openaiRequest_Messages (OpenAI.buildRequest (mk "") true)
   = [{| OpenAI.openaiMessage_Role := "user";
         OpenAI.openaiMessage_Content := "Hello" |}])
  /\ (OpenAI.openaiRequest_Messages
        (OpenAI.buildRequest (mk "You are helpful") false)
      = [{| OpenAI.openaiMessage_Role := "system";
            OpenAI.openaiMessage_Content := "You are helpful" |};
         {| OpenAI.openaiMessage_Role := "user";
            OpenAI.openaiMessage_Content := "Hello" |}]).
Proof.
  intros mk. split.
  - destruct (system_prompt_placement (mk "") true) as [H _].
    exact (proj1 (H eq_refl)).
  - destruct (system_prompt_placement (mk "You are helpful") false)
      as [_ H].
    refine (proj1 (H _)). discriminate.
Defined.

End SystemPrompt.

(** ** Headers *)

Section Headers.

Lemma canonical_Authorization :
  CanonicalMIMEHeaderKey "Authorization" = "Authorization".
Proof. reflexivity. Qed.

Lemma canonical_Content_Type :
  CanonicalMIMEHeaderKey "Content-Type" = "Content-Type".
Proof. reflexivity. Qed.

(** The canonical form of the lower-case names the Anthropic adapter
    sets. *)
Example canonical_x_api_key :
  CanonicalMIMEHeaderKey "x-api-key" = "X-Api-Key".
Proof. reflexivity. Qed.

(** C9. The Ollama header construction: with an empty API key the
    request gets no [Authorization] header (a request that had none,
    as every request made by [http.NewRequest], still has none); with
    a non-empty key [k] the header is the single value ["Bearer "]
    followed by [k]. *)
Theorem ollama_authorization_header (r : HttpRequest) :
  (Header r !! "Authorization" = None ->
     Header (Ollama.setHeaders r "") !! "Authorization" = None
     /\ Header_Get (Header (Ollama.setHeaders r "")) "Authorization" = "")
  /\ (forall k : string, k <> "" ->
        Header (Ollama.setHeaders r k) !! "Authorization"
        = Some ["Bearer " +:+ k]
        /\ Header_Get (Header (Ollama.setHeaders r k)) "Authorization"
           = "Bearer " +:+ k).
Proof.
  unfold Ollama.setHeaders, Header_Get, with_header, Header_Set; simpl.
  rewrite canonical_Authorization, canonical_Content_Type.
  split.
  - intros Hr.
    assert (E : <["Content-Type" := ["application/json"]]> (Header r)
                  !! "Authorization" = None)
      by (rewrite lookup_insert_ne; [exact Hr | discriminate]).
    now rewrite E.
  - intros k Hk. apply String.eqb_neq in Hk. rewrite Hk. simpl.
    now rewrite lookup_insert_eq.
Qed.

Lemma ollama_authorization_header_witness :
  let r := {| Method := "POST"; URL := "https://example.com";
              Header := ∅; ReqBody := JNull |} in
  Header (Ollama.setHeaders r "") !! "Authorization" = None
  /\ Header (Ollama.setHeaders r "test-api-key") !! "Authorization"
     = Some ["Bearer test-api-key"].
Proof.
  intros r. destruct (ollama_authorization_header r) as [H0 H1]. split.
  - refine (proj1 (H0 _)). apply lookup_empty.
  - refine (proj1 (H1 "test-api-key" _)). discriminate.
Defined.

(** A request made by [http.NewRequest] carries no header. *)
Lemma NewRequest_no_header `{HTTPClient} (method url : string) (body : json)
    (r : HttpRequest) (key : string) :
  http_NewRequest method url body = Ok r -> Header r !! key = None.
Proof.
  unfold http_NewRequest. destruct (url_error url); [discriminate|].
  intros [= <-]. apply lookup_empty.
Qed.

End Headers.

(** ** Blocking completion *)

Section Complete.
Context `{HTTPClient}.
Context {openai_json : Unmarshaler OpenAI.openaiResponse}.
Context {anthropic_json : Unmarshaler Anthropic.anthropicResponse}.
Context {anthropic_error_json : Unmarshaler Anthropic.errResp}.

Lemma status_ok (resp : HttpResponse) :
  StatusCode resp = 200 -> negb (StatusCode resp =? StatusOK) = false.
Proof. now intros ->. Qed.

(** C7. When the provider answers with status 200 and the decoded
    body holds no choice (OpenAI) or no content block (Anthropic),
    [Complete] returns an error and no [Response]; when it holds at
    least one, [Complete] returns a [Response]. *)
Theorem complete_empty_response (req : Request) :
  (forall (httpReq : HttpRequest) (resp : HttpResponse)
          (r : OpenAI.openaiResponse),
      http_NewRequest "POST" (OpenAI.endpoint req)
        (OpenAI.marshal (OpenAI.buildRequest req false)) = Ok httpReq ->
      Do (OpenAI.setHeaders httpReq (APIKey req)) = Ok resp ->
      StatusCode resp = 200 ->
      json_Decode (RespBody resp) = Ok r ->
      (OpenAI.openaiResponse_Choices r = [] ->
         OpenAI.Complete req = Err (Errorf "no choices in response"))
      /\ (OpenAI.openaiResponse_Choices r <> [] ->
            exists v, OpenAI.Complete req = Ok v))
  /\ (forall (httpReq : HttpRequest) (resp : HttpResponse)
             (r : Anthropic.anthropicResponse),
         http_NewRequest "POST" (Anthropic.endpoint req)
           (Anthropic.marshal (Anthropic.buildRequest req false)) = Ok httpReq ->
         Do (Anthropic.setHeaders httpReq (APIKey req)) = Ok resp ->
         StatusCode resp = 200 ->
         json_Decode (RespBody resp) = Ok r ->
         (Anthropic.anthropicResponse_Content r = [] ->
            Anthropic.Complete req = Err (Errorf "no content in response"))
         /\ (Anthropic.anthropicResponse_Content r <> [] ->
               exists v, Anthropic.Complete req = Ok v)).
Proof.
  split; intros httpReq resp r Hnew Hdo Hst Hdec.
  - unfold OpenAI.Complete.
    rewrite Hnew, Hdo, (status_ok resp Hst), Hdec.
    destruct (OpenAI.openaiResponse_Choices r) as [|choice rest]; split;
      intros Hc; try congruence; eauto.
  - unfold Anthropic.Complete.
    rewrite Hnew, Hdo, (status_ok resp Hst), Hdec.
    destruct (Anthropic.anthropicResponse_Content r) as [|c rest]; split;
      intros Hc; try congruence; eauto.
Qed.

Lemma first_text_none (blocks : list Anthropic.anthropicContent) :
  Forall (fun c => Anthropic.anthropicContent_Type c <> "text") blocks ->
  Anthropic.first_text blocks = "".
Proof.
  induction 1 as [|c rest Hc _ IH]; simpl; [reflexivity|].
  now apply String.eqb_neq in Hc as ->.
Qed.

Lemma first_text_first (pre post : list Anthropic.anthropicContent)
    (c : Anthropic.anthropicContent) :
  Forall (fun c => Anthropic.anthropicContent_Type c <> "text") pre ->
  Anthropic.anthropicContent_Type c = "text" ->
  Anthropic.first_text (pre ++ c :: post) = Anthropic.anthropicContent_Text c.
Proof.
  intros Hpre Hc. induction Hpre as [|x pre Hx _ IH]; simpl.
  - now rewrite Hc.
  - now apply String.eqb_neq in Hx as ->.
Qed.

(** C10. When the provider answers with status 200 and a content array
    that is not empty, the Anthropic [Complete] succeeds; the content
    it returns is the empty string when no block has type ["text"],
    and the text of the first block of type ["text"] when there is
    one. *)
Theorem anthropic_first_text_block (req : Request) (httpReq : HttpRequest)
    (resp : HttpResponse) (r : Anthropic.anthropicResponse) :
  http_NewRequest "POST" (Anthropic.endpoint req)
    (Anthropic.marshal (Anthropic.buildRequest req false)) = Ok httpReq ->
  Do (Anthropic.setHeaders httpReq (APIKey req)) = Ok resp ->
  StatusCode resp = 200 ->
  json_Decode (RespBody resp) = Ok r ->
  Anthropic.anthropicResponse_Content r <> [] ->
  exists v,
    Anthropic.Complete req = Ok v
    /\ (Forall (fun c => Anthropic.anthropicContent_Type c <> "text")
          (Anthropic.anthropicResponse_Content r) ->
        Response_Content v = "")
    /\ (forall pre c post,
          Anthropic.anthropicResponse_Content r = pre ++ c :: post ->
          Forall (fun c => Anthropic.anthropicContent_Type c <> "text") pre ->
          Anthropic.anthropicContent_Type c = "text" ->
          Response_Content v = Anthropic.anthropicContent_Text c).
Proof.
  intros Hnew Hdo Hst Hdec Hne. unfold Anthropic.Complete.
  rewrite Hnew, Hdo, (status_ok resp Hst), Hdec.
  destruct (Anthropic.anthropicResponse_Content r) as [|c0 rest] eqn:E;
    [congruence|].
  eexists; split; [reflexivity|]. cbn [Response_Content]. split.
  - apply first_text_none.
  - intros pre c post E' Hpre Hc. rewrite E'. now apply first_text_first.
Qed.

End Complete.

Section CompleteExamples.
Import RefJSON Wire.

Lemma complete_empty_response_witness :
  @OpenAI.Complete (stub_client 200 no_choices) openai scenario_request
  = Err (Errorf "no choices in response")
  /\ exists v,
       @Anthropic.Complete (stub_client 200 two_blocks) anthropic_response
         anthropic_error scenario_request = Ok v.
Proof.
  split.
  - destruct (@complete_empty_response (stub_client 200 no_choices)
                openai anthropic_response anthropic_error scenario_request)
      as [Ho _].
    eapply Ho; reflexivity.
  - destruct (@complete_empty_response (stub_client 200 two_blocks)
                openai anthropic_response anthropic_error scenario_request)
      as [_ Ha].
    eapply Ha; [reflexivity | reflexivity | reflexivity | reflexivity
                | discriminate].
Defined.

(** The scenario of the specification: one choice with content ["4"]
    and usage 5 and 1. *)
Example openai_complete_scenario :
  @OpenAI.Complete (stub_client 200 one_choice) openai scenario_request
  = Ok {| Response_Content := "4"; Response_Model := "gpt-4o";
          Response_Usage := {| Usage_PromptTokens := 5;
                               Usage_CompletionTokens := 1 |} |}.
Proof. reflexivity. Qed.

Lemma anthropic_first_text_block_witness :
  exists v,
    @Anthropic.Complete (stub_client 200 two_blocks) anthropic_response
      anthropic_error scenario_request = Ok v
    /\ Response_Content v = "4".
Proof.
  edestruct (@anthropic_first_text_block (stub_client 200 two_blocks)
               anthropic_response anthropic_error scenario_request)
    as (v & Hv & _ & Hfirst);
    [reflexivity | reflexivity | reflexivity | reflexivity | discriminate |].
  exists v. split; [exact Hv|].
  apply (Hfirst [{| Anthropic.anthropicContent_Type := "tool_use";
                    Anthropic.anthropicContent_Text := "x" |}]
                {| Anthropic.anthropicContent_Type := "text";
                   Anthropic.anthropicContent_Text := "4" |} []).
  - reflexivity.
  - repeat constructor. discriminate.
  - reflexivity.
Defined.

End CompleteExamples.


(** ** The scanning loop *)

Section ScanLoop.
Context {S : Type} (body : S -> string -> step S).

Lemma scan_loop_cons (s : S) (line : string) (rest : list string) :
  scan_loop body s (line :: rest)
  = match body s line with
    | Return sent => (sent, Returned)
    | Continue s' sent =>
        (sent ++ fst (scan_loop body s' rest), snd (scan_loop body s' rest))
    end.
Proof.
  simpl. destruct (body s line); [|reflexivity].
  now destruct (scan_loop body s0 rest).
Qed.

(** A prefix of the lines that the loop reads without returning. *)
Lemma scan_loop_exhausted_app (s s' : S) (l1 l2 : list string)
    (out : list Chunk) :
  scan_loop body s l1 = (out, Exhausted s') ->
  scan_loop body s (l1 ++ l2)
  = (out ++ fst (scan_loop body s' l2), snd (scan_loop body s' l2)).
Proof.
  revert s out. induction l1 as [|line l1 IH]; intros s out; simpl.
  - intros [= <- <-]. now destruct (scan_loop body s l2).
  - destruct (body s line) as [s1 sent|sent]; [|discriminate].
    destruct (scan_loop body s1 l1) as [out1 ex1] eqn:E1.
    intros [= <- ->]. rewrite (IH _ _ E1). simpl.
    now rewrite <- app_assoc.
Qed.

(** Once the body has returned, the lines that follow are not read. *)
Lemma scan_loop_returned_app (s : S) (l1 l2 : list string) (out : list Chunk) :
  scan_loop body s l1 = (out, Returned) ->
  scan_loop body s (l1 ++ l2) = (out, Returned).
Proof.
  revert s out. induction l1 as [|line l1 IH]; intros s out; simpl.
  - discriminate.
  - destruct (body s line) as [s1 sent|sent]; [|intros H; exact H].
    destruct (scan_loop body s1 l1) as [out1 ex1] eqn:E1.
    intros [= <- ->]. now rewrite (IH _ _ E1).
Qed.

Lemma scan_loop_return_line (s s' : S) (pre rest : list string)
    (line : string) (out sent : list Chunk) :
  scan_loop body s pre = (out, Exhausted s') ->
  body s' line = Return sent ->
  scan_loop body s (pre ++ line :: rest) = (out ++ sent, Returned).
Proof.
  intros Hpre Hline. rewrite (scan_loop_exhausted_app _ _ _ _ _ Hpre).
  simpl. now rewrite Hline.
Qed.

Lemma scan_loop_continue_line (s s' s'' : S) (pre : list string)
    (line : string) (out sent : list Chunk) :
  scan_loop body s pre = (out, Exhausted s') ->
  body s' line = Continue s'' sent ->
  scan_loop body s (pre ++ [line]) = (out ++ sent, Exhausted s'').
Proof.
  intros Hpre Hline. rewrite (scan_loop_exhausted_app _ _ _ _ _ Hpre).
  simpl. rewrite Hline. simpl. now rewrite app_nil_r.
Qed.

(** Lines the body passes over in a given state. *)
Lemma scan_loop_skipped (s : S) (line : string) (n : nat) :
  body s line = Continue s [] ->
  scan_loop body s (replicate n line) = ([], Exhausted s).
Proof.
  intros Hline. induction n as [|n IH]; simpl; [reflexivity|].
  now rewrite Hline, IH.
Qed.

(** The goroutine, on lines its loop returns from: what the scanner
    would have delivered next, and its error, play no part. *)
Lemma stream_returned (init : S) (sc : Scanner) (out : list Chunk) :
  scan_loop body init (scan_lines sc) = (out, Returned) ->
  stream body init sc = out.
Proof. unfold stream. now intros ->. Qed.

Lemma stream_exhausted (init s : S) (sc : Scanner) (out : list Chunk) :
  scan_loop body init (scan_lines sc) = (out, Exhausted s) ->
  stream body init sc
  = out ++ match scan_err sc with
           | Some err => [chunk_error (Wrapf "stream read error" err)]
           | None => []
           end.
Proof.
  unfold stream. intros ->. destruct (scan_err sc); [reflexivity|].
  now rewrite app_nil_r.
Qed.

(** *** The shape of a stream *)

Hypothesis body_continue : forall s line s' sent,
  body s line = Continue s' sent -> Forall is_content_chunk sent.
Hypothesis body_return : forall s line sent,
  body s line = Return sent ->
  exists pre t, sent = pre ++ [t]
                /\ Forall is_content_chunk pre /\ is_terminal_chunk t.

Lemma scan_loop_shape (lines : list string) (s : S) :
  match scan_loop body s lines with
  | (out, Exhausted _) => Forall is_content_chunk out
  | (out, Returned) =>
      exists pre t, out = pre ++ [t]
                    /\ Forall is_content_chunk pre /\ is_terminal_chunk t
  end.
Proof.
  revert s. induction lines as [|line lines IH]; intros s; simpl.
  - constructor.
  - destruct (body s line) as [s1 sent|sent] eqn:E.
    + specialize (IH s1). apply body_continue in E.
      destruct (scan_loop body s1 lines) as [out [|s2]].
      * destruct IH as (pre & t & -> & Hpre & Ht).
        exists (sent ++ pre), t. rewrite app_assoc.
        split; [reflexivity|]. split; [|exact Ht].
        apply Forall_app. now split.
      * apply Forall_app. now split.
    + now apply body_return in E.
Qed.

(** Exactly one terminal chunk, the last one, unless the body ends
    cleanly before any terminal marker: then there is none. *)
Lemma stream_shape (init : S) (sc : Scanner) :
  (exists pre t, stream body init sc = pre ++ [t]
                 /\ Forall is_content_chunk pre /\ is_terminal_chunk t)
  \/ (Forall is_content_chunk (stream body init sc)
      /\ scan_err sc = None
      /\ exists s, snd (scan_loop body init (scan_lines sc)) = Exhausted s).
Proof.
  unfold stream. pose proof (scan_loop_shape (scan_lines sc) init) as Hs.
  destruct (scan_loop body init (scan_lines sc)) as [out [|s]].
  - now left.
  - destruct (scan_err sc) as [err|].
    + left. exists out, (chunk_error (Wrapf "stream read error" err)).
      split; [reflexivity|]. split; [exact Hs|]. right. now eexists.
    + right. split; [exact Hs|]. split; [reflexivity|]. now exists s.
Qed.

End ScanLoop.

(** ** The stream decoders, line by line *)

Section Decoders.
Import strings stringsFacts.
Context {openai_json : Unmarshaler OpenAI.openaiResponse}.
Context {anthropic_json : Unmarshaler Anthropic.anthropicStreamEvent}.
Context {ollama_json : Unmarshaler Ollama.ollamaResponse}.

Lemma app_inj_l (a b c : string) : a +:+ b = a +:+ c -> b = c.
Proof.
  induction a as [|x a IH]; rewrite ?app_nil, ?app_cons; [tauto|].
  intros [= H]. now apply IH.
Qed.

Lemma data_not_event (payload : string) :
  HasPrefix ("data: " +:+ payload) "event: " = false.
Proof. unfold HasPrefix. apply andb_false_iff. right. reflexivity. Qed.

(** *** OpenAI *)

Lemma openai_blank : OpenAI.stream_body tt "" = Continue tt [].
Proof. reflexivity. Qed.

Lemma openai_done : OpenAI.stream_body tt "data: [DONE]" = Return [chunk_done].
Proof. reflexivity. Qed.

Lemma openai_data (payload : string) :
  payload <> "[DONE]" ->
  OpenAI.stream_body tt ("data: " +:+ payload)
  = match json_Unmarshal payload with
    | Err err => Return [chunk_error (Wrapf "failed to parse stream data" err)]
    | Ok streamResp =>
        match OpenAI.openaiResponse_Choices streamResp with
        | choice :: _ =>
            if negb (String.eqb
                       (OpenAI.openaiMessage_Content
                          (OpenAI.openaiChoice_Delta choice)) "")
            then Continue tt
                   [chunk_content
                      (OpenAI.openaiMessage_Content
                         (OpenAI.openaiChoice_Delta choice))]
            else Continue tt []
        | [] => Continue tt []
        end
    end.
Proof.
  intros Hp. unfold OpenAI.stream_body.
  assert (E : String.eqb ("data: " +:+ payload) "data: [DONE]" = false).
  { apply String.eqb_neq. intros H. apply Hp.
    now apply (app_inj_l "data: "). }
  rewrite E, HasPrefix_app, TrimPrefix_app. reflexivity.
Qed.

Lemma openai_frame (c : string) (frame : list string) :
  openai_delta c frame ->
  scan_loop OpenAI.stream_body tt frame = ([chunk_content c], Exhausted tt).
Proof.
  intros (payload & resp & choice & rest & n & -> & Hp & Hu & Hc & <- & Hne).
  simpl. rewrite (openai_data _ Hp), Hu, Hc.
  apply String.eqb_neq in Hne. rewrite Hne. simpl.
  now rewrite (scan_loop_skipped _ tt "" n openai_blank).
Qed.

Lemma openai_frames (cs : list string) (frames : list (list string)) :
  Forall2 openai_delta cs frames ->
  scan_loop OpenAI.stream_body tt (concat frames)
  = (map chunk_content cs, Exhausted tt).
Proof.
  induction 1 as [|c frame cs frames Hf _ IH]; simpl; [reflexivity|].
  rewrite (scan_loop_exhausted_app _ _ _ _ _ _ (openai_frame _ _ Hf)).
  now rewrite IH.
Qed.

(** *** Anthropic *)

Lemma anthropic_event_line (s ev : string) :
  Anthropic.stream_body s ("event: " +:+ ev) = Continue ev [].
Proof.
  unfold Anthropic.stream_body. now rewrite HasPrefix_app, TrimPrefix_app.
Qed.

Lemma anthropic_event_delta (s : string) :
  Anthropic.stream_body s "event: content_block_delta"
  = Continue "content_block_delta" [].
Proof. exact (anthropic_event_line s "content_block_delta"). Qed.

Lemma anthropic_event_stop (s : string) :
  Anthropic.stream_body s "event: message_stop" = Continue "message_stop" [].
Proof. exact (anthropic_event_line s "message_stop"). Qed.

Lemma anthropic_blank (s : string) : Anthropic.stream_body s "" = Continue s [].
Proof. reflexivity. Qed.

Lemma anthropic_data (s payload : string) :
  Anthropic.stream_body s ("data: " +:+ payload)
  = if String.eqb s "message_stop" then Return [chunk_done]
    else if negb (String.eqb s "content_block_delta") then Continue s []
    else
      match json_Unmarshal payload with
      | Err err =>
          Return [chunk_error (Wrapf "failed to parse stream data" err)]
      | Ok event =>
          match Anthropic.anthropicStreamEvent_Delta event with
          | Some delta =>
              if String.eqb (Anthropic.anthropicStreamDelta_Type delta)
                   "text_delta"
                 && negb (String.eqb
                            (Anthropic.anthropicStreamDelta_Text delta) "")
              then Continue s
                     [chunk_content (Anthropic.anthropicStreamDelta_Text delta)]
              else Continue s []
          | None => Continue s []
          end
      end.
Proof.
  unfold Anthropic.stream_body.
  rewrite data_not_event, HasPrefix_app, TrimPrefix_app. reflexivity.
Qed.

Lemma anthropic_frame (s c : string) (frame : list string) :
  anthropic_delta c frame ->
  scan_loop Anthropic.stream_body s frame
  = ([chunk_content c], Exhausted "content_block_delta").
Proof.
  intros (payload & event & delta & n & -> & Hu & Hd & Ht & <- & Hne).
  rewrite scan_loop_cons, anthropic_event_delta.
  rewrite scan_loop_cons, anthropic_data, Hu, Hd, Ht.
  apply String.eqb_neq in Hne. rewrite Hne. simpl.
  now rewrite (scan_loop_skipped _ _ "" n (anthropic_blank _)).
Qed.

Lemma anthropic_frames (s : string) (cs : list string)
    (frames : list (list string)) :
  Forall2 anthropic_delta cs frames ->
  exists s', scan_loop Anthropic.stream_body s (concat frames)
             = (map chunk_content cs, Exhausted s').
Proof.
  intros Hf. revert s.
  induction Hf as [|c frame cs frames Hf _ IH]; intros s; simpl.
  - now exists s.
  - destruct (IH "content_block_delta") as [s' Hs'].
    exists s'.
    rewrite (scan_loop_exhausted_app _ _ _ _ _ _ (anthropic_frame s _ _ Hf)).
    now rewrite Hs'.
Qed.

(** *** Ollama *)

Lemma ollama_blank : Ollama.stream_body tt "" = Continue tt [].
Proof. reflexivity. Qed.

Lemma ollama_line (line : string) :
  line <> "" ->
  Ollama.stream_body tt line
  = match json_Unmarshal line with
    | Err err => Return [chunk_error (Wrapf "failed to parse stream data" err)]
    | Ok streamResp =>
        if negb (String.eqb (Ollama.ollamaResponse_Error streamResp) "")
        then Return [chunk_error
                       (Errorf ("ollama error: "
                                +:+ Ollama.ollamaResponse_Error streamResp))]
        else
          let sent :=
            if negb (String.eqb
                       (Ollama.ollamaMessage_Content
                          (Ollama.ollamaResponse_Message streamResp)) "")
            then [chunk_content
                    (Ollama.ollamaMessage_Content
                       (Ollama.ollamaResponse_Message streamResp))]
            else [] in
          if Ollama.ollamaResponse_Done streamResp
          then Return (sent ++ [chunk_done])
          else Continue tt sent
    end.
Proof.
  intros Hl. unfold Ollama.stream_body.
  now apply String.eqb_neq in Hl as ->.
Qed.

Lemma ollama_frame (c : string) (frame : list string) :
  ollama_delta c frame ->
  scan_loop Ollama.stream_body tt frame = ([chunk_content c], Exhausted tt).
Proof.
  intros (line & resp & n & -> & Hl & Hu & He & <- & Hne & Hd).
  simpl. rewrite (ollama_line _ Hl), Hu, He, Hd.
  apply String.eqb_neq in Hne. rewrite Hne. simpl.
  now rewrite (scan_loop_skipped _ tt "" n ollama_blank).
Qed.

Lemma ollama_frames (cs : list string) (frames : list (list string)) :
  Forall2 ollama_delta cs frames ->
  scan_loop Ollama.stream_body tt (concat frames)
  = (map chunk_content cs, Exhausted tt).
Proof.
  induction 1 as [|c frame cs frames Hf _ IH]; simpl; [reflexivity|].
  rewrite (scan_loop_exhausted_app _ _ _ _ _ _ (ollama_frame _ _ Hf)).
  now rewrite IH.
Qed.

End Decoders.

(** ** The shape of every stream *)

Section StreamShape.
Context {openai_json : Unmarshaler OpenAI.openaiResponse}.
Context {anthropic_json : Unmarshaler Anthropic.anthropicStreamEvent}.
Context {ollama_json : Unmarshaler Ollama.ollamaResponse}.

Lemma content_chunk_ok (c : string) :
  negb (String.eqb c "") = true -> is_content_chunk (chunk_content c).
Proof.
  intros H. apply negb_true_iff, String.eqb_neq in H. now repeat split.
Qed.

Lemma done_terminal : is_terminal_chunk chunk_done.
Proof. now left. Qed.

Lemma error_terminal (e : error) : is_terminal_chunk (chunk_error e).
Proof. right. now exists e. Qed.

Lemma content_not_terminal (c : Chunk) :
  is_content_chunk c -> ~ is_terminal_chunk c.
Proof.
  intros (_ & Hd & He) [->|[e ->]]; discriminate.
Qed.

Create HintDb stream.
#[local] Hint Resolve content_chunk_ok done_terminal error_terminal : stream.

(** Case analysis on every test of a loop body. *)
Ltac body_cases :=
  repeat match goal with
         | |- context [if ?b then _ else _] => destruct b eqn:?
         | |- context [match ?x with _ => _ end] => destruct x eqn:?
         end.

Ltac all_content :=
  repeat match goal with
         | |- Forall _ [] => constructor
         | |- Forall _ (_ :: _) => constructor; [solve [auto with stream]|]
         end.

Ltac continue_case :=
  body_cases; try discriminate; intros [= <- <-]; all_content.

Ltac return_case :=
  body_cases; try discriminate; intros [= <-]; simpl;
  (match goal with
   | |- exists pre t, [?a] = _ /\ _ => exists [], a
   | |- exists pre t, [?a; ?b] = _ /\ _ => exists [a], b
   end;
   (split; [reflexivity|]); (split; [all_content | auto with stream])).

Lemma openai_continue (s : unit) (line : string) (s' : unit)
    (sent : list Chunk) :
  OpenAI.stream_body s line = Continue s' sent -> Forall is_content_chunk sent.
Proof. unfold OpenAI.stream_body. continue_case. Qed.

Lemma openai_return (s : unit) (line : string) (sent : list Chunk) :
  OpenAI.stream_body s line = Return sent ->
  exists pre t, sent = pre ++ [t]
                /\ Forall is_content_chunk pre /\ is_terminal_chunk t.
Proof. unfold OpenAI.stream_body. return_case. Qed.

Lemma anthropic_continue (s line s' : string) (sent : list Chunk) :
  Anthropic.stream_body s line = Continue s' sent ->
  Forall is_content_chunk sent.
Proof.
  unfold Anthropic.stream_body.
  body_cases; try discriminate; intros [= <- <-];
    try match goal with H : (_ && _) = true |- _ =>
          apply andb_true_iff in H as [_ H] end;
    all_content.
Qed.

Lemma anthropic_return (s line : string) (sent : list Chunk) :
  Anthropic.stream_body s line = Return sent ->
  exists pre t, sent = pre ++ [t]
                /\ Forall is_content_chunk pre /\ is_terminal_chunk t.
Proof. unfold Anthropic.stream_body. return_case. Qed.

Lemma ollama_continue (s : unit) (line : string) (s' : unit)
    (sent : list Chunk) :
  Ollama.stream_body s line = Continue s' sent -> Forall is_content_chunk sent.
Proof. unfold Ollama.stream_body. continue_case. Qed.

Lemma ollama_return (s : unit) (line : string) (sent : list Chunk) :
  Ollama.stream_body s line = Return sent ->
  exists pre t, sent = pre ++ [t]
                /\ Forall is_content_chunk pre /\ is_terminal_chunk t.
Proof. unfold Ollama.stream_body. return_case. Qed.

End StreamShape.

(** ** The stream decoders: ordering, termination, errors *)

Section StreamClaims.
Context {openai_json : Unmarshaler OpenAI.openaiResponse}.
Context {anthropic_json : Unmarshaler Anthropic.anthropicStreamEvent}.
Context {ollama_json : Unmarshaler Ollama.ollamaResponse}.

(** C2. For each provider, the lines of K content deltas followed by
    the provider's terminal marker yield the K content chunks, in the
    order of the deltas, then one chunk with [done] set, and nothing
    else, whatever the scanner would have delivered after the marker. *)
Theorem stream_ordering (cs : list string) (frames : list (list string))
    (rest : list string) (err : option error) :
  (Forall2 openai_delta cs frames ->
     OpenAI.decoder
       {| scan_lines := concat frames ++ "data: [DONE]" :: rest;
          scan_err := err |}
     = map chunk_content cs ++ [chunk_done])
  /\ (forall payload : string,
        Forall2 anthropic_delta cs frames ->
        Anthropic.decoder
          {| scan_lines := concat frames ++ "event: message_stop"
                             :: ("data: " +:+ payload) :: rest;
             scan_err := err |}
        = map chunk_content cs ++ [chunk_done])
  /\ (forall line : string,
        Forall2 ollama_delta cs frames ->
        ollama_terminal line ->
        Ollama.decoder
          {| scan_lines := concat frames ++ line :: rest; scan_err := err |}
        = map chunk_content cs ++ [chunk_done]).
Proof.
  split; [|split].
  - intros Hf. apply stream_returned; simpl.
    apply (scan_loop_return_line _ _ _ _ _ _ _ _ (openai_frames _ _ Hf)).
    apply openai_done.
  - intros payload Hf. apply stream_returned; simpl.
    destruct (anthropic_frames "" _ _ Hf) as [s' Hs'].
    rewrite (scan_loop_exhausted_app _ _ _ _ _ _ Hs').
    rewrite scan_loop_cons, anthropic_event_stop.
    rewrite scan_loop_cons, anthropic_data. reflexivity.
  - intros line Hf (Hl & resp & Hu & He & Hc & Hd).
    apply stream_returned; simpl.
    apply (scan_loop_return_line _ _ _ _ _ _ _ _ (ollama_frames _ _ Hf)).
    now rewrite (ollama_line _ Hl), Hu, He, Hc, Hd.
Qed.

(** C1, as the code has it.  When the body ends before any terminal
    marker (the scanning loop is left because the lines are exhausted)
    and the scanner reports no error, the decoder of every provider
    closes the stream after the content chunks: it sends the chunks of
    the lines and nothing else, and none of them is a terminal chunk. *)
Theorem eof_without_marker (sc : Scanner) :
  scan_err sc = None ->
  ((exists s, snd (scan_loop OpenAI.stream_body tt (scan_lines sc))
              = Exhausted s) ->
     OpenAI.decoder sc = fst (scan_loop OpenAI.stream_body tt (scan_lines sc))
     /\ Forall is_content_chunk (OpenAI.decoder sc)
     /\ Forall (fun c => ~ is_terminal_chunk c) (OpenAI.decoder sc))
  /\ ((exists s, snd (scan_loop Anthropic.stream_body "" (scan_lines sc))
                 = Exhausted s) ->
        Anthropic.decoder sc
        = fst (scan_loop Anthropic.stream_body "" (scan_lines sc))
        /\ Forall is_content_chunk (Anthropic.decoder sc)
        /\ Forall (fun c => ~ is_terminal_chunk c) (Anthropic.decoder sc))
  /\ ((exists s, snd (scan_loop Ollama.stream_body tt (scan_lines sc))
                 = Exhausted s) ->
        Ollama.decoder sc
        = fst (scan_loop Ollama.stream_body tt (scan_lines sc))
        /\ Forall is_content_chunk (Ollama.decoder sc)
        /\ Forall (fun c => ~ is_terminal_chunk c) (Ollama.decoder sc)).
Proof.
  intros Herr.
  assert (G : forall (S : Type) (body : S -> string -> step S) (init : S),
             (forall s line s' sent,
                 body s line = Continue s' sent -> Forall is_content_chunk sent) ->
             (forall s line sent,
                 body s line = Return sent ->
                 exists pre t, sent = pre ++ [t]
                               /\ Forall is_content_chunk pre
                               /\ is_terminal_chunk t) ->
             (exists s, snd (scan_loop body init (scan_lines sc)) = Exhausted s) ->
             stream body init sc = fst (scan_loop body init (scan_lines sc))
             /\ Forall is_content_chunk (stream body init sc)
             /\ Forall (fun c => ~ is_terminal_chunk c) (stream body init sc)).
  { intros S body init Hc Hr [s Hs].
    pose proof (scan_loop_shape body Hc Hr (scan_lines sc) init) as Hshape.
    destruct (scan_loop body init (scan_lines sc)) as [out ex] eqn:E.
    simpl in Hs. subst ex.
    rewrite (stream_exhausted body init s sc out E), Herr, app_nil_r.
    split; [reflexivity|]. split; [exact Hshape|].
    eapply Forall_impl; [exact Hshape|]. apply content_not_terminal. }
  split; [|split].
  - apply G; [apply openai_continue | apply openai_return].
  - apply G; [apply anthropic_continue | apply anthropic_return].
  - apply G; [apply ollama_continue | apply ollama_return].
Qed.


(** C5, as the code has it.  A payload that [json.Unmarshal] rejects,
    read after lines that did not end the stream, ends it: the decoder
    sends the content chunks of the lines before it, then one error
    chunk, then nothing, whatever follows.  The payload lines are, for
    OpenAI, the [data: ] lines other than the [data: [DONE]] marker; for
    Anthropic, the [data: ] lines read while the current event is
    [content_block_delta]; for Ollama, the lines that are not empty. *)
Theorem malformed_payload_ends_stream (pre rest : list string)
    (out : list Chunk) (bad : string) (e : error) (err : option error) :
  (scan_loop OpenAI.stream_body tt pre = (out, Exhausted tt) ->
   bad <> "[DONE]" ->
   @json_Unmarshal OpenAI.openaiResponse _ bad = Err e ->
   OpenAI.decoder
     {| scan_lines := pre ++ ("data: " +:+ bad) :: rest; scan_err := err |}
   = out ++ [chunk_error (Wrapf "failed to parse stream data" e)]
   /\ Forall is_content_chunk out)
  /\ (scan_loop Anthropic.stream_body "" pre
      = (out, Exhausted "content_block_delta") ->
      @json_Unmarshal Anthropic.anthropicStreamEvent _ bad = Err e ->
      Anthropic.decoder
        {| scan_lines := pre ++ ("data: " +:+ bad) :: rest; scan_err := err |}
      = out ++ [chunk_error (Wrapf "failed to parse stream data" e)]
      /\ Forall is_content_chunk out)
  /\ (scan_loop Ollama.stream_body tt pre = (out, Exhausted tt) ->
      bad <> "" ->
      @json_Unmarshal Ollama.ollamaResponse _ bad = Err e ->
      Ollama.decoder {| scan_lines := pre ++ bad :: rest; scan_err := err |}
      = out ++ [chunk_error (Wrapf "failed to parse stream data" e)]
      /\ Forall is_content_chunk out).
Proof.
  split; [|split].
  - intros Hpre Hb Hu. split.
    + apply stream_returned; simpl.
      apply (scan_loop_return_line _ _ _ _ _ _ _ _ Hpre).
      now rewrite (openai_data _ Hb), Hu.
    + pose proof (scan_loop_shape _ openai_continue openai_return pre tt) as Hs.
      now rewrite Hpre in Hs.
  - intros Hpre Hu. split.
    + apply stream_returned; simpl.
      apply (scan_loop_return_line _ _ _ _ _ _ _ _ Hpre).
      now rewrite anthropic_data, Hu.
    + pose proof (scan_loop_shape _ anthropic_continue anthropic_return pre "")
        as Hs.
      now rewrite Hpre in Hs.
  - intros Hpre Hb Hu. split.
    + apply stream_returned; simpl.
      apply (scan_loop_return_line _ _ _ _ _ _ _ _ Hpre).
      now rewrite (ollama_line _ Hb), Hu.
    + pose proof (scan_loop_shape _ ollama_continue ollama_return pre tt) as Hs.
      now rewrite Hpre in Hs.
Qed.

(** Every stream of every decoder is a run of content chunks followed
    by exactly one terminal chunk, or, when the body ends cleanly before
    any terminal marker, a run of content chunks and nothing else. *)
Corollary decoder_shape (sc : Scanner) (out : list Chunk) :
  out = OpenAI.decoder sc \/ out = Anthropic.decoder sc
  \/ out = Ollama.decoder sc ->
  (exists pre t, out = pre ++ [t]
                 /\ Forall is_content_chunk pre /\ is_terminal_chunk t)
  \/ (Forall is_content_chunk out /\ scan_err sc = None).
Proof.
  intros [->|[->| ->]].
  - destruct (stream_shape _ openai_continue openai_return tt sc)
      as [H|(H & He & _)]; [now left | now right].
  - destruct (stream_shape _ anthropic_continue anthropic_return "" sc)
      as [H|(H & He & _)]; [now left | now right].
  - destruct (stream_shape _ ollama_continue ollama_return tt sc)
      as [H|(H & He & _)]; [now left | now right].
Qed.

(** A read error after lines that did not end the stream is sent as the
    last chunk. *)
Corollary read_error_is_reported (sc : Scanner) (cause : error) :
  scan_err sc = Some cause ->
  (exists s, snd (scan_loop Ollama.stream_body tt (scan_lines sc))
             = Exhausted s) ->
  Ollama.decoder sc
  = fst (scan_loop Ollama.stream_body tt (scan_lines sc))
    ++ [chunk_error (Wrapf "stream read error" cause)].
Proof.
  intros Hc [s Hs]. unfold Ollama.decoder, stream.
  destruct (scan_loop Ollama.stream_body tt (scan_lines sc)) as [out ex].
  simpl in Hs. subst ex. now rewrite Hc.
Qed.

(** An Ollama line may carry the last content together with the [done]
    flag: the content is sent first, then the terminal chunk. *)
Remark ollama_packed_terminal (pre rest : list string) (out : list Chunk)
    (line : string) (resp : Ollama.ollamaResponse) (err : option error) :
  scan_loop Ollama.stream_body tt pre = (out, Exhausted tt) ->
  line <> "" ->
  json_Unmarshal line = Ok resp ->
  Ollama.ollamaResponse_Error resp = "" ->
  Ollama.ollamaMessage_Content (Ollama.ollamaResponse_Message resp) <> "" ->
  Ollama.ollamaResponse_Done resp = true ->
  Ollama.decoder {| scan_lines := pre ++ line :: rest; scan_err := err |}
  = out ++ [chunk_content
              (Ollama.ollamaMessage_Content (Ollama.ollamaResponse_Message resp));
            chunk_done].
Proof.
  intros Hpre Hl Hu He Hc Hd. apply stream_returned; simpl.
  apply (scan_loop_return_line _ _ _ _ _ _ _ _ Hpre).
  rewrite (ollama_line _ Hl), Hu, He, Hd.
  now apply String.eqb_neq in Hc as ->.
Qed.

End StreamClaims.

(** ** The decoders on wire text *)

Section StreamExamples.
Import RefJSON Wire.
#[local] Existing Instances openai RefJSON.anthropic_event ollama.

(** In the reference instance a text that is not JSON is rejected. *)
Lemma unmarshal_invalid {T : Type} (d : dec T) (zero : T) (data : string) :
  parse data = None -> unmarshal d zero data = Err syntax_error.
Proof. unfold unmarshal. now intros ->. Qed.

(** The scenarios of the specification. *)
Example anthropic_scenario :
  Anthropic.decoder
    (lines ["event: content_block_delta";
            "data: " +:+ anthropic_text_delta "Hi";
            "event: message_stop";
            "data: {}"])
  = [chunk_content "Hi"; chunk_done].
Proof. reflexivity. Qed.

Example ollama_scenario :
  Ollama.decoder (lines [ollama_message "Hi" true])
  = [chunk_content "Hi"; chunk_done].
Proof. reflexivity. Qed.

Lemma stream_ordering_witness :
  OpenAI.decoder
    (lines ["data: " +:+ openai_chunk "Hel"; "";
            "data: " +:+ openai_chunk "lo"; "";
            "data: [DONE]"; ""])
  = [chunk_content "Hel"; chunk_content "lo"; chunk_done]
  /\ Anthropic.decoder
       (lines ["event: content_block_delta";
               "data: " +:+ anthropic_text_delta "Hel"; "";
               "event: content_block_delta";
               "data: " +:+ anthropic_text_delta "lo"; "";
               "event: message_stop"; "data: {}"; ""])
     = [chunk_content "Hel"; chunk_content "lo"; chunk_done]
  /\ Ollama.decoder
       (lines [ollama_message "Hel" false; ollama_message "lo" false;
               ollama_message "" true])
     = [chunk_content "Hel"; chunk_content "lo"; chunk_done].
Proof.
  split; [|split].
  - apply (proj1 (stream_ordering ["Hel"; "lo"]
                    [["data: " +:+ openai_chunk "Hel"; ""];
                     ["data: " +:+ openai_chunk "lo"; ""]] [""] None)).
    repeat constructor.
    + exists (openai_chunk "Hel"). do 3 eexists. exists 1%nat.
      repeat split; try reflexivity; discriminate.
    + exists (openai_chunk "lo"). do 3 eexists. exists 1%nat.
      repeat split; try reflexivity; discriminate.
  - apply (proj1 (proj2 (stream_ordering ["Hel"; "lo"]
                    [["event: content_block_delta";
                      "data: " +:+ anthropic_text_delta "Hel"; ""];
                     ["event: content_block_delta";
                      "data: " +:+ anthropic_text_delta "lo"; ""]] [""] None))
             "{}").
    repeat constructor.
    + exists (anthropic_text_delta "Hel"). do 2 eexists. exists 1%nat.
      repeat split; try reflexivity; discriminate.
    + exists (anthropic_text_delta "lo"). do 2 eexists. exists 1%nat.
      repeat split; try reflexivity; discriminate.
  - apply (proj2 (proj2 (stream_ordering ["Hel"; "lo"]
                    [[ollama_message "Hel" false]; [ollama_message "lo" false]]
                    [] None))
             (ollama_message "" true)).
    + repeat constructor.
      * exists (ollama_message "Hel" false). eexists. exists 0%nat.
        repeat split; try reflexivity; discriminate.
      * exists (ollama_message "lo" false). eexists. exists 0%nat.
        repeat split; try reflexivity; discriminate.
    + split; [discriminate|]. eexists. repeat split; reflexivity.
Defined.

(** C1 fails on the code.  Each body below ends after one content
    delta, without terminal marker and without read error; each decoder
    sends the content chunk and closes the stream: no chunk carries an
    error. *)
Lemma eof_without_marker_counterexample :
  (OpenAI.decoder (lines ["data: " +:+ openai_chunk "Hi"])
   = [chunk_content "Hi"]
   /\ Anthropic.decoder
        (lines ["event: content_block_delta";
                "data: " +:+ anthropic_text_delta "Hi"])
      = [chunk_content "Hi"]
   /\ Ollama.decoder (lines [ollama_message "Hi" false])
      = [chunk_content "Hi"])
  /\ ~ (exists e, In (chunk_error e) [chunk_content "Hi"]).
Proof.
  split; [repeat split|].
  intros [e [H|[]]]. discriminate.
Qed.

Lemma eof_without_marker_witness :
  Forall is_content_chunk
    (OpenAI.decoder (lines ["data: " +:+ openai_chunk "Hi"]))
  /\ Forall is_content_chunk
       (Anthropic.decoder
          (lines ["event: content_block_delta";
                  "data: " +:+ anthropic_text_delta "Hi"]))
  /\ Forall is_content_chunk
       (Ollama.decoder (lines [ollama_message "Hi" false])).
Proof.
  split; [|split].
  - destruct (eof_without_marker
                (lines ["data: " +:+ openai_chunk "Hi"]) eq_refl)
      as (H & _ & _).
    apply H. exists tt. reflexivity.
  - destruct (eof_without_marker
                (lines ["event: content_block_delta";
                        "data: " +:+ anthropic_text_delta "Hi"]) eq_refl)
      as (_ & H & _).
    apply H. exists "content_block_delta". reflexivity.
  - destruct (eof_without_marker
                (lines [ollama_message "Hi" false]) eq_refl)
      as (_ & _ & H).
    apply H. exists tt. reflexivity.
Defined.



(** C5 fails on the code.  The second line is a data line whose payload
    is not JSON.  It is read under the event [ping], so the Anthropic
    decoder does not parse it: no error chunk is sent and the lines after
    it are decoded. *)
Lemma malformed_payload_counterexample :
  parse "{bad" = None
  /\ @json_Unmarshal Anthropic.anthropicStreamEvent _ "{bad"
     = Err syntax_error
  /\ Anthropic.decoder
       (lines ["event: ping"; "data: {bad";
               "event: content_block_delta";
               "data: " +:+ anthropic_text_delta "Hi";
               "event: message_stop"; "data: {}"])
     = [chunk_content "Hi"; chunk_done].
Proof. repeat split. Qed.

Lemma malformed_payload_ends_stream_witness :
  OpenAI.decoder
    (lines ["data: " +:+ openai_chunk "Hi"; "data: {bad";
            "data: " +:+ openai_chunk "late"; "data: [DONE]"])
  = [chunk_content "Hi";
     chunk_error (Wrapf "failed to parse stream data" syntax_error)]
  /\ Anthropic.decoder
       (lines ["event: content_block_delta";
               "data: " +:+ anthropic_text_delta "Hi"; "data: {bad";
               "data: " +:+ anthropic_text_delta "late";
               "event: message_stop"; "data: {}"])
     = [chunk_content "Hi";
        chunk_error (Wrapf "failed to parse stream data" syntax_error)]
  /\ Ollama.decoder
       (lines [ollama_message "Hi" false; "{bad";
               ollama_message "late" true])
     = [chunk_content "Hi";
        chunk_error (Wrapf "failed to parse stream data" syntax_error)].
Proof.
  split; [|split].
  - refine (proj1 (proj1 (malformed_payload_ends_stream
                            ["data: " +:+ openai_chunk "Hi"]
                            ["data: " +:+ openai_chunk "late"; "data: [DONE]"]
                            [chunk_content "Hi"] "{bad" syntax_error None)
                     _ _ _)).
    + reflexivity.
    + discriminate.
    + reflexivity.
  - refine (proj1 (proj1 (proj2 (malformed_payload_ends_stream
                            ["event: content_block_delta";
                             "data: " +:+ anthropic_text_delta "Hi"]
                            ["data: " +:+ anthropic_text_delta "late";
                             "event: message_stop"; "data: {}"]
                            [chunk_content "Hi"] "{bad" syntax_error None))
                     _ _)).
    + reflexivity.
    + reflexivity.
  - refine (proj1 (proj2 (proj2 (malformed_payload_ends_stream
                            [ollama_message "Hi" false]
                            [ollama_message "late" true]
                            [chunk_content "Hi"] "{bad" syntax_error None))
                     _ _ _)).
    + reflexivity.
    + discriminate.
    + reflexivity.
Defined.

End StreamExamples.

(** * Further properties of the adapters *)

(** ** The wire requests *)

Section WireRequests.

(** X1. The Anthropic wire request always carries [max_tokens]: 1024
    when the caller set no limit, the caller's limit otherwise, and in
    no case zero. *)
Theorem anthropic_max_tokens_always_sent (req : Request) (stream : bool) :
  let limit := if MaxTokens req =? 0 then 1024 else MaxTokens req in
  json_field "max_tokens" (Anthropic.marshal (Anthropic.buildRequest req stream))
  = Some (JInt limit)
  /\ limit <> 0.
Proof.
  cbv zeta. split; [reflexivity|].
  destruct (Z.eqb_spec (MaxTokens req) 0); [discriminate | assumption].
Qed.

Lemma openai_stream_field (req : Request) (stream : bool) :
  OpenAI.openaiRequest_Stream (OpenAI.buildRequest req stream) = stream.
Proof.
  unfold OpenAI.buildRequest.
  destruct (MaxTokens req >? 0), (OpenAI.usesMaxCompletionTokens (Model req));
    reflexivity.
Qed.

Lemma openai_wire_stream (r : OpenAI.openaiRequest) :
  json_field "stream" (OpenAI.marshal r)
  = if OpenAI.openaiRequest_Stream r then Some (JBool true) else None.
Proof.
  unfold OpenAI.marshal, omitempty_int, omitempty_bool; simpl.
  destruct (OpenAI.openaiRequest_MaxTokens r =? 0),
           (OpenAI.openaiRequest_MaxCompletionTokens r =? 0),
           (OpenAI.openaiRequest_Stream r); reflexivity.
Qed.

(** X2. The streaming flag on the wire.  OpenAI and Anthropic write
    [stream] only when it is set; Ollama writes it always, also when it
    is false.  The Ollama request has the keys [model], [messages] and
    [stream] and no other: no token limit is sent, whatever the
    caller's limit. *)
Theorem stream_flag_on_wire (req : Request) (stream : bool) :
  json_field "stream" (OpenAI.marshal (OpenAI.buildRequest req stream))
  = (if stream then Some (JBool true) else None)
  /\ json_field "stream" (Anthropic.marshal (Anthropic.buildRequest req stream))
     = (if stream then Some (JBool true) else None)
  /\ json_field "stream" (Ollama.marshal (Ollama.buildRequest req stream))
     = Some (JBool stream)
  /\ json_keys (Ollama.marshal (Ollama.buildRequest req stream))
     = ["model"; "messages"; "stream"].
Proof.
  rewrite openai_wire_stream, openai_stream_field.
  split; [reflexivity|]. split; [|split; reflexivity].
  unfold Anthropic.marshal, Anthropic.buildRequest, omitempty_string; simpl.
  destruct (String.eqb (System req) ""), stream; reflexivity.
Qed.

End WireRequests.

(** ** Headers of the OpenAI and Anthropic adapters *)

Section AuthHeaders.

Lemma canonical_x_api_key_name :
  CanonicalMIMEHeaderKey "x-api-key" = "X-Api-Key".
Proof. reflexivity. Qed.

Lemma canonical_anthropic_version :
  CanonicalMIMEHeaderKey "anthropic-version" = "Anthropic-Version".
Proof. reflexivity. Qed.

(** X3. The OpenAI adapter sets [Authorization] to ["Bearer "] followed
    by the key on every request, also for an empty key, and sets the
    content type; every other header is left as it was. *)
Theorem openai_headers (r : HttpRequest) (apiKey : string) :
  let h := Header (OpenAI.setHeaders r apiKey) in
  h !! "Authorization" = Some ["Bearer " +:+ apiKey]
  /\ h !! "Content-Type" = Some ["application/json"]
  /\ (forall key : string,
        key <> "Authorization" -> key <> "Content-Type" ->
        h !! key = Header r !! key)
  /\ Method (OpenAI.setHeaders r apiKey) = Method r
  /\ URL (OpenAI.setHeaders r apiKey) = URL r
  /\ ReqBody (OpenAI.setHeaders r apiKey) = ReqBody r.
Proof.
  unfold OpenAI.setHeaders, with_header, Header_Set; simpl.
  rewrite canonical_Authorization, canonical_Content_Type.
  repeat split.
  - apply lookup_insert_eq.
  - rewrite lookup_insert_ne by discriminate. apply lookup_insert_eq.
  - intros key H1 H2.
    rewrite lookup_insert_ne by congruence.
    now rewrite lookup_insert_ne by congruence.
Qed.

(** X4. The Anthropic adapter sends the key in [x-api-key] and the
    fixed version in [anthropic-version]; both can be read back under
    the names the source writes.  It never sets [Authorization]. *)
Theorem anthropic_headers (r : HttpRequest) (apiKey : string) :
  let h := Header (Anthropic.setHeaders r apiKey) in
  Header_Get h "x-api-key" = apiKey
  /\ Header_Get h "anthropic-version" = "2023-06-01"
  /\ Header_Get h "Content-Type" = "application/json"
  /\ h !! "Authorization" = Header r !! "Authorization".
Proof.
  unfold Anthropic.setHeaders, with_header, Header_Set, Header_Get; simpl.
  rewrite canonical_x_api_key_name, canonical_anthropic_version,
    canonical_Content_Type.
  unfold Anthropic.anthropicVersion.
  repeat split.
  - rewrite lookup_insert_ne by discriminate. now rewrite lookup_insert_eq.
  - now rewrite lookup_insert_eq.
  - rewrite !lookup_insert_ne by discriminate. now rewrite lookup_insert_eq.
  - now rewrite !lookup_insert_ne by discriminate.
Qed.

End AuthHeaders.

(** ** Status errors and successful completions *)

Section StatusErrors.
Context `{HTTPClient}.
Context {openai_json : Unmarshaler OpenAI.openaiResponse}.
Context {anthropic_json : Unmarshaler Anthropic.anthropicResponse}.
Context {anthropic_error_json : Unmarshaler Anthropic.errResp}.
Context {anthropic_event_json : Unmarshaler Anthropic.anthropicStreamEvent}.
Context {ollama_json : Unmarshaler Ollama.ollamaResponse}.

Lemma status_not_ok (resp : HttpResponse) :
  StatusCode resp <> 200 -> negb (StatusCode resp =? StatusOK) = true.
Proof.
  intros Hs. apply negb_true_iff. now apply Z.eqb_neq.
Qed.

(** X5. When the provider answers the streaming request with a status
    other than 200, [CompleteStream] starts no stream: it returns the
    error [handleError] makes of the response, as [Complete] does for
    the blocking request. *)
Theorem non_success_status_starts_no_stream (req : Request)
    (stream : bool) (httpReq : HttpRequest) (resp : HttpResponse) :
  StatusCode resp <> 200 ->
  (http_NewRequest "POST" (OpenAI.endpoint req)
     (OpenAI.marshal (OpenAI.buildRequest req stream)) = Ok httpReq ->
   Do (OpenAI.setHeaders httpReq (APIKey req)) = Ok resp ->
   if stream
   then OpenAI.CompleteStream req = Err (OpenAI.handleError resp)
   else OpenAI.Complete req = Err (OpenAI.handleError resp))
  /\ (http_NewRequest "POST" (Anthropic.endpoint req)
        (Anthropic.marshal (Anthropic.buildRequest req stream)) = Ok httpReq ->
      Do (Anthropic.setHeaders httpReq (APIKey req)) = Ok resp ->
      if stream
      then Anthropic.CompleteStream req = Err (Anthropic.handleError resp)
      else Anthropic.Complete req = Err (Anthropic.handleError resp))
  /\ (http_NewRequest "POST" (Ollama.endpoint req)
        (Ollama.marshal (Ollama.buildRequest req stream)) = Ok httpReq ->
      Do (Ollama.setHeaders httpReq (APIKey req)) = Ok resp ->
      if stream
      then Ollama.CompleteStream req = Err (Ollama.handleError resp)
      else Ollama.Complete req = Err (Ollama.handleError resp)).
Proof.
  intros Hs. apply status_not_ok in Hs.
  split; [|split]; intros Hnew Hdo; destruct stream.
  - unfold OpenAI.CompleteStream. now rewrite Hnew, Hdo, Hs.
  - unfold OpenAI.Complete. now rewrite Hnew, Hdo, Hs.
  - unfold Anthropic.CompleteStream. now rewrite Hnew, Hdo, Hs.
  - unfold Anthropic.Complete. now rewrite Hnew, Hdo, Hs.
  - unfold Ollama.CompleteStream. now rewrite Hnew, Hdo, Hs.
  - unfold Ollama.Complete. now rewrite Hnew, Hdo, Hs.
Qed.

(** X6. How the OpenAI adapter classifies a failed response.  The
    message of the provider is used only when the body decodes and
    holds an error object: then status 401 is an invalid key, 429 a rate
    limit, any other status an API error with the status and the
    message.  A body that does not decode, or holds no error object, is
    an API error with the status and the raw body, for every status. *)
Theorem openai_error_classification (resp : HttpResponse) :
  let body := body_data (RespBody resp) in
  let status := StatusCode resp in
  (forall (r : OpenAI.openaiResponse) (e : OpenAI.openaiError),
      json_Unmarshal body = Ok r ->
      OpenAI.openaiResponse_Error r = Some e ->
      (status = 401 ->
       OpenAI.handleError resp
       = Errorf ("invalid API key: " +:+ OpenAI.openaiError_Message e))
      /\ (status = 429 ->
          OpenAI.handleError resp
          = Errorf ("rate limited: " +:+ OpenAI.openaiError_Message e))
      /\ (status <> 401 -> status <> 429 ->
          OpenAI.handleError resp
          = ErrorfStatus "API error" status (OpenAI.openaiError_Message e)))
  /\ ((forall r, json_Unmarshal body = Ok r ->
                 OpenAI.openaiResponse_Error r = None) ->
      OpenAI.handleError resp = ErrorfStatus "API error" status body).
Proof.
  cbv zeta. unfold OpenAI.handleError. split.
  - intros r e -> ->. repeat split.
    + now intros ->.
    + now intros ->.
    + intros H1 H2. apply Z.eqb_neq in H1, H2.
      unfold StatusUnauthorized, StatusTooManyRequests. now rewrite H1, H2.
  - intros Hnone.
    destruct (json_Unmarshal (body_data (RespBody resp))) as [r|err];
      [|reflexivity].
    now rewrite (Hnone r eq_refl).
Qed.

(** X7. A [Response] is returned for status 200 only, and it names the
    model of the request, not one reported by the provider.  The
    content is that of the first choice (OpenAI), or of the message of
    a body without error (Ollama). *)
Theorem complete_success (req : Request) (v : Response) :
  (OpenAI.Complete req = Ok v ->
   exists httpReq resp r choice rest,
     Do (OpenAI.setHeaders httpReq (APIKey req)) = Ok resp
     /\ StatusCode resp = 200
     /\ json_Decode (RespBody resp) = Ok r
     /\ OpenAI.openaiResponse_Choices r = choice :: rest
     /\ Response_Content v
        = OpenAI.openaiMessage_Content (OpenAI.openaiChoice_Message choice)
     /\ Response_Model v = Model req)
  /\ (Anthropic.Complete req = Ok v ->
      exists httpReq resp r,
        Do (Anthropic.setHeaders httpReq (APIKey req)) = Ok resp
        /\ StatusCode resp = 200
        /\ json_Decode (RespBody resp) = Ok r
        /\ Anthropic.anthropicResponse_Content r <> []
        /\ Response_Model v = Model req)
  /\ (Ollama.Complete req = Ok v ->
      exists httpReq resp r,
        Do (Ollama.setHeaders httpReq (APIKey req)) = Ok resp
        /\ StatusCode resp = 200
        /\ json_Decode (RespBody resp) = Ok r
        /\ Ollama.ollamaResponse_Error r = ""
        /\ Response_Content v
           = Ollama.ollamaMessage_Content (Ollama.ollamaResponse_Message r)
        /\ Response_Model v = Model req).
Proof.
  split; [|split].
  - unfold OpenAI.Complete.
    destruct (http_NewRequest _ _ _) as [httpReq|]; [|discriminate].
    destruct (Do _) as [resp|] eqn:Hdo; [|discriminate].
    destruct (StatusCode resp =? StatusOK) eqn:Hs; [|discriminate]. simpl.
    destruct (json_Decode _) as [r|] eqn:Hdec; [|discriminate].
    destruct (OpenAI.openaiResponse_Choices r) as [|choice rest] eqn:Hc;
      [discriminate|].
    intros [= <-]. exists httpReq, resp, r, choice, rest.
    apply Z.eqb_eq in Hs. now repeat split.
  - unfold Anthropic.Complete.
    destruct (http_NewRequest _ _ _) as [httpReq|]; [|discriminate].
    destruct (Do _) as [resp|] eqn:Hdo; [|discriminate].
    destruct (StatusCode resp =? StatusOK) eqn:Hs; [|discriminate]. simpl.
    destruct (json_Decode _) as [r|] eqn:Hdec; [|discriminate].
    destruct (Anthropic.anthropicResponse_Content r) as [|c rest] eqn:Hc;
      [discriminate|].
    intros [= <-]. exists httpReq, resp, r.
    apply Z.eqb_eq in Hs. rewrite Hc. now repeat split.
  - unfold Ollama.Complete.
    destruct (http_NewRequest _ _ _) as [httpReq|]; [|discriminate].
    destruct (Do _) as [resp|] eqn:Hdo; [|discriminate].
    destruct (StatusCode resp =? StatusOK) eqn:Hs; [|discriminate]. simpl.
    destruct (json_Decode _) as [r|] eqn:Hdec; [|discriminate].
    destruct (String.eqb (Ollama.ollamaResponse_Error r) "") eqn:He;
      [|discriminate]. simpl.
    intros [= <-]. exists httpReq, resp, r.
    apply Z.eqb_eq in Hs. apply String.eqb_eq in He. now repeat split.
Qed.

End StatusErrors.

(** * Further properties of the stream decoders *)

Section StreamExtras.
Import strings stringsFacts.
Context {openai_json : Unmarshaler OpenAI.openaiResponse}.
Context {anthropic_json : Unmarshaler Anthropic.anthropicStreamEvent}.
Context {ollama_json : Unmarshaler Ollama.ollamaResponse}.

Lemma stream_well_formed {S : Type} (body : S -> string -> step S) (init : S) :
  (forall s line s' sent,
      body s line = Continue s' sent -> Forall is_content_chunk sent) ->
  (forall s line sent,
      body s line = Return sent ->
      exists pre t, sent = pre ++ [t]
                    /\ Forall is_content_chunk pre /\ is_terminal_chunk t) ->
  forall sc, well_formed_stream (stream body init sc)
             /\ (scan_err sc <> None ->
                 exists pre t, stream body init sc = pre ++ [t]
                               /\ is_terminal_chunk t).
Proof.
  intros Hc Hr sc.
  destruct (stream_shape body Hc Hr init sc)
    as [(pre & t & -> & Hpre & Ht)|(Hall & Herr & _)].
  - split.
    + exists pre, [t]. split; [reflexivity|]. split; [exact Hpre|].
      right. now exists t.
    + intros _. now exists pre, t.
  - split.
    + exists (stream body init sc), []. rewrite app_nil_r.
      split; [reflexivity|]. split; [exact Hall|]. now left.
    + intros Hne. contradiction.
Qed.

(** X8. Every stream of every decoder, on every input, is a run of
    chunks with non-empty content followed by at most one terminal
    chunk (done or error), which is the last chunk sent.  When the
    scanner reports an error the terminal chunk is there. *)
Theorem stream_invariant (sc : Scanner) :
  (well_formed_stream (OpenAI.decoder sc)
   /\ well_formed_stream (Anthropic.decoder sc)
   /\ well_formed_stream (Ollama.decoder sc))
  /\ (scan_err sc <> None ->
      (exists pre t, OpenAI.decoder sc = pre ++ [t] /\ is_terminal_chunk t)
      /\ (exists pre t, Anthropic.decoder sc = pre ++ [t]
                        /\ is_terminal_chunk t)
      /\ (exists pre t, Ollama.decoder sc = pre ++ [t]
                        /\ is_terminal_chunk t)).
Proof.
  pose proof (stream_well_formed OpenAI.stream_body tt
                openai_continue openai_return sc) as [Ho Ho'].
  pose proof (stream_well_formed Anthropic.stream_body ""
                anthropic_continue anthropic_return sc) as [Ha Ha'].
  pose proof (stream_well_formed Ollama.stream_body tt
                ollama_continue ollama_return sc) as [Hl Hl'].
  split; [now repeat split|]. intros Hne. now repeat split; auto.
Qed.

(** X9. A read error of the scanner, after lines that did not end the
    stream, is sent as one last error chunk that wraps the cause. *)
Theorem read_error_ends_stream (sc : Scanner) (cause : error) :
  scan_err sc = Some cause ->
  ((exists s, snd (scan_loop OpenAI.stream_body tt (scan_lines sc))
              = Exhausted s) ->
   OpenAI.decoder sc
   = fst (scan_loop OpenAI.stream_body tt (scan_lines sc))
     ++ [chunk_error (Wrapf "stream read error" cause)])
  /\ ((exists s, snd (scan_loop Anthropic.stream_body "" (scan_lines sc))
                 = Exhausted s) ->
      Anthropic.decoder sc
      = fst (scan_loop Anthropic.stream_body "" (scan_lines sc))
        ++ [chunk_error (Wrapf "stream read error" cause)])
  /\ ((exists s, snd (scan_loop Ollama.stream_body tt (scan_lines sc))
                 = Exhausted s) ->
      Ollama.decoder sc
      = fst (scan_loop Ollama.stream_body tt (scan_lines sc))
        ++ [chunk_error (Wrapf "stream read error" cause)]).
Proof.
  intros Hc.
  assert (G : forall (S : Type) (body : S -> string -> step S) (init : S),
             (exists s, snd (scan_loop body init (scan_lines sc)) = Exhausted s) ->
             stream body init sc
             = fst (scan_loop body init (scan_lines sc))
               ++ [chunk_error (Wrapf "stream read error" cause)]).
  { intros S body init [s Hs]. unfold stream.
    destruct (scan_loop body init (scan_lines sc)) as [out ex].
    simpl in Hs. subst ex. now rewrite Hc. }
  repeat split; apply G.
Qed.

(** X10. Nothing is read after the line that ends a stream: when the
    decoder returns within a prefix of the lines, the lines after it and
    the scanner's error do not change what is sent. *)
Theorem nothing_after_terminal (pre rest : list string) (err : option error) :
  (forall out,
      scan_loop OpenAI.stream_body tt pre = (out, Returned) ->
      OpenAI.decoder {| scan_lines := pre ++ rest; scan_err := err |} = out)
  /\ (forall out,
         scan_loop Anthropic.stream_body "" pre = (out, Returned) ->
         Anthropic.decoder {| scan_lines := pre ++ rest; scan_err := err |}
         = out)
  /\ (forall out,
         scan_loop Ollama.stream_body tt pre = (out, Returned) ->
         Ollama.decoder {| scan_lines := pre ++ rest; scan_err := err |} = out).
Proof.
  repeat split; intros out Hpre; apply stream_returned; simpl;
    now apply scan_loop_returned_app.
Qed.

Lemma scan_loop_filter {S : Type} (body : S -> string -> step S)
    (keep : string -> bool) :
  (forall s line, keep line = false -> body s line = Continue s []) ->
  forall lines s,
    scan_loop body s (List.filter keep lines) = scan_loop body s lines.
Proof.
  intros Hskip lines. induction lines as [|line lines IH]; intros s; simpl;
    [reflexivity|].
  destruct (keep line) eqn:E; simpl.
  - destruct (body s line); [|reflexivity]. now rewrite IH.
  - rewrite (Hskip s line E). rewrite IH. simpl.
    now destruct (scan_loop body s lines).
Qed.

Lemma stream_filter {S : Type} (body : S -> string -> step S)
    (keep : string -> bool) (init : S) (lines : list string)
    (err : option error) :
  (forall s line, keep line = false -> body s line = Continue s []) ->
  stream body init {| scan_lines := lines; scan_err := err |}
  = stream body init {| scan_lines := List.filter keep lines;
                        scan_err := err |}.
Proof.
  intros Hskip. unfold stream; simpl.
  now rewrite (scan_loop_filter body keep Hskip).
Qed.

Lemma openai_skips (s : unit) (line : string) :
  openai_payload_line line = false ->
  OpenAI.stream_body s line = Continue s [].
Proof.
  unfold openai_payload_line, OpenAI.stream_body. intros Hp. destruct s.
  destruct (String.eqb line "") eqn:E1; [reflexivity|].
  destruct (String.eqb line "data: [DONE]") eqn:E2.
  - apply String.eqb_eq in E2. subst line. discriminate.
  - now rewrite Hp.
Qed.

Lemma anthropic_skips (s line : string) :
  anthropic_sse_line line = false ->
  Anthropic.stream_body s line = Continue s [].
Proof.
  unfold anthropic_sse_line, Anthropic.stream_body. intros Hp.
  apply orb_false_iff in Hp as [-> ->].
  now destruct (String.eqb line "").
Qed.

Lemma ollama_skips (s : unit) (line : string) :
  ollama_payload_line line = false ->
  Ollama.stream_body s line = Continue s [].
Proof.
  unfold ollama_payload_line, Ollama.stream_body. intros Hp. destruct s.
  apply negb_false_iff in Hp. now rewrite Hp.
Qed.

(** X11. The lines a decoder does not look at can be taken out of the
    body without changing the stream: for OpenAI the lines that do not
    start with [data: ] (blank lines, comments, other SSE fields), for
    Anthropic the lines that start with neither [event: ] nor [data: ],
    for Ollama the empty lines. *)
Theorem ignored_lines (lines : list string) (err : option error) :
  OpenAI.decoder {| scan_lines := lines; scan_err := err |}
  = OpenAI.decoder {| scan_lines := List.filter openai_payload_line lines;
                      scan_err := err |}
  /\ Anthropic.decoder {| scan_lines := lines; scan_err := err |}
     = Anthropic.decoder
         {| scan_lines := List.filter anthropic_sse_line lines;
            scan_err := err |}
  /\ Ollama.decoder {| scan_lines := lines; scan_err := err |}
     = Ollama.decoder {| scan_lines := List.filter ollama_payload_line lines;
                         scan_err := err |}.
Proof.
  repeat split; apply stream_filter.
  - apply openai_skips.
  - apply anthropic_skips.
  - apply ollama_skips.
Qed.

End StreamExtras.

Section StreamPayloads.
Import strings stringsFacts.
Context {openai_json : Unmarshaler OpenAI.openaiResponse}.
Context {anthropic_json : Unmarshaler Anthropic.anthropicStreamEvent}.
Context {ollama_json : Unmarshaler Ollama.ollamaResponse}.

Lemma stream_skip_line {S : Type} (body : S -> string -> step S)
    (init s : S) (pre rest : list string) (out : list Chunk) (line : string)
    (err : option error) :
  scan_loop body init pre = (out, Exhausted s) ->
  body s line = Continue s [] ->
  stream body init {| scan_lines := pre ++ line :: rest; scan_err := err |}
  = stream body init {| scan_lines := pre ++ rest; scan_err := err |}.
Proof.
  intros Hpre Hline. unfold stream; simpl.
  rewrite !(scan_loop_exhausted_app _ _ _ _ _ _ Hpre).
  rewrite scan_loop_cons, Hline. simpl.
  now destruct (scan_loop body s rest).
Qed.

(** X12. A payload that decodes but carries no content sends nothing
    and does not end the stream, so taking its line out of the body
    leaves the stream as it is: an OpenAI payload without choices or
    with an empty first delta; an Anthropic [content_block_delta]
    payload without delta, with a delta of another type than
    [text_delta], or with empty text; an Ollama object with empty
    content that is neither done nor an error.  The same holds for every
    Anthropic data line, decodable or not, read under an event other
    than [content_block_delta] and [message_stop]. *)
Theorem contentless_payload_is_invisible (pre rest : list string)
    (out : list Chunk) (payload : string) (err : option error) :
  (scan_loop OpenAI.stream_body tt pre = (out, Exhausted tt) ->
   payload <> "[DONE]" ->
   (exists r, @json_Unmarshal OpenAI.openaiResponse _ payload = Ok r
              /\ match OpenAI.openaiResponse_Choices r with
                 | [] => True
                 | choice :: _ =>
                     OpenAI.openaiMessage_Content
                       (OpenAI.openaiChoice_Delta choice) = ""
                 end) ->
   OpenAI.decoder
     {| scan_lines := pre ++ ("data: " +:+ payload) :: rest; scan_err := err |}
   = OpenAI.decoder {| scan_lines := pre ++ rest; scan_err := err |})
  /\ (scan_loop Anthropic.stream_body "" pre
      = (out, Exhausted "content_block_delta") ->
      (exists ev, @json_Unmarshal Anthropic.anthropicStreamEvent _ payload = Ok ev
                  /\ match Anthropic.anthropicStreamEvent_Delta ev with
                     | None => True
                     | Some d =>
                         Anthropic.anthropicStreamDelta_Type d <> "text_delta"
                         \/ Anthropic.anthropicStreamDelta_Text d = ""
                     end) ->
      Anthropic.decoder
        {| scan_lines := pre ++ ("data: " +:+ payload) :: rest;
           scan_err := err |}
      = Anthropic.decoder {| scan_lines := pre ++ rest; scan_err := err |})
  /\ (forall s : string,
         scan_loop Anthropic.stream_body "" pre = (out, Exhausted s) ->
         s <> "content_block_delta" -> s <> "message_stop" ->
         Anthropic.decoder
           {| scan_lines := pre ++ ("data: " +:+ payload) :: rest;
              scan_err := err |}
         = Anthropic.decoder {| scan_lines := pre ++ rest; scan_err := err |})
  /\ (scan_loop Ollama.stream_body tt pre = (out, Exhausted tt) ->
      payload <> "" ->
      (exists r, @json_Unmarshal Ollama.ollamaResponse _ payload = Ok r
                 /\ Ollama.ollamaResponse_Error r = ""
                 /\ Ollama.ollamaMessage_Content
                      (Ollama.ollamaResponse_Message r) = ""
                 /\ Ollama.ollamaResponse_Done r = false) ->
      Ollama.decoder {| scan_lines := pre ++ payload :: rest; scan_err := err |}
      = Ollama.decoder {| scan_lines := pre ++ rest; scan_err := err |}).
Proof.
  split; [|split; [|split]].
  - intros Hpre Hp (r & Hu & Hc).
    apply (stream_skip_line _ _ _ _ _ _ _ _ Hpre).
    rewrite (openai_data _ Hp), Hu.
    destruct (OpenAI.openaiResponse_Choices r) as [|choice l]; [reflexivity|].
    now rewrite Hc.
  - intros Hpre (ev & Hu & Hd).
    apply (stream_skip_line _ _ _ _ _ _ _ _ Hpre).
    rewrite anthropic_data, Hu. simpl.
    destruct (Anthropic.anthropicStreamEvent_Delta ev) as [d|]; [|reflexivity].
    destruct Hd as [Hd|Hd].
    + now apply String.eqb_neq in Hd as ->.
    + rewrite Hd. simpl. now rewrite andb_false_r.
  - intros s Hpre H1 H2.
    apply (stream_skip_line _ _ _ _ _ _ _ _ Hpre).
    rewrite anthropic_data.
    apply String.eqb_neq in H1, H2. now rewrite H1, H2.
  - intros Hpre Hp (r & Hu & He & Hc & Hd).
    apply (stream_skip_line _ _ _ _ _ _ _ _ Hpre).
    now rewrite (ollama_line _ Hp), Hu, He, Hc, Hd.
Qed.

(** X13. An Ollama object with a non-empty [error] field ends the
    stream with an error chunk that carries the message.  The content
    and the [done] flag of that object are not looked at, and nothing
    after the line is read. *)
Theorem ollama_error_field_ends_stream (pre rest : list string)
    (out : list Chunk) (line : string) (r : Ollama.ollamaResponse)
    (err : option error) :
  scan_loop Ollama.stream_body tt pre = (out, Exhausted tt) ->
  line <> "" ->
  json_Unmarshal line = Ok r ->
  Ollama.ollamaResponse_Error r <> "" ->
  Ollama.decoder {| scan_lines := pre ++ line :: rest; scan_err := err |}
  = out ++ [chunk_error
              (Errorf ("ollama error: " +:+ Ollama.ollamaResponse_Error r))].
Proof.
  intros Hpre Hl Hu He. apply stream_returned; simpl.
  apply (scan_loop_return_line _ _ _ _ _ _ _ _ Hpre).
  rewrite (ollama_line _ Hl), Hu.
  now apply String.eqb_neq in He as ->.
Qed.

Lemma anthropic_no_event (lines : list string) :
  Forall (fun line => HasPrefix line "event: " = false) lines ->
  scan_loop Anthropic.stream_body "" lines = ([], Exhausted "").
Proof.
  induction 1 as [|line lines Hl _ IH]; [reflexivity|].
  rewrite scan_loop_cons.
  assert (E : Anthropic.stream_body "" line = Continue "" []).
  { unfold Anthropic.stream_body. rewrite Hl.
    destruct (String.eqb line ""); [reflexivity|].
    now destruct (HasPrefix line "data: "). }
  now rewrite E, IH.
Qed.

(** X14. The Anthropic decoder parses no payload before the first
    [event: ] line: a body without such a line yields no chunk at all,
    whatever its data lines hold; only a read error of the scanner is
    sent. *)
Theorem anthropic_needs_event (lines : list string) (err : option error) :
  Forall (fun line => HasPrefix line "event: " = false) lines ->
  Anthropic.decoder {| scan_lines := lines; scan_err := err |}
  = match err with
    | Some cause => [chunk_error (Wrapf "stream read error" cause)]
    | None => []
    end.
Proof.
  intros Hl. unfold Anthropic.decoder, stream; simpl.
  now rewrite (anthropic_no_event _ Hl).
Qed.

End StreamPayloads.

(** * The registry *)

Section RegistryFacts.
Import Registry.

Lemma compare_cons (a b : ascii) (s t : string) :
  String.compare (String a s) (String b t)
  = match N.compare (N_of_ascii a) (N_of_ascii b) with
    | Eq => String.compare s t
    | Lt => Lt
    | Gt => Gt
    end.
Proof. reflexivity. Qed.

Lemma string_le_trans (s t u : string) :
  string_le s t -> string_le t u -> string_le s u.
Proof.
  unfold string_le, String.leb. revert t u.
  induction s as [|a s IH]; intros [|b t] [|c u]; simpl; try easy.
  change (match String.compare (String a s) (String b t) with
          | Gt => false | _ => true end = true ->
          match String.compare (String b t) (String c u) with
          | Gt => false | _ => true end = true ->
          match String.compare (String a s) (String c u) with
          | Gt => false | _ => true end = true).
  rewrite !compare_cons.
  destruct (N.compare_spec (N_of_ascii a) (N_of_ascii b)) as [E1|L1|G1];
    destruct (N.compare_spec (N_of_ascii b) (N_of_ascii c)) as [E2|L2|G2];
    destruct (N.compare_spec (N_of_ascii a) (N_of_ascii c)) as [E3|L3|G3];
    try easy; try lia.
  apply IH.
Qed.

#[local] Instance string_le_transitive : Transitive string_le.
Proof. intros s t u. apply string_le_trans. Qed.

#[local] Instance string_le_total : Total string_le.
Proof. intros s t. apply String.leb_total. Qed.

#[local] Instance string_le_antisym : AntiSymm eq string_le.
Proof. intros s t. apply String.leb_antisym. Qed.

Lemma elem_of_List (registry : gmap string Constructor) (name : string) :
  name ∈ List registry <-> is_Some (registry !! name).
Proof.
  unfold List, sort_Strings. rewrite merge_sort_Permutation.
  rewrite list_elem_of_fmap. split.
  - intros [[k c] [-> Hin]]. apply elem_of_map_to_list in Hin. now exists c.
  - intros [c Hc]. exists (name, c). split; [reflexivity|].
    now apply elem_of_map_to_list.
Qed.

(** X15. Looking a provider up.  A registered name gives the provider
    its constructor makes; registering a name again replaces the
    constructor; other names are not affected; [Exists] says exactly
    whether [Get] succeeds, and an unknown name is reported by name. *)
Theorem registry_lookup (registry : gmap string Constructor)
    (name : string) (constructor : Constructor) :
  Get (Register registry name constructor) name = Ok (constructor tt)
  /\ (forall other : string,
        other <> name ->
        Get (Register registry name constructor) other = Get registry other
        /\ Exists (Register registry name constructor) other
           = Exists registry other)
  /\ (forall n : string,
        (Exists registry n = true <-> exists p, Get registry n = Ok p)
        /\ (Exists registry n = false ->
            Get registry n = Err (Errorf ("unknown provider: " +:+ n)))).
Proof.
  unfold Get, Exists, Register. split; [|split].
  - now rewrite lookup_insert_eq.
  - intros other Hne. split; now rewrite lookup_insert_ne by congruence.
  - intros n. destruct (registry !! n) as [c|]; split; try easy.
    + split; [intros _; now exists (c tt) | reflexivity].
    + split; [discriminate | intros [p Hp]; discriminate].
Qed.

(** X16. [List] returns every registered name exactly once, in
    ascending byte order, and nothing else; so it depends on the set of
    registered names only, not on the order of the registrations or of
    the map. *)
Theorem registry_list_sorted (registry : gmap string Constructor) :
  StronglySorted string_le (List registry)
  /\ NoDup (List registry)
  /\ (forall name : string,
        name ∈ List registry <-> Exists registry name = true)
  /\ (forall other : gmap string Constructor,
        (forall name : string, Exists other name = Exists registry name) ->
        List other = List registry).
Proof.
  assert (Hsorted : forall r, StronglySorted string_le (List r)).
  { intros r. apply StronglySorted_merge_sort; apply _. }
  assert (Hnodup : forall r, NoDup (List r)).
  { intros r. unfold List, sort_Strings. rewrite merge_sort_Permutation.
    apply NoDup_fst_map_to_list. }
  assert (Hin : forall r name, name ∈ List r <-> Exists r name = true).
  { intros r name. rewrite elem_of_List. unfold Exists.
    destruct (r !! name); split; try easy.
    - intros [? ?]. discriminate. }
  repeat split; try apply Hin; auto.
  intros other Hsame.
  apply (StronglySorted_unique string_le); auto.
  apply NoDup_Permutation; auto.
  intros name. now rewrite !Hin, Hsame.
Qed.

End RegistryFacts.

(** * Configuration and client *)

Section Profiles.
Import sage.
Context `{Storage}.
Variable registry : gmap string Registry.Constructor.

(** X17. [GetProfile] with the empty name is [GetProfile] with the
    default name.  A profile it returns carries the name it is stored
    under, which is never empty, whatever name the stored value holds;
    a name that is not stored is reported by name. *)
Theorem get_profile (c : Config) (name : string) :
  GetProfile c "" = GetProfile c (Config_DefaultProfile c)
  /\ (forall p : Profile,
        GetProfile c name = Ok p ->
        Profile_Name p <> ""
        /\ (name <> "" -> Profile_Name p = name)
        /\ (name = "" -> Profile_Name p = Config_DefaultProfile c)
        /\ exists stored,
             Config_Profiles c !! Profile_Name p = Some stored
             /\ p = named (Profile_Name p) stored)
  /\ (name <> "" -> Config_Profiles c !! name = None ->
      GetProfile c name = Err (Errorf ("profile not found: " +:+ name))).
Proof.
  unfold GetProfile. split; [|split].
  - simpl. destruct (String.eqb (Config_DefaultProfile c) "") eqn:E;
      now rewrite ?E.
  - intros p.
    destruct (String.eqb name "") eqn:En.
    + apply String.eqb_eq in En. subst name.
      destruct (String.eqb (Config_DefaultProfile c) "") eqn:Ed;
        [discriminate|].
      apply String.eqb_neq in Ed.
      destruct (Config_Profiles c !! Config_DefaultProfile c) as [stored|] eqn:E;
        [|discriminate].
      intros [= <-]. simpl. repeat split; try easy. now exists stored.
    + rewrite En. apply String.eqb_neq in En.
      destruct (Config_Profiles c !! name) as [stored|] eqn:E; [|discriminate].
      intros [= <-]. simpl. repeat split; try easy. now exists stored.
  - intros Hn Hnone. apply String.eqb_neq in Hn. now rewrite Hn, Hn, Hnone.
Qed.

(** X18. The request handed to the provider.  It is built exactly when
    the profile is found, from the model of the profile and the prompt,
    system text and limit of the caller.  A missing secret is not an
    error: the key is then empty, and so is the base URL of a provider
    that is not configured. *)
Theorem provider_request (c : Client) (profileName : string) (req : Request) :
  (forall e, GetProfile (Client_config c) profileName = Err e ->
             buildProviderRequest c profileName req = Err e)
  /\ (forall p,
         GetProfile (Client_config c) profileName = Ok p ->
         exists r,
           buildProviderRequest c profileName req = Ok r
           /\ Model r = Profile_Model p
           /\ System r = Request_System req
           /\ Prompt r = Request_Prompt req
           /\ MaxTokens r = Request_MaxTokens req
           /\ (forall k,
                 Client_secrets c
                   !! secretKey (Profile_Provider p) (Profile_Account p)
                 = Some k -> APIKey r = k)
           /\ (Client_secrets c
                 !! secretKey (Profile_Provider p) (Profile_Account p) = None ->
               APIKey r = "")
           /\ (Config_Providers (Client_config c) !! Profile_Provider p = None ->
               BaseURL r = "")).
Proof.
  unfold buildProviderRequest, secretKey. split.
  - now intros e ->.
  - intros p ->. eexists. split; [reflexivity|]. simpl.
    repeat split.
    + now intros k ->.
    + now intros ->.
    + now intros ->.
Qed.

(** X19. [AddProfile], [RemoveProfile] and [SetDefaultProfile] keep the
    default profile among the stored profiles, whether the save
    succeeds or not: the default cannot be removed, and only a stored
    profile can become the default. *)
Theorem default_profile_preserved (c : Client) (name : string) (p : Profile) :
  default_profile_ok (Client_config c) ->
  default_profile_ok (Client_config (fst (AddProfile registry c name p)))
  /\ default_profile_ok (Client_config (fst (RemoveProfile c name)))
  /\ default_profile_ok (Client_config (fst (SetDefaultProfile c name))).
Proof.
  unfold default_profile_ok. intros Hok. split; [|split].
  - unfold AddProfile.
    destruct (negb (Registry.Exists registry (Profile_Provider p)));
      [exact Hok|]. simpl.
    destruct Hok as [Hd|Hd]; [now left|right].
    destruct (decide (name = Config_DefaultProfile (Client_config c)))
      as [->|Hne].
    + rewrite lookup_insert_eq. eauto.
    + now rewrite lookup_insert_ne.
  - unfold RemoveProfile.
    destruct (Config_Profiles (Client_config c) !! name); [|exact Hok].
    destruct (String.eqb (Config_DefaultProfile (Client_config c)) name)
      eqn:E; [exact Hok|]. simpl.
    apply String.eqb_neq in E.
    destruct Hok as [Hd|Hd]; [now left|right].
    now rewrite lookup_delete_ne by congruence.
  - unfold SetDefaultProfile.
    destruct (Config_Profiles (Client_config c) !! name) eqn:E; [|exact Hok].
    simpl. right. rewrite E. eauto.
Qed.

(** X20. [RemoveProfile] refuses an unknown profile and the default
    profile, and then leaves the client as it was.  Otherwise the
    profile is gone from the client and every other profile, the
    default, the providers and the secrets are as before. *)
Theorem remove_profile (c : Client) (name : string) :
  (Config_Profiles (Client_config c) !! name = None ->
   RemoveProfile c name = (c, Some (Errorf ("profile not found: " +:+ name))))
  /\ (is_Some (Config_Profiles (Client_config c) !! name) ->
      Config_DefaultProfile (Client_config c) = name ->
      RemoveProfile c name
      = (c, Some (Errorf ("cannot remove default profile: " +:+ name))))
  /\ (is_Some (Config_Profiles (Client_config c) !! name) ->
      Config_DefaultProfile (Client_config c) <> name ->
      let c' := fst (RemoveProfile c name) in
      Config_Profiles (Client_config c') !! name = None
      /\ (forall other, other <> name ->
            Config_Profiles (Client_config c') !! other
            = Config_Profiles (Client_config c) !! other)
      /\ Config_DefaultProfile (Client_config c')
         = Config_DefaultProfile (Client_config c)
      /\ Config_Providers (Client_config c')
         = Config_Providers (Client_config c)
      /\ Client_secrets c' = Client_secrets c
      /\ snd (RemoveProfile c name) = Config_Save (Client_config c')).
Proof.
  unfold RemoveProfile. split; [|split].
  - now intros ->.
  - intros [p ->] Hd. apply String.eqb_eq in Hd. now rewrite Hd.
  - intros [p ->] Hd. apply String.eqb_neq in Hd. rewrite Hd. simpl.
    repeat split.
    + apply lookup_delete_eq.
    + intros other Hne. now rewrite lookup_delete_ne by congruence.
Qed.


End Profiles.

Section Accounts.
Import sage stringsFacts.
Context `{Storage}.
Variable registry : gmap string Registry.Constructor.

Lemma has_account_In (accounts : list string) (account : string) :
  has_account accounts account = true <-> account ∈ accounts.
Proof.
  induction accounts as [|a rest IH]; simpl.
  - split; [discriminate | intros Hin; inversion Hin].
  - rewrite elem_of_cons. destruct (String.eqb_spec a account) as [->|Hne].
    + split; [now left | reflexivity].
    + rewrite IH. split; [now right | intros [->|Hin]; [contradiction|exact Hin]].
Qed.

Lemma has_account_app (l1 l2 : list string) (account : string) :
  has_account (l1 ++ l2) account
  = has_account l1 account || has_account l2 account.
Proof.
  induction l1 as [|a l1 IH]; simpl; [reflexivity|].
  destruct (String.eqb a account); [reflexivity | exact IH].
Qed.

Lemma has_without_same (accounts : list string) (account : string) :
  has_account (without_account accounts account) account = false.
Proof.
  induction accounts as [|a rest IH]; simpl; [reflexivity|].
  destruct (String.eqb a account) eqn:E; [exact IH|]. simpl. now rewrite E.
Qed.

Lemma has_without_other (accounts : list string) (account other : string) :
  other <> account ->
  has_account (without_account accounts account) other
  = has_account accounts other.
Proof.
  intros Hne. induction accounts as [|a rest IH]; simpl; [reflexivity|].
  destruct (String.eqb_spec a account) as [->|Ha]; simpl.
  - apply not_eq_sym, String.eqb_neq in Hne. now rewrite Hne.
  - now rewrite IH.
Qed.

Lemma without_fresh (accounts : list string) (account : string) :
  has_account accounts account = false ->
  without_account (accounts ++ [account]) account = accounts.
Proof.
  induction accounts as [|a rest IH]; simpl.
  - now rewrite String.eqb_refl.
  - destruct (String.eqb a account); [discriminate|].
    intros Hf. now rewrite IH.
Qed.

(** The client in memory after the two methods, whatever the saves
    return. *)
Lemma add_account_state (c : Client) (providerName account apiKey : string) :
  Registry.Exists registry providerName = true ->
  fst (AddProviderAccount registry c providerName account apiKey)
  = {| Client_config :=
         if has_account (accounts_of c providerName) account
         then Client_config c
         else with_Providers (Client_config c)
                (<[providerName :=
                     {| ProviderConfig_Accounts :=
                          accounts_of c providerName ++ [account];
                        ProviderConfig_BaseURL :=
                          ProviderConfig_BaseURL
                            (default zero_ProviderConfig
                               (Config_Providers (Client_config c)
                                  !! providerName)) |}]>
                   (Config_Providers (Client_config c)));
       Client_secrets :=
         <[secretKey providerName account := apiKey]> (Client_secrets c) |}.
Proof.
  intros He. unfold AddProviderAccount, accounts_of, secretKey. rewrite He.
  simpl.
  destruct (has_account _ account); [reflexivity|].
  now destruct (Config_Save _).
Qed.

Lemma remove_account_state (c : Client) (providerName account : string)
    (pc : ProviderConfig) :
  Config_Providers (Client_config c) !! providerName = Some pc ->
  has_account (ProviderConfig_Accounts pc) account = true ->
  fst (RemoveProviderAccount c providerName account)
  = {| Client_config :=
         with_Providers (Client_config c)
           (<[providerName :=
                {| ProviderConfig_Accounts :=
                     without_account (ProviderConfig_Accounts pc) account;
                   ProviderConfig_BaseURL := ProviderConfig_BaseURL pc |}]>
              (Config_Providers (Client_config c)));
       Client_secrets :=
         delete (secretKey providerName account) (Client_secrets c) |}.
Proof.
  intros Hpc Hh. unfold RemoveProviderAccount, secretKey. rewrite Hpc, Hh.
  simpl. now destruct (Config_Save _).
Qed.

Lemma has_provider_account (c : Client) (providerName account : string) :
  HasProviderAccount c providerName account
  = has_account (accounts_of c providerName) account.
Proof.
  unfold HasProviderAccount, accounts_of.
  now destruct (Config_Providers (Client_config c) !! providerName).
Qed.

Lemma accounts_of_insert (c : Client) (config : Config) (secrets : gmap string string)
    (providerName : string) (pc : ProviderConfig) :
  accounts_of
    {| Client_config :=
         with_Providers config (<[providerName := pc]> (Config_Providers config));
       Client_secrets := secrets |} providerName
  = ProviderConfig_Accounts pc.
Proof. unfold accounts_of. simpl. now rewrite lookup_insert_eq. Qed.

(** X22. [AddProviderAccount] for a registered provider, whether the
    saves succeed or not: the account is configured afterwards and its
    key is stored; an account that was there is not added twice, so a
    list without repetition stays so; the accounts that were there stay,
    and other providers are untouched.  An unregistered provider is
    refused and nothing changes. *)
Theorem add_provider_account (c : Client) (providerName account apiKey : string) :
  (Registry.Exists registry providerName = false ->
   AddProviderAccount registry c providerName account apiKey
   = (c, Some (Errorf ("unknown provider: " +:+ providerName))))
  /\ (Registry.Exists registry providerName = true ->
      let c' := fst (AddProviderAccount registry c providerName account apiKey) in
      HasProviderAccount c' providerName account = true
      /\ Client_secrets c' !! secretKey providerName account = Some apiKey
      /\ (NoDup (accounts_of c providerName) ->
          NoDup (accounts_of c' providerName))
      /\ (forall a, HasProviderAccount c providerName a = true ->
                    HasProviderAccount c' providerName a = true)
      /\ (forall other, other <> providerName ->
            Config_Providers (Client_config c') !! other
            = Config_Providers (Client_config c) !! other)).
Proof.
  split.
  - intros He. unfold AddProviderAccount. now rewrite He.
  - intros He. cbv zeta. rewrite (add_account_state _ _ _ _ He).
    rewrite !has_provider_account.
    split; [|split; [|split; [|split]]].
    + destruct (has_account (accounts_of c providerName) account) eqn:Eh.
      * exact Eh.
      * rewrite accounts_of_insert by exact c. simpl.
        rewrite has_account_app. simpl.
        now rewrite String.eqb_refl, orb_true_r.
    + simpl. apply lookup_insert_eq.
    + intros Hnd.
      destruct (has_account (accounts_of c providerName) account) eqn:Eh.
      * exact Hnd.
      * rewrite accounts_of_insert by exact c. simpl.
        apply NoDup_app. split; [exact Hnd|]. split; [|apply NoDup_singleton].
        intros x Hx Hx'. apply list_elem_of_singleton in Hx'. subst x.
        apply has_account_In in Hx. congruence.
    + intros a. rewrite !has_provider_account. intros Ha.
      destruct (has_account (accounts_of c providerName) account) eqn:Eh.
      * exact Ha.
      * rewrite accounts_of_insert by exact c. simpl.
        now rewrite has_account_app, Ha.
    + intros other Hne.
      destruct (has_account (accounts_of c providerName) account);
        [reflexivity|].
      simpl. now rewrite lookup_insert_ne by congruence.
Qed.

(** X23. [RemoveProviderAccount] refuses a provider that is not
    configured and an account that is not there, and then changes
    nothing.  Otherwise, whether the saves succeed or not, the account
    is gone together with its key, and the other accounts of the
    provider are as before.  Removing an account that was just added
    gives back the list of accounts there was. *)
Theorem remove_provider_account (c : Client) (providerName account : string) :
  (HasProviderAccount c providerName account = false ->
   fst (RemoveProviderAccount c providerName account) = c
   /\ is_Some (snd (RemoveProviderAccount c providerName account)))
  /\ (HasProviderAccount c providerName account = true ->
      let c' := fst (RemoveProviderAccount c providerName account) in
      HasProviderAccount c' providerName account = false
      /\ Client_secrets c' !! secretKey providerName account = None
      /\ (forall other, other <> account ->
            HasProviderAccount c' providerName other
            = HasProviderAccount c providerName other))
  /\ (forall apiKey,
         Registry.Exists registry providerName = true ->
         HasProviderAccount c providerName account = false ->
         accounts_of
           (fst (RemoveProviderAccount
                   (fst (AddProviderAccount registry c providerName account
                           apiKey))
                   providerName account))
           providerName
         = accounts_of c providerName).
Proof.
  split; [|split].
  - unfold RemoveProviderAccount, HasProviderAccount.
    destruct (Config_Providers (Client_config c) !! providerName) as [pc|];
      [|intros _; split; [reflexivity | eauto]].
    intros ->. simpl. split; [reflexivity | eauto].
  - intros Hh. cbv zeta. unfold HasProviderAccount in Hh.
    destruct (Config_Providers (Client_config c) !! providerName)
      as [pc|] eqn:Epc; [|discriminate].
    rewrite (remove_account_state _ _ _ pc Epc Hh).
    rewrite !has_provider_account, accounts_of_insert by exact c. simpl.
    split; [apply has_without_same|]. split; [apply lookup_delete_eq|].
    intros other Hne. rewrite !has_provider_account.
    rewrite accounts_of_insert by exact c. simpl.
    unfold accounts_of. rewrite Epc. simpl. now apply has_without_other.
  - intros apiKey He Hfresh. rewrite has_provider_account in Hfresh.
    rewrite (add_account_state _ _ _ _ He), Hfresh.
    rewrite (remove_account_state _ _ _
               {| ProviderConfig_Accounts :=
                    accounts_of c providerName ++ [account];
                  ProviderConfig_BaseURL :=
                    ProviderConfig_BaseURL
                      (default zero_ProviderConfig
                         (Config_Providers (Client_config c)
                            !! providerName)) |}).
    + rewrite accounts_of_insert by exact c. simpl.
      now apply without_fresh.
    + simpl. apply lookup_insert_eq.
    + simpl. rewrite has_account_app. simpl.
      now rewrite String.eqb_refl, orb_true_r.
Qed.

Lemma colon_free_cons (x : ascii) (s : string) :
  colon_free (String x s) -> x <> ":"%char /\ colon_free s.
Proof.
  intros Hf. split.
  - intros ->. now apply (Hf "" s).
  - intros a b ->. now apply (Hf (String x a) b).
Qed.

Lemma secretKey_inj (p a p' a' : string) :
  colon_free p -> colon_free p' ->
  secretKey p a = secretKey p' a' -> p = p' /\ a = a'.
Proof.
  unfold secretKey. revert p'.
  induction p as [|x p IH]; intros [|y p'] Hp Hp';
    repeat first [rewrite app_nil | rewrite app_cons].
  - intros [= ->]. now split.
  - intros [= <- _]. now apply colon_free_cons in Hp' as [Hy _].
  - intros [= -> _]. now apply colon_free_cons in Hp as [Hx _].
  - intros [= -> E]. apply colon_free_cons in Hp as [_ Hp].
    apply colon_free_cons in Hp' as [_ Hp'].
    destruct (IH p' Hp Hp' E) as [-> ->]. now split.
Qed.

(** X24. Keys of different accounts do not collide when the provider
    names hold no colon: adding or removing the account of one pair
    (provider, account) leaves the key stored for every other pair as it
    was. *)
Theorem secrets_of_other_accounts (c : Client)
    (providerName account apiKey other_provider other_account : string) :
  colon_free providerName ->
  colon_free other_provider ->
  (other_provider, other_account) <> (providerName, account) ->
  Client_secrets
    (fst (AddProviderAccount registry c providerName account apiKey))
    !! secretKey other_provider other_account
  = Client_secrets c !! secretKey other_provider other_account
  /\ Client_secrets (fst (RemoveProviderAccount c providerName account))
       !! secretKey other_provider other_account
     = Client_secrets c !! secretKey other_provider other_account.
Proof.
  intros Hp Ho Hne.
  assert (Hk : secretKey providerName account
               <> secretKey other_provider other_account).
  { intros E. apply secretKey_inj in E as [-> ->]; auto. }
  unfold secretKey in Hk. split.
  - unfold AddProviderAccount.
    destruct (negb (Registry.Exists registry providerName)); [reflexivity|].
    destruct (has_account _ account); simpl.
    + now rewrite lookup_insert_ne.
    + destruct (Config_Save _); simpl; now rewrite lookup_insert_ne.
  - unfold RemoveProviderAccount.
    destruct (Config_Providers (Client_config c) !! providerName) as [pc|];
      [|reflexivity].
    destruct (negb (has_account _ account)); [reflexivity|].
    destruct (Config_Save _); simpl; now rewrite lookup_delete_ne.
Qed.

End Accounts.

(** * The client and the command line *)

Section Dispatch.
Import sage.

Lemma response_copy (v : Response) :
  {| Response_Content := Response_Content v;
     Response_Model := Response_Model v;
     Response_Usage :=
       {| Usage_PromptTokens := Usage_PromptTokens (Response_Usage v);
          Usage_CompletionTokens := Usage_CompletionTokens (Response_Usage v) |} |}
  = v.
Proof. destruct v as [content model [p c]]. reflexivity. Qed.

Lemma chunks_copy (chunks : list Chunk) :
  map (fun chunk => {| Chunk_Content := Chunk_Content chunk;
                       Chunk_Done := Chunk_Done chunk;
                       Chunk_Error := Chunk_Error chunk |}) chunks
  = chunks.
Proof.
  induction chunks as [|[c d e] rest IH]; simpl; [reflexivity|].
  now rewrite IH.
Qed.

(** X25. The client adds nothing to what the provider of the profile
    returns: response, chunks (all of them, in order) and errors are
    handed on as they are.  A profile whose provider is not registered
    fails with the registry's error, and a profile that is not found
    with [GetProfile]'s.  The profile looked up a second time, whose
    error the code drops, is always there. *)
Theorem client_dispatch (registry : gmap string Registry.Constructor)
    (c : Client) (profileName : string) (req : Request) :
  (forall e, GetProfile (Client_config c) profileName = Err e ->
             Complete registry c profileName req = Err e
             /\ CompleteStream registry c profileName req = Err e)
  /\ (forall r, buildProviderRequest c profileName req = Ok r ->
        exists p,
          GetProfile (Client_config c) profileName = Ok p
          /\ (forall e,
                Registry.Get registry (Profile_Provider p) = Err e ->
                Complete registry c profileName req = Err e
                /\ CompleteStream registry c profileName req = Err e)
          /\ (forall provider,
                Registry.Get registry (Profile_Provider p) = Ok provider ->
                Complete registry c profileName req
                = Registry.Provider_Complete provider r
                /\ CompleteStream registry c profileName req
                   = Registry.Provider_CompleteStream provider r)).
Proof.
  unfold Complete, CompleteStream, buildProviderRequest. split.
  - now intros e ->.
  - intros r.
    destruct (GetProfile (Client_config c) profileName) as [p|e]; [|discriminate].
    intros [= <-]. exists p. split; [reflexivity|]. split.
    + now intros e ->.
    + intros provider ->. split.
      * destruct (Registry.Provider_Complete provider _) as [v|e];
          [|reflexivity].
        now rewrite response_copy.
      * destruct (Registry.Provider_CompleteStream provider _) as [chunks|e];
          [|reflexivity].
        now rewrite chunks_copy.
Qed.

End Dispatch.

Section CommandLine.
Import cli stringsFacts.

Lemma print_content_chunk (chunk : Chunk) (rest : list Chunk) :
  is_content_chunk chunk ->
  print_chunks (chunk :: rest)
  = (Chunk_Content chunk +:+ fst (print_chunks rest), snd (print_chunks rest)).
Proof.
  intros (_ & Hd & He). simpl. rewrite He, Hd.
  now destruct (print_chunks rest).
Qed.

Lemma print_prefix (pre rest : list Chunk) :
  Forall is_content_chunk pre ->
  print_chunks (pre ++ rest)
  = (contents pre +:+ fst (print_chunks rest), snd (print_chunks rest)).
Proof.
  induction 1 as [|chunk pre Hc _ IH]; simpl app.
  - simpl contents. rewrite app_nil. now destruct (print_chunks rest).
  - rewrite (print_content_chunk _ _ Hc), IH. simpl.
    now rewrite app_assoc.
Qed.

(** X26. What [sage complete] prints for a stream.  The contents of
    the content chunks are printed in order.  At a [done] chunk, and
    likewise when the channel is closed without a terminal chunk, a
    newline follows and the command succeeds; at an error chunk the
    error is returned and no newline is printed.  Chunks after the
    terminal one are not printed. *)
Theorem cli_prints_contents (pre rest : list Chunk) (e : error) :
  Forall is_content_chunk pre ->
  print_chunks (pre ++ chunk_done :: rest)
  = (contents pre +:+ String "010" EmptyString, None)
  /\ print_chunks pre = (contents pre +:+ String "010" EmptyString, None)
  /\ print_chunks (pre ++ chunk_error e :: rest) = (contents pre, Some e).
Proof.
  intros Hpre. split; [|split].
  - now rewrite (print_prefix _ _ Hpre).
  - rewrite <- (app_nil_r pre) at 1. now rewrite (print_prefix _ _ Hpre).
  - rewrite (print_prefix _ _ Hpre). simpl. now rewrite app_empty_r.
Qed.

Lemma reorderArgs_loop_spec (args flags positional : list string) :
  reorderArgs_loop args flags positional
  = (flags ++ List.filter is_flag args,
     positional ++ List.filter (fun arg => negb (is_flag arg)) args).
Proof.
  revert flags positional.
  induction args as [|arg args IH]; intros flags positional.
  - simpl. now rewrite !app_nil_r.
  - change (reorderArgs_loop (arg :: args) flags positional)
      with (if is_flag arg
            then reorderArgs_loop args (flags ++ [arg]) positional
            else reorderArgs_loop args flags (positional ++ [arg])).
    simpl List.filter.
    destruct (is_flag arg); simpl negb; cbv iota;
      rewrite IH, <- !List.app_assoc; reflexivity.
Qed.

Lemma filter_filter_same (keep : string -> bool) (l : list string) :
  List.filter keep (List.filter keep l) = List.filter keep l.
Proof.
  induction l as [|x l IH]; simpl; [reflexivity|].
  destruct (keep x) eqn:E; simpl; [now rewrite E, IH | exact IH].
Qed.

Lemma filter_filter_neg (keep : string -> bool) (l : list string) :
  List.filter keep (List.filter (fun x => negb (keep x)) l) = [].
Proof.
  induction l as [|x l IH]; simpl; [reflexivity|].
  destruct (keep x) eqn:E; simpl; [exact IH | now rewrite E, IH].
Qed.

Lemma filter_neg_filter (keep : string -> bool) (l : list string) :
  List.filter (fun x => negb (keep x)) (List.filter keep l) = [].
Proof.
  induction l as [|x l IH]; simpl; [reflexivity|].
  destruct (keep x) eqn:E; simpl; [now rewrite E, IH | exact IH].
Qed.

Lemma filter_partition (keep : string -> bool) (l : list string) :
  List.filter keep l ++ List.filter (fun x => negb (keep x)) l ≡ₚ l.
Proof.
  induction l as [|x l IH]; simpl; [reflexivity|].
  destruct (keep x); simpl.
  - now rewrite IH.
  - rewrite <- Permutation_middle. now rewrite IH.
Qed.

(** X27. [reorderArgs] returns the arguments it was given, the flags
    first and the positional arguments after them, each group in its
    original order; applying it twice changes nothing more. *)
Theorem reorder_args (args : list string) :
  reorderArgs args
  = List.filter is_flag args
    ++ List.filter (fun arg => negb (is_flag arg)) args
  /\ reorderArgs args ≡ₚ args
  /\ reorderArgs (reorderArgs args) = reorderArgs args.
Proof.
  assert (E : forall l, reorderArgs l
                        = List.filter is_flag l
                          ++ List.filter (fun arg => negb (is_flag arg)) l).
  { intros l. unfold reorderArgs. now rewrite reorderArgs_loop_spec. }
  split; [apply E|]. split.
  - rewrite E. apply filter_partition.
  - rewrite (E (reorderArgs args)), (E args).
    rewrite !List.filter_app.
    rewrite filter_filter_same, filter_filter_neg, filter_neg_filter.
    rewrite (filter_filter_same (fun arg => negb (is_flag arg))).
    now rewrite app_nil_r.
Qed.

End CommandLine.

(** * Listing models, and the secrets *)

Section ListModels.
Import strings stringsFacts OpenAIModels.
Context `{HTTPClient} `{Unmarshaler openaiModelsResponse}.





(** X28. The model list is asked of the same URL whether or not the
    base-URL override ends in a slash, so the two calls give the same
    result; without an override the default endpoint of OpenAI is
    used. *)
Theorem list_models_endpoint (apiKey b : string) :
  b <> "" ->
  ~ (exists t, b = t +:+ "/") ->
  models_endpoint b = b +:+ "/v1/models"
  /\ models_endpoint (b +:+ "/") = models_endpoint b
  /\ ListModels apiKey (b +:+ "/") = ListModels apiKey b
  /\ models_endpoint "" = "https://api.openai.com/v1/models".
Proof.
  intros Hne Hb. destruct (TrimSuffix_slash b Hb) as [H1 H2].
  apply String.eqb_neq in Hne.
  assert (E : models_endpoint (b +:+ "/") = models_endpoint b).
  { unfold models_endpoint. now rewrite Hne, slash_nonempty, H1, H2. }
  repeat split.
  - unfold models_endpoint. now rewrite Hne, H1.
  - exact E.
  - unfold ListModels. now rewrite E.
Qed.


End ListModels.

Section CryptoFacts.
Import strings stringsFacts secrets.
Context `{AEAD}.

(** X30. What [encrypt] returns, [decrypt] reads back: for a nonce of
    twelve bytes and a cipher that opens what it sealed, the data is the
    nonce followed by the sealed text, and decrypting it under the same
    key gives the plaintext.  Data of fewer than twelve bytes is refused
    as too short before the key is looked at. *)
Theorem decrypt_encrypt (key plaintext nonce data : string) :
  String.length nonce = nonceSize ->
  Open key nonce (Seal key nonce plaintext) = Ok plaintext ->
  encrypt key plaintext (Ok nonce) = Ok data ->
  data = nonce +:+ Seal key nonce plaintext
  /\ decrypt key data = Ok plaintext
  /\ (forall (other short : string),
        (String.length short < nonceSize)%nat ->
        decrypt other short = Err (Errorf "ciphertext too short")).
Proof.
  intros Hlen Hopen. unfold encrypt, decrypt.
  destruct (cipher_error key) eqn:Hk; [discriminate|].
  intros [= <-]. split; [reflexivity|]. split.
  - rewrite length_app, Hlen.
    replace (nonceSize + _ <? nonceSize)%nat with false
      by (symmetry; apply Nat.ltb_ge; lia).
    cbv zeta.
    rewrite <- Hlen at 2. rewrite slice_from_app.
    unfold slice_to. rewrite <- Hlen, substring_0_app.
    now rewrite Hopen.
  - intros other short Hs. apply Nat.ltb_lt in Hs. now rewrite Hs.
Qed.

End CryptoFacts.

(** * The further properties on concrete inputs *)

Section FurtherExamples.
Import RefJSON Wire.
#[local] Existing Instances openai RefJSON.anthropic_event ollama.

Lemma openai_headers_witness :
  let r := {| Method := "POST"; URL := "https://api.openai.com/v1/chat/completions";
              Header := {[ "X-Request-Id" := ["7"] ]}; ReqBody := JNull |} in
  Header (OpenAI.setHeaders r "sk-1") !! "X-Request-Id" = Some ["7"].
Proof.
  intros r. pose proof (openai_headers r "sk-1") as Hh. cbv zeta in Hh.
  destruct Hh as (_ & _ & Hother & _).
  rewrite Hother; [reflexivity | discriminate | discriminate].
Defined.

Lemma non_success_status_starts_no_stream_witness :
  @OpenAI.CompleteStream (stub_client 401 error_body) openai scenario_request
  = Err (Errorf "invalid API key: bad key")
  /\ @Ollama.Complete (stub_client 500 (stub_body "down" [])) ollama
       scenario_request
     = Err (ErrorfStatus "ollama error" 500 "down").
Proof.
  split.
  - refine (proj1 (@non_success_status_starts_no_stream
                     (stub_client 401 error_body) openai anthropic_response
                     anthropic_error RefJSON.anthropic_event ollama
                     scenario_request true _
                     {| StatusCode := 401; RespBody := error_body |} _) _ _).
    + discriminate.
    + reflexivity.
    + reflexivity.
  - refine (proj2 (proj2 (@non_success_status_starts_no_stream
                     (stub_client 500 (stub_body "down" [])) openai
                     anthropic_response anthropic_error
                     RefJSON.anthropic_event ollama
                     scenario_request false _
                     {| StatusCode := 500; RespBody := stub_body "down" [] |} _))
              _ _).
    + discriminate.
    + reflexivity.
    + reflexivity.
Defined.

Lemma openai_error_classification_witness :
  @OpenAI.handleError openai {| StatusCode := 401; RespBody := error_body |}
  = Errorf "invalid API key: bad key"
  /\ @OpenAI.handleError openai
       {| StatusCode := 502; RespBody := stub_body "Bad Gateway" [] |}
     = ErrorfStatus "API error" 502 "Bad Gateway".
Proof.
  split.
  - pose proof (@openai_error_classification openai
                  {| StatusCode := 401; RespBody := error_body |}) as Hc.
    cbv zeta in Hc. destruct Hc as [Hc _].
    edestruct Hc as (H401 & _); [reflexivity | reflexivity |].
    exact (H401 eq_refl).
  - pose proof (@openai_error_classification openai
                  {| StatusCode := 502;
                     RespBody := stub_body "Bad Gateway" [] |}) as Hc.
    cbv zeta in Hc. destruct Hc as [_ Hc].
    apply Hc. intros r Hr. discriminate Hr.
Defined.

Lemma complete_success_witness :
  let v := {| Response_Content := "4"; Response_Model := "gpt-4o";
              Response_Usage := {| Usage_PromptTokens := 5;
                                   Usage_CompletionTokens := 1 |} |} in
  @OpenAI.Complete (stub_client 200 one_choice) openai scenario_request = Ok v
  /\ Response_Model v = Model scenario_request.
Proof.
  intros v. split; [reflexivity|].
  destruct (proj1 (@complete_success (stub_client 200 one_choice) openai
                     anthropic_response anthropic_error ollama
                     scenario_request v) eq_refl)
    as (httpReq & resp & r & choice & rest & _ & _ & _ & _ & _ & Hm).
  exact Hm.
Defined.

Lemma stream_invariant_witness :
  exists pre t,
    OpenAI.decoder {| scan_lines := ["data: " +:+ openai_chunk "Hi"];
                      scan_err := Some (LibErr "unexpected EOF") |}
    = pre ++ [t]
    /\ is_terminal_chunk t.
Proof.
  refine (proj1 (proj2 (@stream_invariant openai RefJSON.anthropic_event ollama
                          {| scan_lines := ["data: " +:+ openai_chunk "Hi"];
                             scan_err := Some (LibErr "unexpected EOF") |})
                   _)).
  discriminate.
Defined.

Lemma read_error_ends_stream_witness :
  OpenAI.decoder {| scan_lines := ["data: " +:+ openai_chunk "Hi"];
                    scan_err := Some (LibErr "unexpected EOF") |}
  = [chunk_content "Hi";
     chunk_error (Wrapf "stream read error" (LibErr "unexpected EOF"))].
Proof.
  refine (proj1 (@read_error_ends_stream openai RefJSON.anthropic_event ollama
                   {| scan_lines := ["data: " +:+ openai_chunk "Hi"];
                      scan_err := Some (LibErr "unexpected EOF") |}
                   (LibErr "unexpected EOF") eq_refl) _).
  exists tt. reflexivity.
Defined.

Lemma nothing_after_terminal_witness :
  OpenAI.decoder
    {| scan_lines := ["data: " +:+ openai_chunk "Hi"; "data: [DONE]";
                      "data: " +:+ openai_chunk "late"];
       scan_err := Some (LibErr "unexpected EOF") |}
  = [chunk_content "Hi"; chunk_done].
Proof.
  refine (proj1 (@nothing_after_terminal openai RefJSON.anthropic_event ollama
                   ["data: " +:+ openai_chunk "Hi"; "data: [DONE]"]
                   ["data: " +:+ openai_chunk "late"]
                   (Some (LibErr "unexpected EOF")))
            [chunk_content "Hi"; chunk_done] _).
  reflexivity.
Defined.

Lemma contentless_payload_is_invisible_witness :
  OpenAI.decoder
    (lines ["data: " +:+ openai_chunk "Hi"; "data: " +:+ body_data no_choices;
            "data: [DONE]"])
  = OpenAI.decoder (lines ["data: " +:+ openai_chunk "Hi"; "data: [DONE]"])
  /\ Anthropic.decoder
       (lines ["event: ping"; "data: {bad"; "event: message_stop"; "data: {}"])
     = Anthropic.decoder
         (lines ["event: ping"; "event: message_stop"; "data: {}"])
  /\ Ollama.decoder
       (lines [ollama_message "Hi" false; ollama_message "" false;
               ollama_message "" true])
     = Ollama.decoder
         (lines [ollama_message "Hi" false; ollama_message "" true]).
Proof.
  split; [|split].
  - refine (proj1 (@contentless_payload_is_invisible openai
                     RefJSON.anthropic_event ollama
                     ["data: " +:+ openai_chunk "Hi"] ["data: [DONE]"]
                     [chunk_content "Hi"] (body_data no_choices) None) _ _ _).
    + reflexivity.
    + discriminate.
    + eexists. split; [reflexivity | exact I].
  - refine (proj1 (proj2 (proj2 (@contentless_payload_is_invisible openai
                     RefJSON.anthropic_event ollama
                     ["event: ping"] ["event: message_stop"; "data: {}"]
                     [] "{bad" None))) "ping" _ _ _).
    + reflexivity.
    + discriminate.
    + discriminate.
  - refine (proj2 (proj2 (proj2 (@contentless_payload_is_invisible openai
                     RefJSON.anthropic_event ollama
                     [ollama_message "Hi" false] [ollama_message "" true]
                     [chunk_content "Hi"] (ollama_message "" false) None)))
              _ _ _).
    + reflexivity.
    + discriminate.
    + eexists. repeat split; reflexivity.
Defined.

Lemma ollama_error_field_ends_stream_witness :
  Ollama.decoder
    (lines [ollama_message "Hi" false;
            "{" +:+ q "error" +:+ ":" +:+ q "boom" +:+ "}";
            ollama_message "late" true])
  = [chunk_content "Hi"; chunk_error (Errorf "ollama error: boom")].
Proof.
  etransitivity.
  - eapply (@ollama_error_field_ends_stream ollama
              [ollama_message "Hi" false] [ollama_message "late" true]
              [chunk_content "Hi"]
              ("{" +:+ q "error" +:+ ":" +:+ q "boom" +:+ "}") _ None).
    + reflexivity.
    + discriminate.
    + reflexivity.
    + discriminate.
  - reflexivity.
Defined.

Lemma anthropic_needs_event_witness :
  Anthropic.decoder
    (lines ["data: " +:+ anthropic_text_delta "Hi"; "data: {bad"])
  = [].
Proof.
  apply (@anthropic_needs_event RefJSON.anthropic_event
           ["data: " +:+ anthropic_text_delta "Hi"; "data: {bad"] None).
  repeat constructor.
Defined.

End FurtherExamples.

Section ClientExamples.
Import sage.

Lemma registry_lookup_witness :
  Registry.Get sample_registry "gemini"
  = Err (Errorf "unknown provider: gemini")
  /\ exists p, Registry.Get sample_registry "openai" = Ok p.
Proof.
  pose proof (registry_lookup sample_registry "gemini"
                (fixed_provider "gemini" [])) as (_ & _ & Hn).
  split.
  - apply (proj2 (Hn "gemini")). reflexivity.
  - apply (proj1 (proj1 (Hn "openai"))). reflexivity.
Defined.

Lemma registry_list_sorted_witness :
  Registry.List
    (Registry.Register
       (Registry.Register ∅ "ollama" (fixed_provider "ollama" []))
       "openai" (fixed_provider "openai" []))
  = Registry.List sample_registry.
Proof.
  apply (proj2 (proj2 (proj2 (registry_list_sorted sample_registry)))).
  intros name. unfold sample_registry, Registry.Exists, Registry.Register.
  destruct (decide (name = "openai")) as [->|H1]; [reflexivity|].
  destruct (decide (name = "ollama")) as [->|H2]; [reflexivity|].
  now rewrite !lookup_insert_ne by congruence.
Defined.

Lemma get_profile_witness :
  Profile_Name (named "fast" sample_profile) <> ""
  /\ GetProfile (Client_config sample_client) "slow"
     = Err (Errorf "profile not found: slow").
Proof.
  split.
  - apply (proj1 (proj2 (get_profile (Client_config sample_client) "fast"))
             (named "fast" sample_profile)).
    reflexivity.
  - apply (proj2 (proj2 (get_profile (Client_config sample_client) "slow")));
      [discriminate | reflexivity].
Defined.

Lemma provider_request_witness :
  exists r,
    buildProviderRequest sample_client "" sample_request = Ok r
    /\ Model r = "gpt-4o"
    /\ APIKey r = "sk-1".
Proof.
  destruct (proj2 (provider_request sample_client "" sample_request)
              (named "fast" sample_profile) eq_refl)
    as (r & Hr & Hm & _ & _ & _ & Hk & _).
  exists r. split; [exact Hr|]. split; [exact Hm|].
  apply Hk. reflexivity.
Defined.

Lemma default_profile_preserved_witness :
  default_profile_ok
    (Client_config (fst (@RemoveProfile storage_ok sample_client "fast")))
  /\ default_profile_ok
       (Client_config (fst (@SetDefaultProfile storage_ok sample_client "smart"))).
Proof.
  assert (Hok : default_profile_ok (Client_config sample_client))
    by (right; eexists; reflexivity).
  split.
  - exact (proj1 (proj2 (@default_profile_preserved storage_ok sample_registry
                           sample_client "fast" sample_profile Hok))).
  - exact (proj2 (proj2 (@default_profile_preserved storage_ok sample_registry
                           sample_client "smart" sample_profile Hok))).
Defined.

Lemma remove_profile_witness :
  @RemoveProfile storage_ok sample_client "fast"
  = (sample_client, Some (Errorf "cannot remove default profile: fast"))
  /\ @RemoveProfile storage_ok sample_client "slow"
     = (sample_client, Some (Errorf "profile not found: slow"))
  /\ Config_Profiles
       (Client_config (fst (@RemoveProfile storage_ok sample_client "smart")))
       !! "smart" = None.
Proof.
  split; [|split].
  - apply (proj1 (proj2 (@remove_profile storage_ok sample_client "fast")));
      [eexists|]; reflexivity.
  - apply (proj1 (@remove_profile storage_ok sample_client "slow")).
    reflexivity.
  - pose proof (proj2 (proj2 (@remove_profile storage_ok sample_client "smart")))
      as Hr.
    cbv zeta in Hr. apply Hr; [eexists; reflexivity | discriminate].
Defined.


Lemma add_provider_account_witness :
  (let c' := fst (@AddProviderAccount storage_ok sample_registry sample_client
                    "openai" "work" "sk-2") in
   HasProviderAccount c' "openai" "work" = true
   /\ HasProviderAccount c' "openai" "default" = true
   /\ NoDup (accounts_of c' "openai"))
  /\ @AddProviderAccount storage_ok sample_registry sample_client
       "gemini" "work" "sk-2"
     = (sample_client, Some (Errorf "unknown provider: gemini")).
Proof.
  pose proof (@add_provider_account storage_ok sample_registry sample_client
                "openai" "work" "sk-2") as [_ Hadd].
  cbv zeta in Hadd. destruct (Hadd eq_refl) as (Hw & _ & Hnd & Hold & _).
  split; [cbv zeta; split; [exact Hw | split]|].
  - apply Hold. reflexivity.
  - apply Hnd. apply NoDup_singleton.
  - apply (proj1 (@add_provider_account storage_ok sample_registry
                    sample_client "gemini" "work" "sk-2")).
    reflexivity.
Defined.

Lemma remove_provider_account_witness :
  (let c' := fst (@RemoveProviderAccount storage_ok sample_client
                    "openai" "default") in
   HasProviderAccount c' "openai" "default" = false
   /\ Client_secrets c' !! secretKey "openai" "default" = None)
  /\ fst (@RemoveProviderAccount storage_ok sample_client "openai" "work")
     = sample_client
  /\ accounts_of
       (fst (@RemoveProviderAccount storage_ok
               (fst (@AddProviderAccount storage_ok sample_registry
                       sample_client "openai" "work" "sk-2"))
               "openai" "work")) "openai"
     = ["default"].
Proof.
  split; [|split].
  - pose proof (proj1 (proj2 (@remove_provider_account storage_ok
                                sample_registry sample_client
                                "openai" "default"))) as Hr.
    cbv zeta in Hr. destruct (Hr eq_refl) as (H1 & H2 & _).
    cbv zeta. split; [exact H1 | exact H2].
  - apply (proj1 (@remove_provider_account storage_ok sample_registry
                    sample_client "openai" "work")).
    reflexivity.
  - apply (proj2 (proj2 (@remove_provider_account storage_ok sample_registry
                           sample_client "openai" "work")) "sk-2");
      reflexivity.
Defined.

Lemma openai_colon_free : colon_free "openai".
Proof.
  intros a b E.
  assert (C : strings.Contains "openai" ":" = true)
    by (apply stringsFacts.Contains_spec; eauto).
  discriminate C.
Qed.

Lemma secrets_of_other_accounts_witness :
  Client_secrets
    (fst (@AddProviderAccount storage_ok sample_registry sample_client
            "openai" "work" "sk-2"))
    !! secretKey "openai" "default"
  = Some "sk-1".
Proof.
  etransitivity.
  - apply (proj1 (@secrets_of_other_accounts storage_ok sample_registry
                    sample_client "openai" "work" "sk-2" "openai" "default"
                    openai_colon_free openai_colon_free
                    ltac:(discriminate))).
  - reflexivity.
Defined.

Lemma client_dispatch_witness :
  CompleteStream sample_registry sample_client "" sample_request
  = Ok [chunk_content "Hi"; chunk_done]
  /\ Complete sample_registry sample_client "slow" sample_request
     = Err (Errorf "profile not found: slow").
Proof.
  pose proof (client_dispatch sample_registry sample_client "slow"
                sample_request) as [Herr _].
  destruct (proj2 (client_dispatch sample_registry sample_client ""
                     sample_request) _ eq_refl) as (p & Hp & _ & Hd).
  injection Hp as <-.
  split.
  - exact (proj2 (Hd _ eq_refl)).
  - exact (proj1 (Herr _ eq_refl)).
Defined.

Lemma cli_prints_contents_witness :
  cli.print_chunks
    [chunk_content "Hel"; chunk_content "lo"; chunk_done; chunk_content "late"]
  = ("Hello" +:+ String "010" EmptyString, None)
  /\ cli.print_chunks
       [chunk_content "Hel"; chunk_error (LibErr "unexpected EOF")]
     = ("Hel", Some (LibErr "unexpected EOF")).
Proof.
  split.
  - refine (proj1 (cli_prints_contents [chunk_content "Hel"; chunk_content "lo"]
                     [chunk_content "late"] (LibErr "unexpected EOF") _)).
    repeat (constructor; [split; [discriminate | split; reflexivity]|]).
    constructor.
  - refine (proj2 (proj2 (cli_prints_contents [chunk_content "Hel"] []
                            (LibErr "unexpected EOF") _))).
    repeat (constructor; [split; [discriminate | split; reflexivity]|]).
    constructor.
Defined.

Lemma list_models_endpoint_witness :
  @OpenAIModels.ListModels (stub_client 200 models_body) models_json
    "sk-1" "https://custom.api.com/"
  = @OpenAIModels.ListModels (stub_client 200 models_body) models_json
      "sk-1" "https://custom.api.com".
Proof.
  refine (proj1 (proj2 (proj2 (@list_models_endpoint
                                 (stub_client 200 models_body) models_json
                                 "sk-1" "https://custom.api.com" _ _)))).
  - discriminate.
  - intros [t Ht].
    assert (E : strings.HasSuffix "https://custom.api.com" "/" = true)
      by (apply stringsFacts.HasSuffix_spec; now exists t).
    discriminate E.
Defined.


Lemma decrypt_encrypt_witness :
  @secrets.encrypt plain_cipher "key" "sk-1" (Ok "0123456789ab")
  = Ok "0123456789absk-1"
  /\ @secrets.decrypt plain_cipher "key" "0123456789absk-1" = Ok "sk-1"
  /\ @secrets.decrypt plain_cipher "key" "0123456789a"
     = Err (Errorf "ciphertext too short").
Proof.
  destruct (@decrypt_encrypt plain_cipher "key" "sk-1" "0123456789ab"
              "0123456789absk-1" eq_refl eq_refl eq_refl) as (_ & Hd & Hs).
  split; [reflexivity|]. split; [exact Hd|].
  apply Hs. simpl. unfold secrets.nonceSize. lia.
Defined.

End ClientExamples.
